(** * Verification of the POS back office and of the house price predictor

    The repository bundles two applications:

    - an Odoo point-of-sale back office
      ([AIbasedpossystem/backend/pos_sales], [pos_products]);
    - a FastAPI price-prediction service
      ([myanmar-house-price-predictor/backend/app]).

    Both are embedded here as executable Rocq functions.  Conventions:

    - a Python [float] is a rational [Q] (exact arithmetic: rounding, NaN
      and infinities are not represented); equality of floats is [Qeq];
    - a Python [dict] is a [gmap], or an association list where the order
      of its keys matters (the rows a data frame is built from); a record
      set / list is a [list];
    - code that raises is a function into [outcome], which carries the
      store as it is when the exception leaves the function (Python does
      not undo the writes made before a [raise]);
    - the gettext marker [_] is the identity. *)

From Stdlib Require Import ZArith QArith Qminmax Ascii String List Lia Lqa Bool.
From stdpp Require Import gmap strings list fin_maps sorting pretty.

Open Scope string_scope.

(** ** Exceptions and mutable state *)

Module Py.

(** The result of running a function on a store [S]: it returns a value, or an
    exception of type [E] escapes.  Both keep the store. *)
Inductive outcome (E S A : Type) : Type :=
| Return (a : A) (s : S)
| Raise (e : E) (s : S).
Arguments Return {E S A} a s.
Arguments Raise {E S A} e s.

Definition M (E S A : Type) : Type := S -> outcome E S A.

Definition ret {E S A} (a : A) : M E S A := fun s => Return a s.
Definition raise {E S A} (e : E) : M E S A := fun s => Raise e s.
Definition bind {E S A B} (c : M E S A) (k : A -> M E S B) : M E S B :=
  fun s => match c s with
           | Return a s' => k a s'
           | Raise e s' => Raise e s'
           end.
Definition get {E S} : M E S S := fun s => Return s s.
Definition modify {E S} (f : S -> S) : M E S unit := fun s => Return tt (f s).

(** [for x in xs: body(x)] *)
Fixpoint for_each {E S A} (xs : list A) (body : A -> M E S unit) : M E S unit :=
  match xs with
  | [] => ret tt
  | x :: rest => bind (body x) (fun _ => for_each rest body)
  end.

Definition store_of {E S A} (o : outcome E S A) : S :=
  match o with Return _ s => s | Raise _ s => s end.

Definition raised {E S A} (o : outcome E S A) : option E :=
  match o with Return _ _ => None | Raise e _ => Some e end.

(** Truthiness of a float, and the comparisons the code uses. *)
Definition truthy (q : Q) : bool := negb (Qeq_bool q 0).
Definition Qltb (a b : Q) : bool := negb (Qle_bool b a).

(** [sum(xs)]: Python adds from the left, starting at [0]. *)
Definition sum (xs : list Q) : Q := fold_left Qplus xs 0%Q.

End Py.

Notation "x <- c ;; k" := (Py.bind c (fun x => k))
  (at level 100, c at next level, right associativity).
Notation "c ;;; k" := (Py.bind c (fun _ => k))
  (at level 100, right associativity).

(** ** pos_sales: payments and orders *)

Module PosSales.
Import Py.

Inductive exn : Type :=
| ValidationError (msg : string)
| UserError (msg : string)
| MissingError.

Module PaymentStatus.
Inductive t := pending | done | failed | reversed.
Definition eqb (a b : t) : bool :=
  match a, b with
  | pending, pending | done, done | failed, failed | reversed, reversed => true
  | _, _ => false
  end.
End PaymentStatus.

Module OrderState.
Inductive t := draft | paid | done | invoiced | cancel.
Definition eqb (a b : t) : bool :=
  match a, b with
  | draft, draft | paid, paid | done, done
  | invoiced, invoiced | cancel, cancel => true
  | _, _ => false
  end.
End OrderState.

Inductive InvoiceState := no | inv_invoiced.

(** [pos.payment].  A [Char]/[Text] field that is not set reads as [False];
    it is the empty string here (both are falsy). *)
Module PosPayment.
Record t := mk {
  name : string;
  order_id : nat;
  amount : Q;
  payment_date : Z;
  payment_method_id : nat;
  transaction_id : string;
  card_type : string;
  cardholder_name : string;
  payment_status : PaymentStatus.t;
  note : string;
  is_change : bool
}.
End PosPayment.

(** [pos.order.line]: the two subtotals are computed by the tax engine of
    the framework ([tax_ids.compute_all]) and are stored values here. *)
Module PosOrderLine.
Record t := mk {
  order_id : nat;
  name : string;
  qty : Q;
  price_unit : Q;
  discount : Q;
  price_subtotal : Q;
  price_subtotal_incl : Q
}.
End PosOrderLine.

Module PosOrder.
Record t := mk {
  name : string;
  state : OrderState.t;
  receipt_number : string;
  external_id : string;
  note : string;
  account_move_id : option nat;
  invoice_state : InvoiceState
}.
Definition set_state (s : OrderState.t) (o : t) : t :=
  mk (name o) s (receipt_number o) (external_id o) (note o)
     (account_move_id o) (invoice_state o).
Definition set_invoiced (move : nat) (o : t) : t :=
  mk (name o) OrderState.invoiced (receipt_number o) (external_id o) (note o)
     (Some move) inv_invoiced.
End PosOrder.

(** The tables of the database, and the counter of [ir.sequence]. *)
Record Database := mkDb {
  pos_payment : gmap nat PosPayment.t;
  pos_order : gmap nat PosOrder.t;
  pos_order_line : gmap nat PosOrderLine.t;
  ir_sequence : nat
}.

Definition set_pos_payment (f : gmap nat PosPayment.t -> gmap nat PosPayment.t)
    (db : Database) : Database :=
  mkDb (f (pos_payment db)) (pos_order db) (pos_order_line db) (ir_sequence db).
Definition set_pos_order (f : gmap nat PosOrder.t -> gmap nat PosOrder.t)
    (db : Database) : Database :=
  mkDb (pos_payment db) (f (pos_order db)) (pos_order_line db) (ir_sequence db).
Definition bump_sequence (db : Database) : Database :=
  mkDb (pos_payment db) (pos_order db) (pos_order_line db) (S (ir_sequence db)).

(** Identifiers of a table, highest first ([_order = 'id desc']). *)
Definition ids_desc {A} (tbl : gmap nat A) : list nat :=
  reverse (merge_sort Nat.le (map fst (map_to_list tbl))).

(** Reading a field of a record that does not exist raises [MissingError]. *)
Definition browse {A} (tbl : Database -> gmap nat A) (id : nat)
    : M exn Database A :=
  fun db => match tbl db !! id with
            | Some r => Return r db
            | None => Raise MissingError db
            end.

Section WithFramework.
(** How the framework prints a datetime, and the reference the sequence
    [ir.sequence] gives for its n-th call. *)
Variable str_datetime : Z -> string.
Variable next_by_code : string -> nat -> string.
(** Creating, filling and posting the [account.move] of an order. *)
Variable post_invoice : nat -> M exn Database nat.

(** *** pos_payment.py *)

(** [_check_amount], the constraint on [amount], for one payment. *)
Definition _check_amount (payment : PosPayment.t) : M exn Database unit :=
  if Qle_bool (PosPayment.amount payment) 0 && negb (PosPayment.is_change payment)
  then raise (ValidationError "Payment amount must be positive.")
  else if Qle_bool 0 (PosPayment.amount payment) && PosPayment.is_change payment
  then raise (ValidationError "Change amount must be negative.")
  else ret tt.

(** [create] for one dictionary of values: the name defaults to the next
    reference of the sequence; the record is stored under a fresh
    identifier after the constraints of the written fields passed.  The
    framework inserts the record and validates it afterwards, and discards
    it when a constraint fails; checking first gives the same records. *)
Definition create (vals : PosPayment.t) : M exn Database nat :=
  vals' <- (if String.eqb (PosPayment.name vals) EmptyString
            then db <- get ;;
                 modify bump_sequence ;;;
                 ret (PosPayment.mk (next_by_code "pos.payment" (ir_sequence db))
                        (PosPayment.order_id vals) (PosPayment.amount vals)
                        (PosPayment.payment_date vals)
                        (PosPayment.payment_method_id vals)
                        (PosPayment.transaction_id vals)
                        (PosPayment.card_type vals)
                        (PosPayment.cardholder_name vals)
                        (PosPayment.payment_status vals)
                        (PosPayment.note vals) (PosPayment.is_change vals))
            else ret vals) ;;
  _check_amount vals' ;;;
  db <- get ;;
  let id := fresh (dom (pos_payment db)) in
  modify (set_pos_payment (insert id vals')) ;;;
  ret id.

(** The values [reverse_payment] writes on the payment it reverses: the
    status [reversed], and the note with the reversal line appended (or
    the reversal line alone when there is no note). *)
Definition reversal_note (now : Z) (payment : PosPayment.t) : string :=
  if negb (String.eqb (PosPayment.note payment) EmptyString)
  then PosPayment.note payment ++ "
" ++ "Payment reversed on " ++ str_datetime now
  else "Payment reversed on " ++ str_datetime now.

Definition mark_reversed (now : Z) (payment : PosPayment.t) : PosPayment.t :=
  PosPayment.mk (PosPayment.name payment) (PosPayment.order_id payment)
    (PosPayment.amount payment) (PosPayment.payment_date payment)
    (PosPayment.payment_method_id payment)
    (PosPayment.transaction_id payment) (PosPayment.card_type payment)
    (PosPayment.cardholder_name payment)
    PaymentStatus.reversed (reversal_note now payment)
    (PosPayment.is_change payment).

(** [reverse_payment]: the [return] sits inside the loop, so only the
    first payment of the record set is handled; an empty record set
    falls through the loop and returns [None]. *)
Definition reverse_payment (now : Z) (self : list nat)
    : M exn Database (option nat) :=
  match self with
  | [] => ret None
  | pid :: _ =>
      payment <- browse pos_payment pid ;;
      if negb (PaymentStatus.eqb (PosPayment.payment_status payment)
                 PaymentStatus.done)
      then raise (ValidationError "Only confirmed payments can be reversed.")
      else
        (* payment.write({'payment_status': 'reversed', 'note': ...}) *)
        modify (set_pos_payment (insert pid (mark_reversed now payment))) ;;;
        (* payment.copy({...}): the fields not overridden are copied *)
        reversed_payment <- create
          (PosPayment.mk ("Reversal of " ++ PosPayment.name payment)
             (PosPayment.order_id payment)
             (- PosPayment.amount payment)%Q
             now
             (PosPayment.payment_method_id payment)
             (PosPayment.transaction_id payment) (PosPayment.card_type payment)
             (PosPayment.cardholder_name payment)
             PaymentStatus.done
             ("Reversal of payment " ++ PosPayment.name payment)
             (PosPayment.is_change payment)) ;;
        ret (Some reversed_payment)
  end.

(** *** pos_order.py *)

(** [order.payment_ids]: the payments whose [order_id] is the order. *)
Definition payment_ids (db : Database) (oid : nat) : list (nat * PosPayment.t) :=
  omap (fun id => match pos_payment db !! id with
                  | Some p => if Nat.eqb (PosPayment.order_id p) oid
                              then Some (id, p) else None
                  | None => None
                  end)
       (ids_desc (pos_payment db)).

(** [order.lines] *)
Definition lines (db : Database) (oid : nat) : list PosOrderLine.t :=
  omap (fun id => match pos_order_line db !! id with
                  | Some l => if Nat.eqb (PosOrderLine.order_id l) oid
                              then Some l else None
                  | None => None
                  end)
       (ids_desc (pos_order_line db)).

Definition is_done (p : nat * PosPayment.t) : bool :=
  PaymentStatus.eqb (PosPayment.payment_status (snd p)) PaymentStatus.done.

Definition amount_total (db : Database) (oid : nat) : Q :=
  sum (map PosOrderLine.price_subtotal_incl (lines db oid)).

(** [_compute_amount_paid] *)
Definition amount_paid (db : Database) (oid : nat) : Q :=
  let payments := filter (fun p => is_done p = true) (payment_ids db oid) in
  sum (map (fun p => PosPayment.amount (snd p))
           (filter (fun p => PosPayment.is_change (snd p) = false) payments)).
Definition amount_return (db : Database) (oid : nat) : Q :=
  let payments := filter (fun p => is_done p = true) (payment_ids db oid) in
  (- sum (map (fun p => PosPayment.amount (snd p))
              (filter (fun p => PosPayment.is_change (snd p) = true) payments)))%Q.

Definition write_state (oid : nat) (s : OrderState.t) : M exn Database unit :=
  modify (set_pos_order (alter (PosOrder.set_state s) oid)).

(** [action_paid] *)
Definition action_paid (self : list nat) : M exn Database bool :=
  for_each self (fun oid =>
    order <- browse pos_order oid ;;
    if negb (OrderState.eqb (PosOrder.state order) OrderState.draft)
    then ret tt                                       (* continue *)
    else
      db <- get ;;
      if Qltb (amount_paid db oid) (amount_total db oid)
      then raise (UserError "Cannot mark as paid: Order is not fully paid.")
      else write_state oid OrderState.paid) ;;;
  ret true.

(** [action_done] *)
Definition action_done (self : list nat) : M exn Database bool :=
  for_each self (fun oid =>
    order <- browse pos_order oid ;;
    if negb (OrderState.eqb (PosOrder.state order) OrderState.draft
             || OrderState.eqb (PosOrder.state order) OrderState.paid)
    then ret tt
    else
      (if OrderState.eqb (PosOrder.state order) OrderState.draft
       then action_paid [oid] ;;; ret tt
       else ret tt) ;;;
      write_state oid OrderState.done) ;;;
  ret true.

(** [action_cancel] *)
Definition action_cancel (now : Z) (self : list nat) : M exn Database bool :=
  for_each self (fun oid =>
    order <- browse pos_order oid ;;
    if OrderState.eqb (PosOrder.state order) OrderState.done
       || OrderState.eqb (PosOrder.state order) OrderState.invoiced
    then raise (UserError "Cannot cancel a completed order.")
    else
      db <- get ;;
      for_each (filter (fun p => is_done p = true) (payment_ids db oid))
        (fun p => reverse_payment now [fst p] ;;; ret tt) ;;;
      write_state oid OrderState.cancel) ;;;
  ret true.

(** [action_create_invoice] *)
Definition action_create_invoice (self : list nat) : M exn Database bool :=
  for_each self (fun oid =>
    order <- browse pos_order oid ;;
    if negb (OrderState.eqb (PosOrder.state order) OrderState.paid
             || OrderState.eqb (PosOrder.state order) OrderState.done)
    then raise (UserError "Cannot create invoice for unpaid order.")
    else
      match PosOrder.invoice_state order with
      | inv_invoiced => raise (UserError "This order is already invoiced.")
      | no =>
          move <- post_invoice oid ;;
          modify (set_pos_order (alter (PosOrder.set_invoiced move) oid))
      end) ;;;
  ret true.

End WithFramework.
End PosSales.

(** ** pos_products: the current price of a product *)

Module PosProducts.
Import Py.

Inductive exn : Type := ValueError (msg : string).

(** The fields [product_template.py] adds to [product.template], and the
    base [list_price].  A monetary field that is not set reads [0.0]; a
    datetime that is not set reads [False] ([None] here). *)
Record ProductTemplate := mkProductTemplate {
  name : string;
  list_price : Q;
  pos_available : bool;
  pos_sequence : Z;
  list_price_shop : Q;
  discount_price : Q;
  discount_start : option Z;
  discount_end : option Z;
  shop_sku : string
}.

(** [get_current_price]; [ensure_one] raises on a record set that is not a
    singleton. *)
Definition get_current_price (now : Z) (self : list ProductTemplate)
    : exn + Q :=
  match self with
  | [p] =>
      if truthy (discount_price p)
         && match discount_start p with
            | Some discount_start =>
                match discount_end p with
                | Some discount_end =>
                    (discount_start <=? now)%Z && (now <=? discount_end)%Z
                | None => false
                end
            | None => false
            end
      then inr (discount_price p)
      else inr (if truthy (list_price_shop p)
                then list_price_shop p else list_price p)
  | _ => inl (ValueError "Expected singleton")
  end.

(** The discount applies at [now]: a discount price is set, both ends of
    the window are set, and [now] lies between them. *)
Definition discount_applies (now : Z) (p : ProductTemplate) : Prop :=
  ~ (discount_price p == 0)%Q /\
  exists s e, discount_start p = Some s /\ discount_end p = Some e
              /\ (s <= now <= e)%Z.

End PosProducts.

(** ** Price predictor: configuration, exceptions and schemas *)

Module Core.

(** [core/config.py]: the settings the modelled code reads. *)
Record Settings := mkSettings {
  MAX_PREDICTION_BATCH_SIZE : Z;
  RATE_LIMIT_PER_MINUTE : Z;
  ENABLE_AI_ENRICHMENT : bool
}.
Definition default_settings : Settings := mkSettings 100 60 true.

(** [core/exceptions.py], the exceptions of FastAPI and pydantic, and the
    built-in exceptions the modelled code can raise. *)
Inductive exn : Type :=
| MLModelException (message : string)
| RateLimitException (message : string) (status_code : Z) (details : gmap string Z)
| HTTPException (status_code : Z) (detail : string)
| RequestValidationError
| ValidationError
| ValueError (msg : string)
| TypeError (msg : string)
| AttributeError (msg : string)
| ZeroDivisionError
| KeyError (msg : string).

(** [RateLimitException.__init__(message="Rate limit exceeded", retry_after)] *)
Definition new_RateLimitException (retry_after : option Z) : exn :=
  RateLimitException "Rate limit exceeded" 429
    match retry_after with
    | Some n => if (n =? 0)%Z then ∅ else {[ "retry_after" := n ]}
    | None => ∅
    end.

(** [str(e)] *)
Definition str_exn (e : exn) : string :=
  match e with
  | MLModelException m | RateLimitException m _ _ | ValueError m
  | TypeError m | AttributeError m | KeyError m => m
  | HTTPException _ d => d
  | RequestValidationError => "request validation error"
  | ValidationError => "validation error"
  | ZeroDivisionError => "float division by zero"
  end.

(** The status of the response the handlers registered by
    [setup_exception_handlers] build for an exception. *)
Definition status_of_exn (e : exn) : Z :=
  match e with
  | MLModelException _ => 500
  | RateLimitException _ _ _ => 429
  | HTTPException status_code _ => status_code
  | RequestValidationError => 422
  | _ => 500
  end.

(** [rate_limit_exception_handler]: the [retry_after] of the response. *)
Definition retry_after_of_exn (e : exn) : option Z :=
  match e with
  | RateLimitException _ _ details => Some (default 60%Z (details !! "retry_after"))
  | _ => None
  end.

Inductive result (A : Type) : Type :=
| Ok (a : A)
| Err (e : exn).
Arguments Ok {A} a.
Arguments Err {A} e.

(** [min] and [max] of two numbers return the first argument on a tie. *)
Definition py_max (a b : Q) : Q := if Py.Qltb a b then b else a.
Definition py_min (a b : Q) : Q := if Py.Qltb b a then b else a.

(** [x or d] on an optional float: [None] and [0.0] are falsy. *)
Definition or_default (x : option Q) (d : Q) : Q :=
  match x with
  | Some q => if Py.truthy q then q else d
  | None => d
  end.

Definition truthy_opt (x : option Q) : bool :=
  match x with Some q => Py.truthy q | None => false end.

End Core.

Notation "x <~ c ;; k" :=
  (match c with Core.Ok x => k | Core.Err e => Core.Err e end)
  (at level 100, c at next level, right associativity).

Module Schemas.

Inductive PropertyType :=
| APARTMENT | HOUSE | CONDO | TOWNHOUSE | VILLA | COMMERCIAL | LAND.
Definition PropertyType_value (t : PropertyType) : string :=
  match t with
  | APARTMENT => "apartment" | HOUSE => "house" | CONDO => "condo"
  | TOWNHOUSE => "townhouse" | VILLA => "villa"
  | COMMERCIAL => "commercial" | LAND => "land"
  end.

Inductive PropertyCondition :=
| NEW | EXCELLENT | GOOD | FAIR | POOR | RENOVATION_NEEDED.
Definition PropertyCondition_value (c : PropertyCondition) : string :=
  match c with
  | NEW => "new" | EXCELLENT => "excellent" | GOOD => "good"
  | FAIR => "fair" | POOR => "poor" | RENOVATION_NEEDED => "renovation_needed"
  end.

Inductive LocationTier := TIER_1 | TIER_2 | TIER_3 | TIER_4.
Definition LocationTier_value (t : LocationTier) : string :=
  match t with
  | TIER_1 => "tier_1" | TIER_2 => "tier_2" | TIER_3 => "tier_3" | TIER_4 => "tier_4"
  end.

(** [NoiseLevel] and [RiskLevel] have the same three members. *)
Inductive Level := LOW | MEDIUM | HIGH.
Definition Level_value (l : Level) : string :=
  match l with LOW => "low" | MEDIUM => "medium" | HIGH => "high" end.

Record PropertyLocation := mkPropertyLocation {
  city : string;
  township : string;
  ward : option string;
  street : option string;
  latitude : option Q;
  longitude : option Q;
  location_tier : option LocationTier
}.

Record PropertyFeatures := mkPropertyFeatures {
  bedrooms : Z;
  bathrooms : Z;
  floors : Z;
  parking_spaces : Z;
  balconies : Z;
  has_elevator : bool;
  has_swimming_pool : bool;
  has_gym : bool;
  has_security : bool;
  has_generator : bool;
  has_water_tank : bool;
  has_garden : bool;
  has_garage : bool;
  has_internet : bool;
  has_cable_tv : bool;
  has_air_conditioning : bool
}.

Record NeighborhoodFeatures := mkNeighborhoodFeatures {
  nearby_schools : Z;
  nearby_hospitals : Z;
  nearby_markets : Z;
  nearby_restaurants : Z;
  nearby_banks : Z;
  nearby_shopping_malls : Z;
  distance_to_city_center_km : option Q;
  distance_to_nearest_school_km : option Q;
  distance_to_nearest_hospital_km : option Q;
  public_transport_access : bool;
  road_quality_score : option Q;
  noise_level : option Level;
  flood_risk : option Level;
  crime_rate_score : option Q
}.

Record PropertyBase := mkPropertyBase {
  property_type : PropertyType;
  condition : PropertyCondition;
  size_sqft : Q;
  lot_size_sqft : option Q;
  year_built : option Z;
  location : PropertyLocation;
  features : PropertyFeatures;
  neighborhood : option NeighborhoodFeatures;
  description : option string
}.

(** [PredictionRequest(PropertyBase)]: the inherited fields and two more. *)
Record PredictionRequest := mkPredictionRequest {
  base : PropertyBase;
  enable_ai_enrichment : bool;
  model_preference : option string
}.

(** The keys of [PredictionRequest.dict()]: every field of the model. *)
Definition PredictionRequest_fields : list string :=
  ["property_type"; "condition"; "size_sqft"; "lot_size_sqft"; "year_built";
   "location"; "features"; "neighborhood"; "description";
   "enable_ai_enrichment"; "model_preference"].

(** The random [prediction_id] and the [timestamp] are left out. *)
Record PredictionResponse := mkPredictionResponse {
  predicted_price_mmk : Q;
  predicted_price_usd : Q;
  confidence_score : Q;
  price_range_mmk : Q * Q;
  price_range_usd : Q * Q;
  model_used : string;
  feature_importance : list (string * Q)
}.

Record BatchPredictionRequest := mkBatchPredictionRequest {
  properties : list PredictionRequest;
  batch_enable_ai_enrichment : bool;
  batch_model_preference : option string
}.

(** [properties: List[PredictionRequest] = Field(..., max_items=100)] *)
Definition BatchPredictionRequest_max_items : nat := 100.

Record BatchPredictionResponse := mkBatchPredictionResponse {
  predictions : list PredictionResponse;
  total_processed : nat
}.

Record ModelPerformanceMetrics := mkModelPerformanceMetrics {
  model_name : string;
  mae : Q;
  rmse : Q;
  r2_score : Q;
  mape : Q;
  training_samples : Z;
  feature_count : Z
}.

Record MarketAnalysisRequest := mkMarketAnalysisRequest {
  ma_location : PropertyLocation;
  ma_property_type : option PropertyType;
  time_period_months : Z
}.

End Schemas.

(** ** services/ml_service.py *)

Module MlService.
Import Py Core Schemas.

(** A value of a feature dictionary: a number or a string. *)
Inductive fval : Type :=
| FNum (q : Q)
| FStr (s : string).

Definition b2q (b : bool) : Q := if b then 1%Q else 0%Q.

(** [str.lower] on the letters A-Z (the validated names hold only ASCII
    letters, white space and Myanmar script, which has no case). *)
Definition lower_ascii (c : ascii) : ascii :=
  let n := nat_of_ascii c in
  if (65 <=? n)%nat && (n <=? 90)%nat then ascii_of_nat (n + 32) else c.
Fixpoint lower (s : string) : string :=
  match s with
  | EmptyString => EmptyString
  | String c rest => String (lower_ascii c) (lower rest)
  end.

(** [noise_mapping.get(k, d)] and [risk_mapping.get(k, d)] *)
Definition level_mapping_get (k : string) (d : Q) : Q :=
  if String.eqb k "low" then 1%Q
  else if String.eqb k "medium" then (1#2)%Q
  else if String.eqb k "high" then 0%Q
  else d.

Definition categorical_cols : list string :=
  ["property_type"; "condition"; "city"; "township"; "location_tier"].

Definition default_neighborhood_features : list (string * fval) :=
  [("nearby_schools", FNum 2); ("nearby_hospitals", FNum 1);
   ("nearby_markets", FNum 5); ("nearby_restaurants", FNum 10);
   ("nearby_banks", FNum 2); ("nearby_shopping_malls", FNum 1);
   ("distance_to_city_center_km", FNum 25);
   ("distance_to_nearest_school_km", FNum 5);
   ("distance_to_nearest_hospital_km", FNum 10);
   ("education_convenience", FNum (4#10));
   ("healthcare_convenience", FNum (3#10));
   ("commercial_convenience", FNum (3#10));
   ("public_transport_access", FNum 0); ("road_quality_score", FNum 5);
   ("noise_quality_score", FNum (1#2)); ("flood_safety_score", FNum (1#2));
   ("crime_safety_score", FNum (1#2));
   ("neighborhood_quality_score", FNum (4#10))].

(** [features.update(d)] *)
Definition update (d : list (string * fval)) (features : gmap string fval)
    : gmap string fval :=
  fold_left (fun m kv => <[fst kv := snd kv]> m) d features.

Section FeatureEngineer.
(** [_calculate_distance] uses [sin], [cos], [sqrt] and [atan2] of the
    [math] module; it is a parameter of the model. *)
Variable _calculate_distance : Q -> Q -> Q -> Q -> Q.
(** [str] of a number, as [astype(str)] prints it. *)
Variable str_float : Q -> string.
(** What [StandardScaler.fit] learns from one column: mean and scale
    ([None] is a NaN cell, which the scaler skips). *)
Variable column_fit : list (option Q) -> Q * Q.

(** The neighbourhood part of [create_features]. *)
Definition neighborhood_features (neighborhood : NeighborhoodFeatures)
    (features : gmap string fval) : gmap string fval :=
  let features := <["nearby_schools" := FNum (inject_Z (nearby_schools neighborhood))]> features in
  let features := <["nearby_hospitals" := FNum (inject_Z (nearby_hospitals neighborhood))]> features in
  let features := <["nearby_markets" := FNum (inject_Z (nearby_markets neighborhood))]> features in
  let features := <["nearby_restaurants" := FNum (inject_Z (nearby_restaurants neighborhood))]> features in
  let features := <["nearby_banks" := FNum (inject_Z (nearby_banks neighborhood))]> features in
  let features := <["nearby_shopping_malls" := FNum (inject_Z (nearby_shopping_malls neighborhood))]> features in
  let city_center := or_default (distance_to_city_center_km neighborhood) 50 in
  let school := or_default (distance_to_nearest_school_km neighborhood) 10 in
  let hospital := or_default (distance_to_nearest_hospital_km neighborhood) 20 in
  let features := <["distance_to_city_center_km" := FNum city_center]> features in
  let features := <["distance_to_nearest_school_km" := FNum school]> features in
  let features := <["distance_to_nearest_hospital_km" := FNum hospital]> features in
  let education_convenience :=
    (py_min (inject_Z (nearby_schools neighborhood) / 5) 1
     * (1 / py_max school (1#10)))%Q in
  let healthcare_convenience :=
    (py_min (inject_Z (nearby_hospitals neighborhood) / 3) 1
     * (1 / py_max hospital (1#10)))%Q in
  let commercial_convenience :=
    (inject_Z (nearby_markets neighborhood + nearby_restaurants neighborhood
               + nearby_banks neighborhood) / 50)%Q in
  let features := <["education_convenience" := FNum education_convenience]> features in
  let features := <["healthcare_convenience" := FNum healthcare_convenience]> features in
  let features := <["commercial_convenience" := FNum commercial_convenience]> features in
  let public_transport := b2q (public_transport_access neighborhood) in
  let road_quality := or_default (road_quality_score neighborhood) 5 in
  let features := <["public_transport_access" := FNum public_transport]> features in
  let features := <["road_quality_score" := FNum road_quality]> features in
  let noise_quality :=
    level_mapping_get
      (match noise_level neighborhood with
       | Some l => Level_value l | None => "medium" end) (1#2) in
  let flood_safety :=
    level_mapping_get
      (match flood_risk neighborhood with
       | Some l => Level_value l | None => "medium" end) (1#2) in
  let crime_safety :=
    ((10 - or_default (crime_rate_score neighborhood) 5) / 10)%Q in
  let features := <["noise_quality_score" := FNum noise_quality]> features in
  let features := <["flood_safety_score" := FNum flood_safety]> features in
  let features := <["crime_safety_score" := FNum crime_safety]> features in
  <["neighborhood_quality_score" :=
      FNum (education_convenience * (25#100)
            + healthcare_convenience * (20#100)
            + commercial_convenience * (15#100)
            + public_transport * (15#100)
            + (road_quality / 10) * (10#100)
            + noise_quality * (5#100)
            + flood_safety * (5#100)
            + crime_safety * (5#100))%Q]> features.

(** [create_features].  The only operation that can raise is the division
    by [size_sqft] (the schema requires [size_sqft > 0]). *)
Definition create_features (current_year : Z) (property_data : PropertyBase)
    : result (gmap string fval) :=
  let pf := features property_data in
  let size := size_sqft property_data in
  let features : gmap string fval := ∅ in
  let features := <["size_sqft" := FNum size]> features in
  let lot_size := or_default (lot_size_sqft property_data) size in
  let features := <["lot_size_sqft" := FNum lot_size]> features in
  let features := <["bedrooms" := FNum (inject_Z (bedrooms pf))]> features in
  let features := <["bathrooms" := FNum (inject_Z (bathrooms pf))]> features in
  let features := <["floors" := FNum (inject_Z (floors pf))]> features in
  let features := <["parking_spaces" := FNum (inject_Z (parking_spaces pf))]> features in
  let property_age :=
    (current_year - match year_built property_data with
                    | Some y => if (y =? 0)%Z then current_year else y
                    | None => current_year
                    end)%Z in
  let features := <["property_age" := FNum (inject_Z property_age)]> features in
  let features := <["is_new_construction" :=
                      FNum (if (property_age <=? 2)%Z then 1 else 0)]> features in
  let features := <["is_vintage" :=
                      FNum (if (30 <=? property_age)%Z then 1 else 0)]> features in
  let bedrooms1 := inject_Z (Z.max (bedrooms pf) 1) in
  let features := <["sqft_per_bedroom" := FNum (size / bedrooms1)]> features in
  let features := <["bathroom_bedroom_ratio" :=
                      FNum (inject_Z (bathrooms pf) / bedrooms1)]> features in
  if negb (truthy size) then Err ZeroDivisionError else
  let features := <["lot_building_ratio" := FNum (lot_size / size)]> features in
  let features := <["parking_per_bedroom" :=
                      FNum (inject_Z (parking_spaces pf) / bedrooms1)]> features in
  let amenities :=
    [has_elevator pf; has_swimming_pool pf; has_gym pf; has_security pf;
     has_generator pf; has_water_tank pf; has_garden pf; has_garage pf;
     has_internet pf; has_cable_tv pf; has_air_conditioning pf] in
  let features := <["amenity_score" :=
                      FNum (sum (map b2q amenities)
                            / inject_Z (Z.of_nat (length amenities)))]> features in
  let features := <["luxury_amenity_score" :=
                      FNum (sum (map b2q [has_elevator pf; has_swimming_pool pf;
                                          has_gym pf]) / 3)]> features in
  let features :=
    match neighborhood property_data with
    | Some neighborhood => neighborhood_features neighborhood features
    | None => update default_neighborhood_features features
    end in
  let loc := location property_data in
  let features := <["property_type" :=
                      FStr (PropertyType_value (property_type property_data))]> features in
  let features := <["condition" :=
                      FStr (PropertyCondition_value (condition property_data))]> features in
  let features := <["city" := FStr (lower (city loc))]> features in
  let features := <["township" := FStr (lower (township loc))]> features in
  let features := <["location_tier" :=
                      FStr (match location_tier loc with
                            | Some t => LocationTier_value t
                            | None => "tier_3"
                            end)]> features in
  Ok
    (if truthy_opt (latitude loc) && truthy_opt (longitude loc)
     then <["distance_from_cbd" :=
              FNum (_calculate_distance (default 0%Q (latitude loc))
                      (default 0%Q (longitude loc))
                      (167967#10000) (961610#10000))]> features
     else <["distance_from_cbd" :=
              default (FNum 50) (features !! "distance_to_city_center_km")]>
            features).

(** *** The fitted state of a [FeatureEngineer] *)

(** [label_encoders] keeps the sorted [classes_] of each [LabelEncoder];
    [scaler] keeps mean and scale of each column, and is [None] while the
    [StandardScaler] is not fitted. *)
Record FeatureEngineer := mkFeatureEngineer {
  label_encoders : gmap string (list string);
  scaler : option (list (Q * Q));
  feature_names : list string;
  is_fitted : bool
}.

(** [FeatureEngineer.__init__] *)
Definition new_FeatureEngineer : FeatureEngineer :=
  mkFeatureEngineer ∅ None [] false.

(** [LabelEncoder.fit]: the sorted distinct labels. *)
Fixpoint insert_unique (s : string) (l : list string) : list string :=
  match l with
  | [] => [s]
  | x :: rest =>
      match String.compare s x with
      | Lt => s :: l
      | Eq => l
      | Gt => x :: insert_unique s rest
      end
  end.
Definition LabelEncoder_fit (ys : list string) : list string :=
  fold_right insert_unique [] ys.

(** [LabelEncoder.transform] of one label: its position among the classes;
    [None] stands for the [ValueError] raised on an unseen label. *)
Fixpoint index_of (s : string) (classes : list string) : option nat :=
  match classes with
  | [] => None
  | x :: rest => if String.eqb s x then Some O else S <$> index_of s rest
  end.

(** [astype(str)] of a cell; a missing cell of a frame is NaN. *)
Definition astype_str (c : option fval) : string :=
  match c with
  | Some (FStr s) => s
  | Some (FNum q) => str_float q
  | None => "nan"
  end.

(** [pd.DataFrame(features_list)]: the columns are the keys in the order
    in which they first appear; a row lacks the cells of the keys it
    does not have. *)
Definition add_column (cols : list string) (kv : string * fval) : list string :=
  if existsb (String.eqb (fst kv)) cols then cols else cols ++ [fst kv].
Definition columns_of (rows : list (list (string * fval))) : list string :=
  fold_left (fun cols row => fold_left add_column row cols) rows [].
Definition cell (row : list (string * fval)) (col : string) : option fval :=
  snd <$> find (fun kv => String.eqb (fst kv) col) row.

Definition is_categorical (col : string) : bool :=
  existsb (String.eqb col) categorical_cols.

(** A cell of the frame handed to the scaler by [fit_transform]: the
    categorical columns hold class indices; the outer [None] is a string
    left in a numeric column, which the scaler refuses. *)
Definition fit_cell (encoders : gmap string (list string))
    (row : list (string * fval)) (col : string) : option (option Q) :=
  if is_categorical col
  then match encoders !! col with
       | Some classes =>
           Some (inject_Z <$> (Z.of_nat <$> index_of (astype_str (cell row col)) classes))
       | None => None
       end
  else match cell row col with
       | None => Some None
       | Some (FNum q) => Some (Some q)
       | Some (FStr _) => None
       end.

Definition scale_cell (ms : Q * Q) (x : Q) : Q := ((x - fst ms) / snd ms)%Q.

(** [fit_transform].  The encoders and the feature names are stored before
    the scaler runs; [StandardScaler.fit] first forgets what it learnt
    and then validates the data, so a failure leaves it not fitted. *)
Definition fit_transform (features_list : list (list (string * fval)))
    : M exn FeatureEngineer (list (list (option Q))) :=
  fun self =>
    let columns := columns_of features_list in
    let encoders :=
      fold_left
        (fun encs col =>
           if existsb (String.eqb col) columns
           then <[col := LabelEncoder_fit
                           (map (fun row => astype_str (cell row col))
                                features_list)]> encs
           else encs)
        categorical_cols (label_encoders self) in
    let matrix :=
      mapM (fun row => mapM (fit_cell encoders row) columns) features_list in
    match matrix with
    | Some (first :: others) =>
        if Nat.eqb (length columns) 0
        then Raise (ValueError "Found array with 0 feature(s)")
                   (mkFeatureEngineer encoders None columns (is_fitted self))
        else
          let fitted :=
            map (fun col =>
                   column_fit
                     (map (fun row => default None (fit_cell encoders row col))
                          features_list))
                columns in
          Return
            (map (fun row => zip_with (fun ms x => scale_cell ms <$> x) fitted row)
                 (first :: others))
            (mkFeatureEngineer encoders (Some fitted) columns true)
    | Some [] =>
        Raise (ValueError "Found array with 0 sample(s)")
              (mkFeatureEngineer encoders None columns (is_fitted self))
    | None =>
        Raise (ValueError "could not convert string to float")
              (mkFeatureEngineer encoders None columns (is_fitted self))
    end.

(** The single-row frame of [transform] after the encoding loop. *)
Definition encode_row (self : FeatureEngineer) (features : gmap string fval)
    : gmap string fval :=
  fold_left
    (fun df col =>
       match df !! col, label_encoders self !! col with
       | Some v, Some classes =>
           <[col := FNum (match index_of (astype_str (Some v)) classes with
                          | Some i => inject_Z (Z.of_nat i)
                          | None => 0          (* except ValueError *)
                          end)]> df
       | _, _ => df
       end)
    categorical_cols features.

(** ... and after the loop that adds the missing features. *)
Definition fill_row (self : FeatureEngineer) (df : gmap string fval)
    : gmap string fval :=
  fold_left
    (fun df feature_name =>
       match df !! feature_name with
       | None => <[feature_name := FNum 0]> df
       | Some _ => df
       end)
    (feature_names self) df.

(** [scaler.transform(df)] on the reordered row. *)
Definition scaler_transform (self : FeatureEngineer) (row : list fval)
    : result (list Q) :=
  match scaler self with
  | None => Err (ValueError "This StandardScaler instance is not fitted yet")
  | Some ms =>
      match mapM (fun v => match v with FNum q => Some q | FStr _ => None end) row with
      | None => Err (ValueError "could not convert string to float")
      | Some xs =>
          if Nat.eqb (length xs) (length ms)
          then Ok (zip_with scale_cell ms xs)
          else Err (ValueError "X has a different number of features")
      end
  end.

(** [transform] *)
Definition transform (self : FeatureEngineer) (features : gmap string fval)
    : result (list Q) :=
  if negb (is_fitted self)
  then Err (MLModelException "FeatureEngineer not fitted yet")
  else
    let df := fill_row self (encode_row self features) in
    (* df = df[self.feature_names]: a name that is not a column raises *)
    match mapM (fun name => df !! name) (feature_names self) with
    | Some row => scaler_transform self row
    | None => Err (KeyError "not in index")
    end.

(** *** MLModelManager *)

(** A trained regressor is the function [X -> model.predict([X])[0]]. *)
Record MLModelManager := mkMLModelManager {
  models : gmap string (list Q -> Q);
  feature_engineer : FeatureEngineer;
  model_metrics : gmap string ModelPerformanceMetrics;
  exchange_rate_usd_mmk : Q
}.

(** [s.replace(old, new)] for a non-empty [old]. *)
Fixpoint replace_go (old new : string) (skip : nat) (s : string) : string :=
  match s with
  | EmptyString => EmptyString
  | String c rest =>
      match skip with
      | S k => replace_go old new k rest
      | O => if String.prefix old s
             then new ++ replace_go old new (String.length old - 1) rest
             else String c (replace_go old new O rest)
      end
  end.
Definition str_replace (old new s : string) : string := replace_go old new 0 s.

(** The weight of a model in the ensemble. *)
Definition model_weight (metrics : gmap string ModelPerformanceMetrics)
    (name : string) : Q :=
  match metrics !! name with
  | Some m => py_max (1#10) (r2_score m)
  | None => (1#2)%Q
  end.

(** The body of the [try] block of [predict]. *)
Definition predict_body (self : MLModelManager) (current_year : Z)
    (property_data : PropertyBase) (model_preference : option string)
    : result PredictionResponse :=
  features <~ create_features current_year property_data ;;
  X <~ transform (feature_engineer self) features ;;
  chosen <~
    match (match model_preference with
           | Some name => if String.eqb name EmptyString then None
                          else (fun model => (name, model)) <$> models self !! name
           | None => None
           end) with
    | Some (name, model) => Ok (({[ name := model X ]} : gmap string Q), name)
    | None =>
        let predictions : gmap string Q := (fun model => model X) <$> models self in
        let weights : gmap string Q :=
          map_imap (fun name _ => Some (model_weight (model_metrics self) name))
                   predictions in
        let total_weight := sum (map snd (map_to_list weights)) in
        if negb (truthy total_weight)
           && negb (Nat.eqb (length (map_to_list predictions)) 0)
        then Err ZeroDivisionError
        else
          let ensemble_prediction :=
            sum (map (fun np => (snd np * default 0 (weights !! fst np)
                                 / total_weight)%Q)
                     (map_to_list predictions)) in
          Ok (<["ensemble" := ensemble_prediction]> predictions, "ensemble")
    end ;;
  let predictions := fst chosen in
  let model_name := snd chosen in
  let predicted_price_mmk := default 0%Q (predictions !! model_name) in
  let predicted_price_usd := (predicted_price_mmk / exchange_rate_usd_mmk self)%Q in
  let r2 :=
    match model_metrics self !! str_replace "ensemble" "xgboost" model_name with
    | Some m => r2_score m
    | None => match model_metrics self !! "xgboost" with
              | Some m => r2_score m
              | None => (7#10)%Q
              end
    end in
  let confidence_score := py_min (95#100) (py_max (1#2) r2) in
  let response :=
    mkPredictionResponse predicted_price_mmk predicted_price_usd confidence_score
      (predicted_price_mmk * (8#10), predicted_price_mmk * (12#10))%Q
      (predicted_price_usd * (8#10), predicted_price_usd * (12#10))%Q
      model_name
      [("size_sqft", 25#100); ("location", 20#100); ("condition", 15#100);
       ("bedrooms", 12#100); ("amenities", 10#100); ("age", 8#100);
       ("other", 10#100)]%Q in
  (* PredictionResponse validates confidence_score: ge=0, le=1 *)
  if Qle_bool 0 confidence_score && Qle_bool confidence_score 1
  then Ok response else Err ValidationError.

(** [predict]: any exception is wrapped in an [MLModelException]. *)
Definition predict (self : MLModelManager) (current_year : Z)
    (property_data : PropertyBase) (model_preference : option string)
    : result PredictionResponse :=
  match predict_body self current_year property_data model_preference with
  | Ok response => Ok response
  | Err e => Err (MLModelException ("Prediction failed: " ++ str_exn e))
  end.

(** [MLService.predict_price] delegates to the manager. *)
Definition predict_price := predict.


End FeatureEngineer.

(** *** Definitions used to state the properties *)

(** The property without its coordinates. *)
Definition without_coordinates (p : PropertyBase) : PropertyBase :=
  let loc := location p in
  mkPropertyBase (property_type p) (condition p) (size_sqft p) (lot_size_sqft p)
    (year_built p)
    (mkPropertyLocation (city loc) (township loc) (ward loc) (street loc)
       None None (location_tier loc))
    (features p) (neighborhood p) (description p).

(** The distance to the city centre as [create_features] stores it. *)
Definition city_center_distance (p : PropertyBase) : Q :=
  match neighborhood p with
  | Some n => or_default (distance_to_city_center_km n) 50
  | None => 25%Q
  end.

(** The value of a canonical feature in the row [transform] hands to the
    scaler: [0] for a feature the input lacks, the class index for a
    categorical feature ([0] for a label not seen during fitting), and the
    number itself otherwise. *)
Definition canonical_value (str_float : Q -> string) (self : FeatureEngineer)
    (features : gmap string fval) (name : string) : Q :=
  match features !! name with
  | None => 0%Q
  | Some v =>
      if is_categorical name
      then match label_encoders self !! name with
           | Some classes =>
               match index_of (astype_str str_float (Some v)) classes with
               | Some i => inject_Z (Z.of_nat i)
               | None => 0%Q
               end
           | None => 0%Q
           end
      else match v with FNum q => q | FStr _ => 0%Q end
  end.

(** The input holds no string under a canonical feature that is not one of
    the five categorical columns. *)
Definition numeric_features (self : FeatureEngineer) (features : gmap string fval)
    : bool :=
  forallb (fun name =>
             is_categorical name
             || match features !! name with
                | Some (FStr _) => false
                | _ => true
                end)
          (feature_names self).

(** The weight of a model as the specification words it: its stored R²
    score, floored at 0.1; 0.5 when no metric is recorded for it. *)
Definition ensemble_weight (self : MLModelManager) (name : string) : Q :=
  match model_metrics self !! name with
  | None => (5#10)%Q
  | Some metric =>
      if Qle_bool (r2_score metric) (1#10) then (1#10)%Q else r2_score metric
  end.

(** The weighted ensemble as the specification writes it:
    Σ(model_prediction × weight) / Σ(weight) over the models. *)
Definition weighted_ensemble (self : MLModelManager) (X : list Q) : Q :=
  (sum (map (fun nm => snd nm X * ensemble_weight self (fst nm))
            (map_to_list (models self)))
   / sum (map (fun nm => ensemble_weight self (fst nm))
              (map_to_list (models self))))%Q.

End MlService.

(** ** api/routes.py *)

Module Routes.
Import Py Core Schemas MlService.

(** A value decoded from JSON, as the OpenRouter service returns it. *)
#[warnings="-register-all"]
Inductive json : Type :=
| JNull
| JBool (b : bool)
| JNum (q : Q)
| JStr (s : string)
| JList (l : list json)
| JDict (d : gmap string json).

(** Truthiness: [None], [False], [0], the empty string, the empty list and
    the empty dict are falsy. *)
Definition json_truthy (j : json) : bool :=
  match j with
  | JNull => false
  | JBool b => b
  | JNum q => truthy q
  | JStr s => negb (String.eqb s EmptyString)
  | JList l => negb (Nat.eqb (length l) 0)
  | JDict d => negb (Nat.eqb (size d) 0)
  end.

(** [d.get(k, default)]: only a dict has the method. *)
Definition dict_get (d : json) (k : string) (dflt : json) : result json :=
  match d with
  | JDict m => Ok (default dflt (m !! k))
  | _ => Err (AttributeError "object has no attribute 'get'")
  end.

(** [x / 2100]: defined on numbers ([True] is [1], [False] is [0]). *)
Definition json_div (x : json) (d : Q) : result Q :=
  match x with
  | JNum q => Ok (q / d)%Q
  | JBool b => Ok (b2q b / d)%Q
  | _ => Err (TypeError "unsupported operand type(s) for /")
  end.

(** Validation of the fields of [MarketAnalysisResponse].  The float field
    is only reached with a value the division accepted. *)
Definition as_float (x : json) : result Q :=
  match x with
  | JNum q => Ok q
  | JBool b => Ok (b2q b)
  | _ => Err ValidationError
  end.
Definition as_dict (x : json) : result (gmap string json) :=
  match x with
  | JDict m => Ok m
  | _ => Err ValidationError
  end.
Definition as_str_list (x : json) : result (list string) :=
  match x with
  | JList l =>
      match mapM (fun j => match j with JStr s => Some s | _ => None end) l with
      | Some ss => Ok ss
      | None => Err ValidationError
      end
  | _ => Err ValidationError
  end.

(** The random [analysis_id] and the [timestamp] are left out. *)
Record MarketAnalysisResponse := mkMarketAnalysisResponse {
  location_summary : list (string * string);
  average_price_mmk : Q;
  average_price_usd : Q;
  price_trends : gmap string json;
  market_activity : gmap string json;
  price_distribution : gmap string json;
  recommendations : list string
}.

(** The data used when the service returned nothing. *)
Definition fallback_market_data : json :=
  JDict (list_to_map
    [("market_overview",
      JDict (list_to_map
        [("current_trends", JStr "Market analysis unavailable");
         ("price_direction", JStr "stable");
         ("market_activity", JStr "medium")]));
     ("pricing_analysis",
      JDict (list_to_map
        [("average_price_range",
          JDict (list_to_map [("min_mmk", JNum 0); ("max_mmk", JNum 0)]))]))]).

(** [if not market_data: market_data = {...}] *)
Definition market_data_or_fallback (market_data : json) : json :=
  if negb (json_truthy market_data) then fallback_market_data else market_data.

(** [rate_limit_storage]: the time stamps (seconds) of each client. *)
Abbreviation Storage := (gmap string (list Q)).

(** [check_rate_limit] *)
Definition check_rate_limit (settings : Settings) (client_ip : string)
    (current_time : Q) : M exn Storage unit :=
  let cutoff_time := (current_time - 60)%Q in
  modify (fun storage : Storage =>
            match storage !! client_ip with
            | Some timestamps =>
                <[client_ip := List.filter (fun timestamp => Qltb cutoff_time timestamp)
                                           timestamps]> storage
            | None => storage
            end) ;;;
  modify (fun storage : Storage =>
            match storage !! client_ip with
            | None => <[client_ip := []]> storage
            | Some _ => storage
            end) ;;;
  storage <- get ;;
  if (RATE_LIMIT_PER_MINUTE settings
      <=? Z.of_nat (length (default [] ((storage : Storage) !! client_ip))))%Z
  then raise (new_RateLimitException (Some 60%Z))
  else modify (fun storage : Storage =>
                 <[client_ip := (default [] (storage !! client_ip) ++ [current_time])%list]>
                   storage).

(** The time stamps of a client that [check_rate_limit] keeps: those
    younger than 60 seconds. *)
Definition recent (client_ip : string) (current_time : Q) (storage : Storage)
    : list Q :=
  List.filter (fun timestamp => Qltb (current_time - 60) timestamp)
              (default [] (storage !! client_ip)).

(** The status of the response to a request. *)
Definition status_of {S A} (o : outcome exn S A) : Z :=
  match o with
  | Return _ _ => 200
  | Raise e _ => status_of_exn e
  end.

(** The constructor call of the batch loop: [PredictionRequest] receives
    the unpacked dictionary [property_data.dict()] and, explicitly, the
    keywords [enable_ai_enrichment] and [model_preference].  A call that
    gives a keyword both ways raises [TypeError]. *)
Definition new_PredictionRequest (property_data : PredictionRequest)
    (enable : bool) (preference : option string) : result PredictionRequest :=
  match find (fun k => existsb (String.eqb k) PredictionRequest_fields)
             ["enable_ai_enrichment"; "model_preference"] with
  | Some k =>
      Err (TypeError ("got multiple values for keyword argument '" ++ k ++ "'"))
  | None => Ok (mkPredictionRequest (base property_data) enable preference)
  end.

Section Handlers.
Variable _calculate_distance : Q -> Q -> Q -> Q -> Q.
Variable str_float : Q -> string.
Variable settings : Settings.
Variable ml_service : MLModelManager.
Variable current_year : Z.

(** The loop of [batch_predict_prices]. *)
Fixpoint process_predictions (batch_request : BatchPredictionRequest)
    (todo : list PredictionRequest) : result (list PredictionResponse) :=
  match todo with
  | [] => Ok []
  | property_data :: rest =>
      pred_request <~ new_PredictionRequest property_data
                        (batch_enable_ai_enrichment batch_request)
                        (batch_model_preference batch_request) ;;
      prediction <~ predict_price _calculate_distance str_float ml_service
                      current_year (base pred_request)
                      (batch_model_preference batch_request) ;;
      predictions <~ process_predictions batch_request rest ;;
      Ok (prediction :: predictions)
  end.

(** The [try] block of [batch_predict_prices]: any exception becomes a
    500. *)
Definition process_batch (batch_request : BatchPredictionRequest)
    : M exn Storage BatchPredictionResponse :=
  match process_predictions batch_request (properties batch_request) with
  | Ok predictions =>
      ret (mkBatchPredictionResponse predictions (length predictions))
  | Err _ =>
      raise (HTTPException 500 "Batch prediction service temporarily unavailable")
  end.

(** [batch_predict_prices], the handler of [POST /predict/batch]. *)
Definition batch_predict_prices (client_ip : string) (current_time : Q)
    (batch_request : BatchPredictionRequest)
    : M exn Storage BatchPredictionResponse :=
  check_rate_limit settings client_ip current_time ;;;
  if (MAX_PREDICTION_BATCH_SIZE settings
      <? Z.of_nat (length (properties batch_request)))%Z
  then raise (HTTPException 400
                ("Batch size exceeds maximum of "
                 ++ pretty (MAX_PREDICTION_BATCH_SIZE settings)))
  else process_batch batch_request.

(** The route: the framework validates the body against
    [BatchPredictionRequest] ([properties] has at most 100 items) and
    answers 422 without calling the handler when it does not fit. *)
Definition post_predict_batch (client_ip : string) (current_time : Q)
    (body : BatchPredictionRequest) : M exn Storage BatchPredictionResponse :=
  if (BatchPredictionRequest_max_items <? length (properties body))%nat
  then raise RequestValidationError
  else batch_predict_prices client_ip current_time body.

(** The [try] block of [market_analysis]; [market_data] is what
    [generate_market_analysis] returned. *)
Definition market_analysis_body (analysis_request : MarketAnalysisRequest)
    (market_data : json) : result MarketAnalysisResponse :=
  let market_data := market_data_or_fallback market_data in
  let empty := JDict ∅ in
  pricing <~ dict_get market_data "pricing_analysis" empty ;;
  range <~ dict_get pricing "average_price_range" empty ;;
  min_mmk <~ dict_get range "min_mmk" (JNum 0) ;;
  usd <~ json_div min_mmk 2100 ;;
  overview <~ dict_get market_data "market_overview" empty ;;
  recs <~ dict_get market_data "recommendations"
            (JList [JStr "Conduct thorough market research"]) ;;
  (* MarketAnalysisResponse(...) validates its fields *)
  average_price_mmk <~ as_float min_mmk ;;
  price_trends <~ as_dict overview ;;
  price_distribution <~ as_dict pricing ;;
  recommendations <~ as_str_list recs ;;
  Ok (mkMarketAnalysisResponse
        [("city", city (ma_location analysis_request));
         ("township", township (ma_location analysis_request));
         ("analysis_period",
          pretty (time_period_months analysis_request) ++ " months")]
        average_price_mmk usd price_trends price_trends price_distribution
        recommendations).

(** [market_analysis], the handler of [POST /market/analysis]. *)
Definition market_analysis (client_ip : string) (current_time : Q)
    (analysis_request : MarketAnalysisRequest) (market_data : json)
    : M exn Storage MarketAnalysisResponse :=
  check_rate_limit settings client_ip current_time ;;;
  match market_analysis_body analysis_request market_data with
  | Ok response => ret response
  | Err _ =>
      raise (HTTPException 500 "Market analysis service temporarily unavailable")
  end.

End Handlers.

(** The figure shown as the average: the [min_mmk] entry of
    [pricing_analysis.average_price_range], [0] when an entry on the path
    is absent. *)
Definition range_min_mmk (market_data : json) : option json :=
  match market_data with
  | JDict md =>
      match md !! "pricing_analysis" with
      | Some (JDict pricing) =>
          match pricing !! "average_price_range" with
          | Some (JDict range) =>
              match range !! "min_mmk" with
              | Some v => Some v
              | None => Some (JNum 0)
              end
          | Some _ => None
          | None => Some (JNum 0)
          end
      | Some _ => None
      | None => Some (JNum 0)
      end
  | _ => None
  end.

Definition json_number (j : json) : option Q :=
  match j with
  | JNum q => Some q
  | JBool b => Some (b2q b)
  | _ => None
  end.

(** Serving the requests of one client one after the other: [true] for a
    request that passes the rate limit. *)
Fixpoint serve (settings : Settings) (client_ip : string) (times : list Q)
    (storage : Storage) : list bool * Storage :=
  match times with
  | [] => ([], storage)
  | t :: rest =>
      match check_rate_limit settings client_ip t storage with
      | Return _ storage' =>
          let '(r, s) := serve settings client_ip rest storage' in (true :: r, s)
      | Raise _ storage' =>
          let '(r, s) := serve settings client_ip rest storage' in (false :: r, s)
      end
  end.

End Routes.

(** ** Concrete data for the examples *)

Module Samples.
Import Py Core Schemas.

(** *** pos_sales *)

Definition str_datetime (t : Z) : string := "2024-05-01 10:00:00".
Definition next_by_code (code : string) (n : nat) : string := code ++ "/" ++ pretty n.
Definition post_invoice (oid : nat) : M PosSales.exn PosSales.Database nat :=
  ret oid.

(** A completed payment of 50 that is not change. *)
Definition payment_50 : PosSales.PosPayment.t :=
  PosSales.PosPayment.mk "PAY/0001" 1 50 1714557600 1 EmptyString EmptyString EmptyString
    PosSales.PaymentStatus.done EmptyString false.
Definition payment_100 : PosSales.PosPayment.t :=
  PosSales.PosPayment.mk "PAY/0002" 1 100 1714557600 1 EmptyString EmptyString EmptyString
    PosSales.PaymentStatus.done EmptyString false.
(** A payment that is still pending does not count. *)
Definition payment_pending : PosSales.PosPayment.t :=
  PosSales.PosPayment.mk "PAY/0003" 1 50 1714557600 1 EmptyString EmptyString EmptyString
    PosSales.PaymentStatus.pending EmptyString false.

Definition line_150 : PosSales.PosOrderLine.t :=
  PosSales.PosOrderLine.mk 1 "Rice 25kg" 3 50 0 150 150.

Definition order_in (state : PosSales.OrderState.t) : PosSales.PosOrder.t :=
  PosSales.PosOrder.mk "ORD/0001" state "R-0001" "ext-1" EmptyString None PosSales.no.

(** An order of 150 in state [draft] with completed payments of 150 ... *)
Definition db_paid_in_full : PosSales.Database :=
  PosSales.mkDb (<[1%nat := payment_50]> (<[2%nat := payment_100]> ∅))
    {[ 1%nat := order_in PosSales.OrderState.draft ]}
    {[ 1%nat := line_150 ]} 3.
(** ... and with completed payments of 100 only. *)
Definition db_short : PosSales.Database :=
  PosSales.mkDb (<[2%nat := payment_100]> (<[3%nat := payment_pending]> ∅))
    {[ 1%nat := order_in PosSales.OrderState.draft ]}
    {[ 1%nat := line_150 ]} 3.
(** The same order once invoiced. *)
Definition db_invoiced : PosSales.Database :=
  PosSales.mkDb (<[1%nat := payment_50]> (<[2%nat := payment_100]> ∅))
    {[ 1%nat := order_in PosSales.OrderState.invoiced ]}
    {[ 1%nat := line_150 ]} 3.

(** *** pos_products *)

(** Discount price 90 in the window [T - 1h, T + 1h] with T = 10000. *)
Definition product (list_price_shop : Q) : PosProducts.ProductTemplate :=
  PosProducts.mkProductTemplate "Tea" 120 true 10 list_price_shop 90
    (Some 6400%Z) (Some 13600%Z) "TEA-1".

(** *** price predictor *)

Definition _calculate_distance (lat1 lon1 lat2 lon2 : Q) : Q := 7%Q.
Definition str_float (q : Q) : string := "1.0".
Definition column_fit (column : list (option Q)) : Q * Q := (0%Q, 1%Q).

Definition house_features : PropertyFeatures :=
  mkPropertyFeatures 3 2 2 1 1 false false false true true true false true
    true false true.

(** A house whose latitude is exactly 0. *)
Definition house : PropertyBase :=
  mkPropertyBase HOUSE GOOD 1200 None (Some 2015%Z)
    (mkPropertyLocation "Yangon" "Bahan" None None (Some 0%Q) (Some (9616#100)%Q)
       (Some TIER_1))
    house_features None None.

Definition request : PredictionRequest := mkPredictionRequest house true None.

Definition batch_of (n : nat) : BatchPredictionRequest :=
  mkBatchPredictionRequest (repeat request n) true None.

Definition training_rows : list (list (string * MlService.fval)) :=
  [[("size_sqft", MlService.FNum 1000); ("city", MlService.FStr "yangon")];
   [("size_sqft", MlService.FNum 2000); ("city", MlService.FStr "mandalay")]].

(** The feature engineer after fitting on [training_rows]. *)
Definition fitted : MlService.FeatureEngineer :=
  store_of (MlService.fit_transform str_float column_fit training_rows
              MlService.new_FeatureEngineer).
Definition fitted_X : list (list (option Q)) :=
  match MlService.fit_transform str_float column_fit training_rows
          MlService.new_FeatureEngineer with
  | Return X _ => X
  | Raise _ _ => []
  end.

(** A city that was not seen during fitting, and no [size_sqft]. *)
Definition unseen_city : gmap string MlService.fval :=
  {[ "city" := MlService.FStr "bago" ]}.


Definition metrics (name : string) (r2 : Q) : ModelPerformanceMetrics :=
  mkModelPerformanceMetrics name 0 0 r2 0 800 2.

(** Two models that answer 100 and 200, with R² 0.9 and 0.5. *)
Definition manager : MlService.MLModelManager :=
  MlService.mkMLModelManager
    (<["model_a" := fun _ : list Q => 100%Q]>
       (<["model_b" := fun _ : list Q => 200%Q]> ∅))
    fitted
    (<["model_a" := metrics "model_a" (9#10)]>
       (<["model_b" := metrics "model_b" (5#10)]> ∅))
    2100.

(** The features of the house, and the row they transform to. *)
Definition house_feature_map : gmap string MlService.fval :=
  match MlService.create_features _calculate_distance 2024 house with
  | Ok features => features
  | Err _ => ∅
  end.
Definition house_X : list Q :=
  match MlService.transform str_float fitted house_feature_map with
  | Ok X => X
  | Err _ => []
  end.

(** 61 requests, half a second apart. *)
Definition burst : list Q :=
  map (fun i => (inject_Z (Z.of_nat i) / 2)%Q) (seq 0 61).

(** The storage once the client "10.0.0.7" made a request at time 0. *)
Definition one_request : gmap string (list Q) := {[ "10.0.0.7" := [0%Q] ]}.

Definition analysis_request : MarketAnalysisRequest :=
  mkMarketAnalysisRequest
    (mkPropertyLocation "Yangon" "Bahan" None None None None None) None 12.

(** An analysis with the range 50 to 90 million. *)
Definition ai_market_data : Routes.json :=
  Routes.JDict (list_to_map
    [("pricing_analysis",
      Routes.JDict (list_to_map
        [("average_price_range",
          Routes.JDict (list_to_map
            [("min_mmk", Routes.JNum 50000000);
             ("max_mmk", Routes.JNum 90000000)]))]));
     ("recommendations", Routes.JList [Routes.JStr "Buy near the lake"])]).

Definition ai_response : Routes.MarketAnalysisResponse :=
  match Routes.market_analysis_body analysis_request ai_market_data with
  | Ok response => response
  | Err _ => Routes.mkMarketAnalysisResponse [] 0 0 ∅ ∅ ∅ []
  end.

End Samples.

(** ** pos_payment.py: the reversal of a payment *)

Module PosReversal.
Import PosSales.

(** The values [reverse_payment] passes to [copy]: the payment with a name and
    a note that refer to the original, the negated amount, the status
    [done] and the date of the reversal; the other fields are copied. *)
Definition reversal_of (now : Z) (p : PosPayment.t) : PosPayment.t :=
  PosPayment.mk ("Reversal of " ++ PosPayment.name p) (PosPayment.order_id p)
    (- PosPayment.amount p)%Q now (PosPayment.payment_method_id p)
    (PosPayment.transaction_id p) (PosPayment.card_type p)
    (PosPayment.cardholder_name p) PaymentStatus.done
    ("Reversal of payment " ++ PosPayment.name p) (PosPayment.is_change p).

End PosReversal.

(** ** pos_order.py: the amounts of the receipt *)

Module PosReceipt.
Import Py PosSales.



End PosReceipt.

(** ** pos_order_line.py: the onchange of the product *)

Module PosOrderLines.
Import Py PosProducts.

(** A variant [product.product]: its template, its own price [lst_price] and
    its taxes. *)
Record ProductProduct := mkProductProduct {
  display_name : string;
  lst_price : Q;
  product_tmpl_id : ProductTemplate;
  taxes_id : list nat
}.

(** The fields of the line that [_onchange_product_id] assigns. *)
Record LineValues := mkLineValues {
  name : string;
  price_unit : Q;
  tax_ids : list nat
}.

Section Onchange.
(** The default tax of the settings of the shop of the order ([None] without
    settings record or default tax), and the tax mapping of the fiscal
    position of the customer ([None] without fiscal position). *)
Variable default_tax_id : option nat.
Variable fiscal_position : option (list nat -> list nat).

(** [_onchange_product_id]; [product] is [None] when the line has no
    product, [order_has_shop] tells whether [order_id.shop_id] is set. *)
Definition _onchange_product_id (now : Z) (order_has_shop : bool)
    (product : option ProductProduct) (self : LineValues) : LineValues :=
  match product with
  | None => self
  | Some product_id =>
      let product_tmpl := product_tmpl_id product_id in
      let price_unit :=
        if truthy (list_price_shop product_tmpl)
        then list_price_shop product_tmpl
        else lst_price product_id in
      let price_unit :=
        if truthy (discount_price product_tmpl)
        then match discount_start product_tmpl, discount_end product_tmpl with
             | Some discount_start, Some discount_end =>
                 if (discount_start <=? now)%Z && (now <=? discount_end)%Z
                 then discount_price product_tmpl
                 else price_unit
             | _, _ => price_unit
             end
        else price_unit in
      let tax_ids :=
        if order_has_shop
        then match default_tax_id with
             | Some tax => [tax]
             | None =>
                 match fiscal_position with
                 | Some map_tax => map_tax (taxes_id product_id)
                 | None => taxes_id product_id
                 end
             end
        else tax_ids self in
      mkLineValues (display_name product_id) price_unit tax_ids
  end.

End Onchange.
End PosOrderLines.


(** ** api/routes.py: statistics and the single prediction *)

Module ApiRoutes.
Import Py Core Schemas MlService Routes.

(** [get_api_stats]: the two counters of the answer (the others are a fixed
    text and the current time). *)
Record ApiStats := mkApiStats {
  total_requests_last_minute : nat;
  active_clients : nat
}.

Definition get_api_stats (storage : gmap string (list Q)) : ApiStats :=
  mkApiStats
    (sum_list_with (fun requests : string * list Q => length (snd requests))
                   (map_to_list storage))
    (size storage).

(** What the handler of [POST /predict] returns: the prediction of the ML
    service and the two fields the enrichment may assign. *)
Record EnrichedPrediction := mkEnrichedPrediction {
  prediction : PredictionResponse;
  market_insights : option json;
  comparable_properties : option (list (list (string * json)))
}.

Section PredictRoute.
Variable _calculate_distance : Q -> Q -> Q -> Q -> Q.
Variable str_float : Q -> string.
Variable settings : Settings.
Variable ml_service : MLModelManager.
Variable current_year : Z.
(** [openrouter_service.enrich_property_data]: the data it returns, or the
    exception it raises. *)
Variable enrich_property_data : PredictionRequest -> result json.

(** The inner [try] block: an exception while enriching is logged and the
    prediction stays as it is. *)
Definition enrich (prediction_request : PredictionRequest)
    (answer : EnrichedPrediction) : EnrichedPrediction :=
  match enrich_property_data prediction_request with
  | Ok enriched_data =>
      if json_truthy enriched_data
      then match enriched_data with
           | JDict d =>
               mkEnrichedPrediction (prediction answer) (d !! "market_insights")
                 (match d !! "recommendations" with
                  | Some recommendations => Some [[("analysis", recommendations)]]
                  | None => comparable_properties answer
                  end)
           | _ => answer                        (* no [get]: AttributeError *)
           end
      else answer
  | Err _ => answer
  end.

(** [predict_price], the handler of [POST /predict]. *)
Definition predict_price_route (client_ip : string) (current_time : Q)
    (prediction_request : PredictionRequest)
    : M exn (gmap string (list Q)) EnrichedPrediction :=
  check_rate_limit settings client_ip current_time ;;;
  match predict_price _calculate_distance str_float ml_service current_year
          (base prediction_request) (model_preference prediction_request) with
  | Ok prediction =>
      let answer := mkEnrichedPrediction prediction None None in
      if enable_ai_enrichment prediction_request && ENABLE_AI_ENRICHMENT settings
      then ret (enrich prediction_request answer)
      else ret answer
  | Err (MLModelException message) => raise (HTTPException 500 message)
  | Err _ => raise (HTTPException 500 "Prediction service temporarily unavailable")
  end.

End PredictRoute.

(** The shape of the data [market_analysis] can answer from. *)
Definition is_number (j : json) : bool :=
  match j with JNum _ | JBool _ => true | _ => false end.
Definition is_dict (j : json) : bool :=
  match j with JDict _ => true | _ => false end.
Definition is_str_list (j : json) : bool :=
  match j with
  | JList l => forallb (fun x => match x with JStr _ => true | _ => false end) l
  | _ => false
  end.

(** The pricing path leads through dicts to a number (an absent entry is
    fine), the overview is a dict or absent, and the recommendations are a
    list of strings or absent. *)
Definition well_shaped (market_data : json) : bool :=
  match market_data with
  | JDict md =>
      match md !! "pricing_analysis" with
      | None => true
      | Some (JDict pricing) =>
          match pricing !! "average_price_range" with
          | None => true
          | Some (JDict range) =>
              match range !! "min_mmk" with
              | None => true
              | Some v => is_number v
              end
          | Some _ => false
          end
      | Some _ => false
      end
      && match md !! "market_overview" with
         | None => true
         | Some overview => is_dict overview
         end
      && match md !! "recommendations" with
         | None => true
         | Some recommendations => is_str_list recommendations
         end
  | _ => false
  end.

End ApiRoutes.


(** ** services/ml_service.py: [MLService.batch_predict] *)

Module MlBatch.
Import Py Core Schemas MlService.

Section BatchPredict.
Variable _calculate_distance : Q -> Q -> Q -> Q -> Q.
Variable str_float : Q -> string.
Variable self : MLModelManager.
Variable current_year : Z.

(** [MLService.batch_predict]: the predictions in the order of the
    properties; the first exception ends the loop. *)
Fixpoint batch_predict (properties : list PropertyBase)
    (model_preference : option string) : result (list PredictionResponse) :=
  match properties with
  | [] => Ok []
  | property_data :: rest =>
      prediction <~ predict_price _calculate_distance str_float self current_year
                      property_data model_preference ;;
      predictions <~ batch_predict rest model_preference ;;
      Ok (prediction :: predictions)
  end.

End BatchPredict.

(** *** Definitions used to state the properties *)

(** A feature dictionary that holds strings under the categorical columns
    only. *)
Definition strings_only_categorical (features : gmap string fval) : Prop :=
  forall name s, features !! name = Some (FStr s) -> is_categorical name = true.

(** The model [predict] uses for a preference: the preferred one when the
    preference is a non-empty name of the model map. *)
Definition preferred_model (self : MLModelManager) (model_preference : option string)
    : option (string * (list Q -> Q)) :=
  match model_preference with
  | Some name => if String.eqb name EmptyString then None
                 else (fun model => (name, model)) <$> models self !! name
  | None => None
  end.

End MlBatch.


(** ** More data for the theorems *)

Module MoreSamples.
Import Py Core Schemas.

(** *** pos_sales *)

(** A completed payment of 20 booked as change: the sign is wrong for its
    kind. *)
Definition payment_wrong_change : PosSales.PosPayment.t :=
  PosSales.PosPayment.mk "PAY/0004" 1 20 1714557600 1 EmptyString EmptyString
    EmptyString PosSales.PaymentStatus.done EmptyString true.
Definition db_wrong_change : PosSales.Database :=
  PosSales.mkDb {[ 4%nat := payment_wrong_change ]}
    {[ 1%nat := Samples.order_in PosSales.OrderState.draft ]}
    {[ 1%nat := Samples.line_150 ]} 5.

(** A payment of nothing. *)
Definition payment_zero : PosSales.PosPayment.t :=
  PosSales.PosPayment.mk "PAY/0005" 1 0 1714557600 1 EmptyString EmptyString
    EmptyString PosSales.PaymentStatus.pending EmptyString false.

(** The order of 150 with completed payments of 150, in state [paid]. *)
Definition db_paid : PosSales.Database :=
  PosSales.mkDb (<[1%nat := Samples.payment_50]> (<[2%nat := Samples.payment_100]> ∅))
    {[ 1%nat := Samples.order_in PosSales.OrderState.paid ]}
    {[ 1%nat := Samples.line_150 ]} 3.

(** The draft order whose only payment is still pending. *)
Definition db_pending : PosSales.Database :=
  PosSales.mkDb {[ 3%nat := Samples.payment_pending ]}
    {[ 1%nat := Samples.order_in PosSales.OrderState.draft ]}
    {[ 1%nat := Samples.line_150 ]} 4.

(** *** pos_order_line *)

(** A variant of the tea of [Samples.product], with the list price 120 of
    its template. *)
Definition tea_variant : PosOrderLines.ProductProduct :=
  PosOrderLines.mkProductProduct "Tea (box)" 120 (Samples.product 100) [7%nat].
Definition new_line : PosOrderLines.LineValues :=
  PosOrderLines.mkLineValues EmptyString 0 [].

(** *** price predictor *)

(** An enrichment service that is down. *)
Definition enrichment_down (prediction_request : PredictionRequest)
    : result Routes.json :=
  Err (ValueError "OpenRouter API error").

(** [MLModelManager.__init__]: no models, a new feature engineer. *)
Definition new_manager : MlService.MLModelManager :=
  MlService.mkMLModelManager ∅ MlService.new_FeatureEngineer ∅ 2100.

(** A manager that lost its models but kept the fitted feature engineer. *)
Definition manager_without_models : MlService.MLModelManager :=
  MlService.mkMLModelManager ∅ Samples.fitted ∅ 2100.

(** The house of [Samples.house] with a size of 0. *)
Definition house_without_size : PropertyBase :=
  mkPropertyBase HOUSE GOOD 0 None (Some 2015%Z)
    (mkPropertyLocation "Yangon" "Bahan" None None (Some 0%Q) (Some (9616#100)%Q)
       (Some TIER_1))
    Samples.house_features None None.

(** The first row of [Samples.training_rows]. *)
Definition yangon_row : list (string * MlService.fval) :=
  [("size_sqft", MlService.FNum 1000); ("city", MlService.FStr "yangon")].

(** The prediction of [Samples.manager] for [Samples.house] without
    preference. *)
Definition house_prediction : PredictionResponse :=
  match MlService.predict Samples._calculate_distance Samples.str_float
          Samples.manager 2024 Samples.house None with
  | Ok response => response
  | Err _ => mkPredictionResponse 0 0 0 (0, 0)%Q (0, 0)%Q EmptyString []
  end.

End MoreSamples.


(** ** product_template.py: the company of the shop of a product *)

Module ProductShop.
Import Py.

Inductive exn : Type :=
| ValidationError (msg : string)
| MissingError.

(** The two fields of [product.template] that [write], [create] and
    [_check_shop_company] keep in step.  A [Many2one] that is not set reads
    [False] ([None] here). *)
Record Product := mkProduct {
  shop_id : option nat;
  company_id : option nat
}.

(** The shops with their company (a required field of [pos.shop]), and the
    products. *)
Record Database := mkDatabase {
  pos_shop : gmap nat nat;
  product_template : gmap nat Product
}.

(** The dictionary [vals], for the two keys the code reads or sets: a key is
    absent ([None]), or given with an identifier or [False]. *)
Record Vals := mkVals {
  vals_shop_id : option (option nat);
  vals_company_id : option (option nat)
}.

(** The first lines of [write] and of [create]: when [vals.get('shop_id')]
    is truthy, [vals['company_id']] becomes the company of that shop.
    Reading a field of a record that does not exist fails. *)
Definition set_company (vals : Vals) : M exn Database Vals :=
  match vals_shop_id vals with
  | Some (Some shop) =>
      if Nat.eqb shop 0 then ret vals
      else
        db <- get ;;
        match pos_shop db !! shop with
        | Some company => ret (mkVals (vals_shop_id vals) (Some (Some company)))
        | None => raise MissingError
        end
  | _ => ret vals
  end.

(** [_check_shop_company] *)
Definition _check_shop_company (self : list nat) : M exn Database unit :=
  for_each self (fun id =>
    db <- get ;;
    match product_template db !! id with
    | None => raise MissingError
    | Some product =>
        match shop_id product with
        | None => ret tt
        | Some shop =>
            match pos_shop db !! shop with
            | None => raise MissingError
            | Some company =>
                if bool_decide (company_id product = Some company)
                then ret tt
                else raise (ValidationError
                              "Product company must be the same as the shop company.")
            end
        end
    end).

(** What the framework does with [vals]: the fields given are assigned, and
    the constraints of the fields given are checked afterwards. *)
Definition assign (vals : Vals) (product : Product) : Product :=
  mkProduct (default (shop_id product) (vals_shop_id vals))
            (default (company_id product) (vals_company_id vals)).
Definition constrained (vals : Vals) : bool :=
  match vals_shop_id vals, vals_company_id vals with
  | None, None => false
  | _, _ => true
  end.
Definition set_product_template (f : gmap nat Product -> gmap nat Product)
    (db : Database) : Database :=
  mkDatabase (pos_shop db) (f (product_template db)).

(** [write] *)
Definition write (self : list nat) (vals : Vals) : M exn Database bool :=
  vals <- set_company vals ;;
  modify (set_product_template
            (fun products => fold_right (alter (assign vals)) products self)) ;;;
  (if constrained vals then _check_shop_company self else ret tt) ;;;
  ret true.

(** [create]: the new record gets a fresh identifier; every constraint is
    checked. *)
Definition create (vals : Vals) : M exn Database nat :=
  vals <- set_company vals ;;
  db <- get ;;
  let id := fresh (dom (product_template db)) in
  modify (set_product_template (insert id (assign vals (mkProduct None None)))) ;;;
  _check_shop_company [id] ;;;
  ret id.

(** *** Data *)

(** Shop 1 of company 10, shop 2 of company 20; a product of shop 1. *)
Definition two_shops : Database :=
  mkDatabase (<[1%nat := 10%nat]> (<[2%nat := 20%nat]> ∅))
    {[ 5%nat := mkProduct (Some 1%nat) (Some 10%nat) ]}.

End ProductShop.


(** * Theorems *)

(** ** Comparisons and truthiness of numbers *)

Section PyFacts.
Import Py.

Lemma Qltb_lt a b : Qltb a b = true <-> (a < b)%Q.
Proof.
  unfold Qltb. rewrite negb_true_iff.
  split; intros H.
  - apply Qnot_le_lt. intros Hle. apply Qle_bool_iff in Hle. congruence.
  - destruct (Qle_bool b a) eqn:E; [|reflexivity].
    apply Qle_bool_iff in E. exfalso. revert E. apply Qlt_not_le, H.
Qed.

Lemma Qltb_ge a b : Qltb a b = false <-> (b <= a)%Q.
Proof.
  unfold Qltb. rewrite negb_false_iff. apply Qle_bool_iff.
Qed.

Lemma truthy_spec q : truthy q = true <-> ~ (q == 0)%Q.
Proof.
  unfold truthy. rewrite negb_true_iff. split.
  - intros H Hq. apply Qeq_bool_iff in Hq. congruence.
  - intros H. destruct (Qeq_bool q 0) eqn:E; [|reflexivity].
    apply Qeq_bool_iff in E. contradiction.
Qed.

Lemma falsy_spec q : truthy q = false <-> (q == 0)%Q.
Proof.
  unfold truthy. rewrite negb_false_iff. apply Qeq_bool_iff.
Qed.

End PyFacts.

(** ** pos_sales *)

Section PosSalesFacts.
Import Py PosSales.
Variable str_datetime : Z -> string.
Variable next_by_code : string -> nat -> string.
Variable post_invoice : nat -> M exn Database nat.

Lemma OrderState_eqb_neq (a b : OrderState.t) :
  OrderState.eqb a b = false <-> a <> b.
Proof. destruct a, b; simpl; split; congruence. Qed.

(** A payment passes [_check_amount] exactly when its amount is positive and
    it is not change, or negative and it is change. *)
Lemma check_amount_ok (p : PosPayment.t) (db : Database) :
  _check_amount p db = Return tt db <->
  ((0 < PosPayment.amount p)%Q /\ PosPayment.is_change p = false) \/
  ((PosPayment.amount p < 0)%Q /\ PosPayment.is_change p = true).
Proof.
  unfold _check_amount, raise, ret.
  destruct (Qle_bool (PosPayment.amount p) 0) eqn:E1;
  destruct (Qle_bool 0 (PosPayment.amount p)) eqn:E2;
  destruct (PosPayment.is_change p); simpl;
  try (apply Qle_bool_iff in E1); try (apply Qle_bool_iff in E2);
  try (assert (~ (PosPayment.amount p <= 0)%Q)
         by (intros Hle; apply Qle_bool_iff in Hle; congruence));
  try (assert (~ (0 <= PosPayment.amount p)%Q)
         by (intros Hle; apply Qle_bool_iff in Hle; congruence));
  split; intros Hx;
  try discriminate; try reflexivity;
  try (destruct Hx as [[? ?]|[? ?]]; try discriminate; exfalso; lra);
  try (left; split; [lra|reflexivity]);
  try (right; split; [lra|reflexivity]).
Qed.

(** The reversal of a payment that passes [_check_amount] does not pass it:
    the copy keeps [is_change] and flips the sign of the amount. *)
Lemma check_amount_negated (p q : PosPayment.t) (db db' : Database) :
  _check_amount p db = Return tt db ->
  PosPayment.amount q = (- PosPayment.amount p)%Q ->
  PosPayment.is_change q = PosPayment.is_change p ->
  _check_amount q db' =
    Raise (ValidationError (if PosPayment.is_change p
                            then "Change amount must be negative."
                            else "Payment amount must be positive.")) db'.
Proof.
  intros Hok Ha Hc. apply check_amount_ok in Hok.
  unfold _check_amount, raise, ret. rewrite Ha, Hc.
  destruct Hok as [[Hpos Hch]|[Hneg Hch]]; rewrite Hch; simpl.
  - assert (E : Qle_bool (- PosPayment.amount p) 0 = true)
      by (apply Qle_bool_iff; lra).
    rewrite E. reflexivity.
  - rewrite andb_false_r.
    assert (E : Qle_bool 0 (- PosPayment.amount p) = true)
      by (apply Qle_bool_iff; lra).
    rewrite E. reflexivity.
Qed.

(** A payment that is not [done] is refused and nothing is written. *)
Lemma reverse_payment_not_done (now : Z) (pid : nat) (rest : list nat)
    (db : Database) (p : PosPayment.t) :
  pos_payment db !! pid = Some p ->
  PosPayment.payment_status p <> PaymentStatus.done ->
  reverse_payment str_datetime next_by_code now (pid :: rest) db =
    Raise (ValidationError "Only confirmed payments can be reversed.") db.
Proof.
  intros Hp Hs. unfold reverse_payment, bind, browse. rewrite Hp.
  destruct (PaymentStatus.eqb (PosPayment.payment_status p) PaymentStatus.done) eqn:E.
  - destruct (PosPayment.payment_status p); simpl in E; congruence.
  - reflexivity.
Qed.

(** C1 (a defect of the code).  For a [done] payment that satisfies
    the constraint [_check_amount] (positive amount when it is not change,
    negative when it is), [reverse_payment] marks the original [reversed]
    with the reversal note, and then the creation of the reversal raises
    a validation error: the copy has the negated amount and the same
    [is_change], which [_check_amount] refuses.  No payment is created and
    none is returned. *)
Theorem reverse_payment_valid_done_raises (now : Z) (pid : nat) (rest : list nat)
    (db : Database) (p : PosPayment.t) :
  pos_payment db !! pid = Some p ->
  PosPayment.payment_status p = PaymentStatus.done ->
  _check_amount p db = Return tt db ->
  reverse_payment str_datetime next_by_code now (pid :: rest) db =
    Raise (ValidationError (if PosPayment.is_change p
                            then "Change amount must be negative."
                            else "Payment amount must be positive."))
          (set_pos_payment (insert pid (mark_reversed str_datetime now p)) db).
Proof.
  intros Hp Hs Hok.
  unfold reverse_payment, bind, browse. rewrite Hp, Hs. simpl.
  unfold create, bind, modify, get, ret.
  cbn. change ("Reversal of " ++ PosPayment.name p =? EmptyString) with false. cbn.
  erewrite check_amount_negated; [reflexivity | exact Hok | reflexivity | reflexivity].
Qed.

(** C2.  For an order in state [draft], [action_paid] writes the state [paid]
    when the completed non-change payments sum to at least the total, and
    otherwise raises the user error and leaves the database as it was. *)
Theorem action_paid_draft (oid : nat) (db : Database) (o : PosOrder.t) :
  pos_order db !! oid = Some o ->
  PosOrder.state o = OrderState.draft ->
  ((amount_total db oid <= amount_paid db oid)%Q ->
     action_paid [oid] db =
       Return true (set_pos_order (alter (PosOrder.set_state OrderState.paid) oid) db)
     /\ PosOrder.state <$>
          pos_order (store_of (action_paid [oid] db)) !! oid = Some OrderState.paid)
  /\ ((amount_paid db oid < amount_total db oid)%Q ->
     action_paid [oid] db =
       Raise (UserError "Cannot mark as paid: Order is not fully paid.") db
     /\ PosOrder.state <$>
          pos_order (store_of (action_paid [oid] db)) !! oid = Some OrderState.draft).
Proof.
  intros Ho Hs.
  assert (Hrun : action_paid [oid] db =
    if Qltb (amount_paid db oid) (amount_total db oid)
    then Raise (UserError "Cannot mark as paid: Order is not fully paid.") db
    else Return true
           (set_pos_order (alter (PosOrder.set_state OrderState.paid) oid) db)).
  { unfold action_paid, for_each, bind, browse, get, write_state, modify, ret, raise.
    rewrite Ho, Hs. simpl.
    destruct (Qltb (amount_paid db oid) (amount_total db oid)); reflexivity. }
  split; intros Hcmp.
  - apply Qltb_ge in Hcmp. rewrite Hrun, Hcmp. split; [reflexivity|].
    simpl. rewrite lookup_alter_eq, Ho. reflexivity.
  - apply Qltb_lt in Hcmp. rewrite Hrun, Hcmp. split; [reflexivity|].
    simpl. rewrite Ho. simpl. congruence.
Qed.

(** On orders that are not [draft] the loop of [action_paid] only skips. *)
Lemma action_paid_skips (self : list nat) (db : Database) :
  Forall (fun oid => exists o, pos_order db !! oid = Some o
                               /\ PosOrder.state o <> OrderState.draft) self ->
  action_paid self db = Return true db.
Proof.
  intros H. unfold action_paid.
  match goal with |- bind (for_each _ ?b) _ _ = _ => set (body := b) end.
  assert (Hloop : for_each self body db = Return tt db).
  { induction H as [|oid rest [o [Ho Hs]] _ IH]; [reflexivity|].
    cbn [for_each]. unfold bind.
    assert (Hb : body oid db = Return tt db).
    { unfold body, bind, browse. rewrite Ho.
      apply OrderState_eqb_neq in Hs. rewrite Hs. reflexivity. }
    rewrite Hb. exact IH. }
  unfold bind. rewrite Hloop. reflexivity.
Qed.

(** C10.  For an order that is not [draft], [action_paid] changes nothing and
    returns [True] without raising; [action_cancel] and
    [action_create_invoice] raise a user error on the states they do not
    allow. *)
Theorem action_paid_not_draft_noop (now : Z) (oid : nat) (db : Database)
    (o : PosOrder.t) :
  pos_order db !! oid = Some o ->
  PosOrder.state o <> OrderState.draft ->
  action_paid [oid] db = Return true db
  /\ (PosOrder.state o = OrderState.done \/ PosOrder.state o = OrderState.invoiced ->
      action_cancel str_datetime next_by_code now [oid] db =
        Raise (UserError "Cannot cancel a completed order.") db)
  /\ (PosOrder.state o <> OrderState.paid -> PosOrder.state o <> OrderState.done ->
      action_create_invoice post_invoice [oid] db =
        Raise (UserError "Cannot create invoice for unpaid order.") db).
Proof.
  intros Ho Hs. split; [|split].
  - apply action_paid_skips. constructor; [|constructor]. eauto.
  - intros Hst. unfold action_cancel, for_each, bind, browse. rewrite Ho.
    destruct Hst as [-> | ->]; reflexivity.
  - intros H1 H2. unfold action_create_invoice, for_each, bind, browse. rewrite Ho.
    destruct (PosOrder.state o); try congruence; reflexivity.
Qed.

End PosSalesFacts.

(** ** pos_products *)

(** C3.  [get_current_price] is the discount price when one is set and [now]
    lies in the discount window, otherwise the shop selling price when one is
    set, otherwise the base list price. *)
Theorem get_current_price_spec (now : Z) (p : PosProducts.ProductTemplate) :
  (PosProducts.discount_applies now p ->
     PosProducts.get_current_price now [p] = inr (PosProducts.discount_price p))
  /\ (~ PosProducts.discount_applies now p ->
      ~ (PosProducts.list_price_shop p == 0)%Q ->
      PosProducts.get_current_price now [p] = inr (PosProducts.list_price_shop p))
  /\ (~ PosProducts.discount_applies now p ->
      (PosProducts.list_price_shop p == 0)%Q ->
      PosProducts.get_current_price now [p] = inr (PosProducts.list_price p)).
Proof.
  unfold PosProducts.discount_applies, PosProducts.get_current_price.
  split; [|split].
  - intros [Hd (s & e & -> & -> & Hs & He)].
    apply truthy_spec in Hd. rewrite Hd.
    apply Z.leb_le in Hs, He. rewrite Hs, He. reflexivity.
  - intros Hno Hshop. apply truthy_spec in Hshop. rewrite Hshop.
    destruct (Py.truthy (PosProducts.discount_price p)) eqn:Hd; [|reflexivity].
    apply truthy_spec in Hd.
    destruct (PosProducts.discount_start p) as [s|]; [|reflexivity].
    destruct (PosProducts.discount_end p) as [e|]; [|reflexivity].
    destruct (s <=? now)%Z eqn:Hs; [|reflexivity].
    destruct (now <=? e)%Z eqn:He; [|reflexivity].
    exfalso. apply Hno. split; [exact Hd|].
    exists s, e. apply Z.leb_le in Hs, He. auto.
  - intros Hno Hshop. apply falsy_spec in Hshop. rewrite Hshop.
    destruct (Py.truthy (PosProducts.discount_price p)) eqn:Hd; [|reflexivity].
    apply truthy_spec in Hd.
    destruct (PosProducts.discount_start p) as [s|]; [|reflexivity].
    destruct (PosProducts.discount_end p) as [e|]; [|reflexivity].
    destruct (s <=? now)%Z eqn:Hs; [|reflexivity].
    destruct (now <=? e)%Z eqn:He; [|reflexivity].
    exfalso. apply Hno. split; [exact Hd|].
    exists s, e. apply Z.leb_le in Hs, He. auto.
Qed.

(** ** api/routes.py: the rate limiter *)

Section RateLimit.
Import Py Core Routes.
Variable settings : Settings.
Variable client_ip : string.

(** One check, in closed form. *)
Lemma check_rate_limit_run (current_time : Q) (storage : gmap string (list Q)) :
  check_rate_limit settings client_ip current_time storage =
    if (RATE_LIMIT_PER_MINUTE settings
        <=? Z.of_nat (length (recent client_ip current_time storage)))%Z
    then Raise (new_RateLimitException (Some 60%Z))
               (<[client_ip := recent client_ip current_time storage]> storage)
    else Return tt
           (<[client_ip := (recent client_ip current_time storage ++ [current_time])%list]>
              storage).
Proof.
  unfold check_rate_limit, recent, bind, modify, get, raise.
  destruct (storage !! client_ip) as [timestamps|] eqn:Hs; simpl.
  - rewrite !lookup_insert_eq. simpl.
    destruct (_ <=? _)%Z; [reflexivity|].
    rewrite insert_insert_eq, ?lookup_insert_eq. reflexivity.
  - rewrite Hs. rewrite !lookup_insert_eq. simpl.
    destruct (_ <=? _)%Z; [reflexivity|].
    rewrite insert_insert_eq, ?lookup_insert_eq. reflexivity.
Qed.

Lemma recent_all (current_time : Q) (storage : gmap string (list Q)) :
  (forall t, In t (default [] (storage !! client_ip)) -> (current_time - 60 < t)%Q) ->
  recent client_ip current_time storage = default [] (storage !! client_ip).
Proof.
  unfold recent. induction (default [] (storage !! client_ip)) as [|t ts IH];
    intros H; simpl; [reflexivity|].
  assert (Ht : Qltb (current_time - 60) t = true)
    by (apply Qltb_lt, H; left; reflexivity).
  rewrite Ht, IH; [reflexivity|]. intros t' Ht'. apply H. right. exact Ht'.
Qed.

Lemma recent_none (current_time : Q) (storage : gmap string (list Q)) :
  (forall t, In t (default [] (storage !! client_ip)) -> (t <= current_time - 60)%Q) ->
  recent client_ip current_time storage = [].
Proof.
  unfold recent. induction (default [] (storage !! client_ip)) as [|t ts IH];
    intros H; simpl; [reflexivity|].
  assert (Ht : Qltb (current_time - 60) t = false)
    by (apply Qltb_ge, H; left; reflexivity).
  rewrite Ht. apply IH. intros t' Ht'. apply H. right. exact Ht'.
Qed.

Lemma over_limit_all_rejected (k n : nat) :
  (RATE_LIMIT_PER_MINUTE settings <= Z.of_nat k)%Z ->
  map (fun i => (Z.of_nat i <? RATE_LIMIT_PER_MINUTE settings)%Z) (seq k n)
  = repeat false n.
Proof.
  revert k. induction n as [|n IH]; intros k Hk; simpl; [reflexivity|].
  rewrite IH by lia.
  assert (E : (Z.of_nat k <? RATE_LIMIT_PER_MINUTE settings)%Z = false)
    by (apply Z.ltb_ge; lia).
  rewrite E. reflexivity.
Qed.

(** Requests that all lie within 60 seconds of each other and of the time
    stamps already recorded: the request that finds [i] recorded time stamps
    passes exactly when [i] is below the limit. *)
Lemma serve_within_window (times : list Q) :
  forall storage : gmap string (list Q),
  (forall t t', In t (default [] (storage !! client_ip) ++ times)%list ->
                In t' times -> (t' - 60 < t)%Q) ->
  fst (serve settings client_ip times storage) =
    map (fun i => (Z.of_nat i <? RATE_LIMIT_PER_MINUTE settings)%Z)
        (seq (length (default [] (storage !! client_ip))) (length times)).
Proof.
  induction times as [|t rest IH]; intros storage Hwin; [reflexivity|].
  cbn [serve length seq map].
  rewrite check_rate_limit_run.
  assert (Hrec : recent client_ip t storage = default [] (storage !! client_ip)).
  { apply recent_all. intros t0 Ht0. apply Hwin.
    - apply in_or_app. left. exact Ht0.
    - left. reflexivity. }
  rewrite Hrec.
  set (ts := default [] (storage !! client_ip)) in *.
  destruct (RATE_LIMIT_PER_MINUTE settings <=? Z.of_nat (length ts))%Z eqn:Hlim.
  - apply Z.leb_le in Hlim.
    destruct (serve settings client_ip rest (<[client_ip:=ts]> storage))
      as [r s] eqn:Erest.
    cbn [fst].
    assert (E : (Z.of_nat (length ts) <? RATE_LIMIT_PER_MINUTE settings)%Z = false)
      by (apply Z.ltb_ge; lia).
    rewrite E. f_equal.
    change r with (fst (r, s)). rewrite <- Erest.
    rewrite IH.
    + rewrite lookup_insert_eq. simpl (default _ _).
      rewrite !over_limit_all_rejected by lia. reflexivity.
    + rewrite lookup_insert_eq. simpl (default _ _).
      intros t0 t' Ht0 Ht'. apply Hwin.
      * apply in_app_or in Ht0. apply in_or_app.
        destruct Ht0 as [Ht0|Ht0]; [left; exact Ht0|right; right; exact Ht0].
      * right. exact Ht'.
  - apply Z.leb_gt in Hlim.
    destruct (serve settings client_ip rest
                (<[client_ip:=(ts ++ [t])%list]> storage)) as [r s] eqn:Erest.
    cbn [fst].
    assert (E : (Z.of_nat (length ts) <? RATE_LIMIT_PER_MINUTE settings)%Z = true)
      by (apply Z.ltb_lt; lia).
    rewrite E. f_equal.
    change r with (fst (r, s)). rewrite <- Erest.
    rewrite IH.
    + rewrite lookup_insert_eq. simpl (default _ _).
      rewrite length_app. cbn [length]. rewrite Nat.add_1_r. reflexivity.
    + rewrite lookup_insert_eq. simpl (default _ _).
      intros t0 t' Ht0 Ht'. apply Hwin.
      * apply in_app_or in Ht0. apply in_or_app.
        destruct Ht0 as [Ht0|Ht0].
        -- apply in_app_or in Ht0. destruct Ht0 as [Ht0|Ht0].
           ++ left. exact Ht0.
           ++ right. left. destruct Ht0 as [Ht0|[]]. exact Ht0.
        -- right. right. exact Ht0.
      * right. exact Ht'.
Qed.

(** C6.  One check keeps, of the time stamps of the client, those younger than
    60 seconds (any older one is dropped); it raises the rate-limit
    exception - message "Rate limit exceeded", status code 429 and the
    details [{"retry_after": 60}], to which the handler answers with
    [retry_after] 60 and status 429 - exactly when as many of them remain
    as the limit allows, and otherwise records the request.  So of a series of requests of a new client that
    lie within 60 seconds of each other, those before the limit pass and
    the next is refused (limit 60: the 61st); and a request that comes
    when every recorded time stamp is 60 seconds old passes again, for a
    positive limit. *)
Theorem check_rate_limit_spec (current_time : Q) (storage : gmap string (list Q)) :
  let kept := recent client_ip current_time storage in
  (* what is kept *)
  (forall t, In t kept <->
             In t (default [] (storage !! client_ip)) /\ (current_time - 60 < t)%Q)
  (* refused *)
  /\ ((RATE_LIMIT_PER_MINUTE settings <= Z.of_nat (length kept))%Z ->
      exists e,
        check_rate_limit settings client_ip current_time storage
        = Raise e (<[client_ip := kept]> storage)
        /\ e = RateLimitException "Rate limit exceeded" 429 {[ "retry_after" := 60%Z ]}
        /\ retry_after_of_exn e = Some 60%Z /\ status_of_exn e = 429%Z)
  (* recorded *)
  /\ ((Z.of_nat (length kept) < RATE_LIMIT_PER_MINUTE settings)%Z ->
      check_rate_limit settings client_ip current_time storage
      = Return tt (<[client_ip := (kept ++ [current_time])%list]> storage))
  (* a burst of a new client *)
  /\ (forall times : list Q,
        default [] (storage !! client_ip) = [] ->
        (forall t t', In t times -> In t' times -> (t' - 60 < t)%Q) ->
        fst (serve settings client_ip times storage) =
          map (fun i => (Z.of_nat i <? RATE_LIMIT_PER_MINUTE settings)%Z)
              (seq 0 (length times)))
  (* after the window *)
  /\ ((forall t, In t (default [] (storage !! client_ip)) ->
                 (t <= current_time - 60)%Q) ->
      (0 < RATE_LIMIT_PER_MINUTE settings)%Z ->
      check_rate_limit settings client_ip current_time storage
      = Return tt (<[client_ip := [current_time]]> storage)).
Proof.
  intros kept. split; [|split; [|split; [|split]]].
  - intros t. unfold kept, recent. rewrite filter_In, Qltb_lt. reflexivity.
  - intros Hlim. rewrite check_rate_limit_run. fold kept.
    apply Z.leb_le in Hlim. rewrite Hlim.
    eexists. split; [reflexivity|]. split; [|split]; reflexivity.
  - intros Hlim. rewrite check_rate_limit_run. fold kept.
    apply Z.leb_gt in Hlim. rewrite Hlim. reflexivity.
  - intros times Hnew Hwin. rewrite serve_within_window.
    + rewrite Hnew. reflexivity.
    + rewrite Hnew. cbn [app]. exact Hwin.
  - intros Hold Hpos. rewrite check_rate_limit_run.
    rewrite (recent_none _ _ Hold). cbn [length app].
    assert (E : (RATE_LIMIT_PER_MINUTE settings <=? Z.of_nat 0)%Z = false)
      by (apply Z.leb_gt; lia).
    rewrite E. reflexivity.
Qed.

End RateLimit.

(** ** api/routes.py: batch prediction and market analysis *)

Section Handlers.
Import Py Core Schemas MlService Routes.
Variable _calculate_distance : Q -> Q -> Q -> Q -> Q.
Variable str_float : Q -> string.
Variable settings : Settings.
Variable ml_service : MLModelManager.
Variable current_year : Z.

(** The constructor call of the batch loop always gives
    [enable_ai_enrichment] twice. *)
Lemma new_PredictionRequest_raises (property_data : PredictionRequest)
    (enable : bool) (preference : option string) :
  new_PredictionRequest property_data enable preference =
    Err (TypeError
           "got multiple values for keyword argument 'enable_ai_enrichment'").
Proof. reflexivity. Qed.

(** Hence a batch with at least one property that reaches the loop is
    answered with a 500. *)
Lemma process_batch_nonempty (batch_request : BatchPredictionRequest)
    (storage : gmap string (list Q)) :
  properties batch_request <> [] ->
  process_batch _calculate_distance str_float ml_service current_year
    batch_request storage =
    Raise (HTTPException 500 "Batch prediction service temporarily unavailable")
          storage.
Proof.
  intros Hne. unfold process_batch.
  destruct (properties batch_request) as [|p rest]; [contradiction|].
  reflexivity.
Qed.

(** C7 (as amended).  A body with more than 100 properties (so one with 101)
    is refused by the request schema with a 422 and the handler does not
    run.  For a body the schema accepts and a request that passes the rate
    limit, the handler answers 400, naming the configured maximum, when the
    batch is longer than that maximum, and otherwise (so for exactly 100
    properties under the default maximum of 100) hands the batch to the
    prediction loop. *)
Theorem post_predict_batch_size_checks (client_ip : string) (current_time : Q)
    (body : BatchPredictionRequest) (storage : gmap string (list Q)) :
  let run := post_predict_batch _calculate_distance str_float settings ml_service
               current_year client_ip current_time body storage in
  (100 < length (properties body) ->
     run = Raise RequestValidationError storage /\ status_of run = 422%Z)
  /\ (length (properties body) <= 100 ->
      forall storage',
        check_rate_limit settings client_ip current_time storage
        = Return tt storage' ->
        ((MAX_PREDICTION_BATCH_SIZE settings
          < Z.of_nat (length (properties body)))%Z ->
           run = Raise (HTTPException 400
                          ("Batch size exceeds maximum of "
                           ++ pretty (MAX_PREDICTION_BATCH_SIZE settings)))
                       storage'
           /\ status_of run = 400%Z)
        /\ ((Z.of_nat (length (properties body))
             <= MAX_PREDICTION_BATCH_SIZE settings)%Z ->
            run = process_batch _calculate_distance str_float ml_service
                    current_year body storage')).
Proof.
  intros run. unfold run, post_predict_batch, BatchPredictionRequest_max_items.
  split.
  - intros Hlen. apply Nat.ltb_lt in Hlen. rewrite Hlen. split; reflexivity.
  - intros Hlen storage' Hrate.
    assert (E : (100 <? length (properties body))%nat = false)
      by (apply Nat.ltb_ge; exact Hlen).
    rewrite E. unfold batch_predict_prices, bind. rewrite Hrate.
    split; intros Hmax.
    + apply Z.ltb_lt in Hmax. rewrite Hmax. split; reflexivity.
    + apply Z.ltb_ge in Hmax. rewrite Hmax. reflexivity.
Qed.

(** What [market_analysis_body] returns is built from the [min_mmk] entry. *)
Lemma market_analysis_body_sound (analysis_request : MarketAnalysisRequest)
    (market_data : json) (response : MarketAnalysisResponse) :
  market_analysis_body analysis_request market_data = Ok response ->
  exists v q,
    range_min_mmk (market_data_or_fallback market_data) = Some v
    /\ json_number v = Some q
    /\ average_price_mmk response = q
    /\ average_price_usd response = (q / 2100)%Q.
Proof.
  unfold market_analysis_body.
  generalize (market_data_or_fallback market_data). intros md.
  unfold dict_get, range_min_mmk.
  destruct md as [| | | | |m]; try discriminate.
  destruct (m !! "pricing_analysis") as [pricing|]; simpl.
  - destruct pricing as [| | | | |pm]; try discriminate.
    destruct (pm !! "average_price_range") as [range|]; simpl.
    + destruct range as [| | | | |rm]; try discriminate.
      destruct (rm !! "min_mmk") as [v|]; simpl.
      * destruct v as [|b|q| | |]; simpl; try discriminate.
        -- destruct (as_dict _); try discriminate.
           destruct (as_str_list _); try discriminate.
           intros H. inversion H; subst; clear H. simpl.
           exists (JBool b), (b2q b). auto.
        -- destruct (as_dict _); try discriminate.
           destruct (as_str_list _); try discriminate.
           intros H. inversion H; subst; clear H. simpl.
           exists (JNum q), q. auto.
      * rewrite ?lookup_empty. simpl.
        destruct (as_dict _); try discriminate.
        destruct (as_str_list _); try discriminate.
        intros H. inversion H; subst; clear H. simpl.
        exists (JNum 0), 0%Q. auto.
    + rewrite ?lookup_empty. simpl.
      destruct (as_dict _); try discriminate.
      destruct (as_str_list _); try discriminate.
      intros H. inversion H; subst; clear H. simpl.
      exists (JNum 0), 0%Q. auto.
  - rewrite ?lookup_empty. simpl.
    destruct (as_dict _); try discriminate.
    destruct (as_str_list _); try discriminate.
    intros H. inversion H; subst; clear H. simpl.
    exists (JNum 0), 0%Q. auto.
Qed.

(** When the service returned nothing, the placeholder data is used. *)
Lemma market_analysis_body_fallback (analysis_request : MarketAnalysisRequest)
    (market_data : json) :
  json_truthy market_data = false ->
  exists response,
    market_analysis_body analysis_request market_data = Ok response
    /\ average_price_mmk response = 0%Q
    /\ average_price_usd response = (0 / 2100)%Q
    /\ recommendations response = ["Conduct thorough market research"].
Proof.
  intros Hf. unfold market_analysis_body, market_data_or_fallback. rewrite Hf.
  eexists. split; [vm_compute; reflexivity|]. repeat split; reflexivity.
Qed.

(** C8.  Whenever [market_analysis] answers with an analysis, its
    [average_price_mmk] is the number under [min_mmk] in
    [pricing_analysis.average_price_range] of the data of the service, or of
    the placeholder data when the service returned nothing ([0] when an
    entry on the path is absent), and [average_price_usd] is that same
    number divided by 2100.  With the placeholder data the answer exists,
    and both averages are 0. *)
Theorem market_analysis_average_is_range_minimum (client_ip : string)
    (current_time : Q) (analysis_request : MarketAnalysisRequest)
    (market_data : json) (storage : gmap string (list Q)) :
  (forall response storage',
      market_analysis settings client_ip current_time analysis_request
        market_data storage = Return response storage' ->
      exists v q,
        range_min_mmk (market_data_or_fallback market_data) = Some v
        /\ json_number v = Some q
        /\ average_price_mmk response = q
        /\ average_price_usd response = (average_price_mmk response / 2100)%Q)
  /\ (forall storage',
        json_truthy market_data = false ->
        check_rate_limit settings client_ip current_time storage
        = Return tt storage' ->
        exists response,
          market_analysis settings client_ip current_time analysis_request
            market_data storage = Return response storage'
          /\ average_price_mmk response = 0%Q
          /\ average_price_usd response = (0 / 2100)%Q).
Proof.
  split.
  - intros response storage'. unfold market_analysis, bind.
    destruct (check_rate_limit settings client_ip current_time storage)
      as [[] s|e s]; [|discriminate].
    destruct (market_analysis_body analysis_request market_data) as [r|e] eqn:Hb;
      [|discriminate].
    unfold ret. intros H. inversion H; subst; clear H.
    destruct (market_analysis_body_sound _ _ _ Hb) as (v & q & Hv & Hq & Hm & Hu).
    exists v, q. rewrite Hm. auto.
  - intros storage' Hf Hrate. unfold market_analysis, bind. rewrite Hrate.
    destruct (market_analysis_body_fallback analysis_request market_data Hf)
      as (r & Hb & Hm & Hu & _).
    rewrite Hb. exists r. auto.
Qed.

End Handlers.

(** ** services/ml_service.py: feature engineering *)

Section FeatureFacts.
Import Py Core Schemas MlService.
Variable _calculate_distance : Q -> Q -> Q -> Q -> Q.
Variable str_float : Q -> string.
Variable column_fit : list (option Q) -> Q * Q.

Lemma city_center_lookup (n : NeighborhoodFeatures) (features : gmap string fval) :
  neighborhood_features n features !! "distance_to_city_center_km"
  = Some (FNum (or_default (distance_to_city_center_km n) 50)).
Proof.
  unfold neighborhood_features. cbv zeta.
  repeat (rewrite lookup_insert_ne by discriminate).
  apply lookup_insert_eq.
Qed.

Lemma city_center_default_lookup (features : gmap string fval) :
  update default_neighborhood_features features !! "distance_to_city_center_km"
  = Some (FNum 25).
Proof.
  unfold update, default_neighborhood_features. cbn [fold_left fst snd].
  repeat (rewrite lookup_insert_ne by discriminate).
  apply lookup_insert_eq.
Qed.

(** With a positive size nothing in [create_features] raises. *)
Lemma create_features_returns (current_year : Z) (p : PropertyBase) :
  (0 < size_sqft p)%Q ->
  exists f, create_features _calculate_distance current_year p = Ok f.
Proof.
  intros Hsize.
  assert (Hs : truthy (size_sqft p) = true).
  { apply truthy_spec. intros H0. rewrite H0 in Hsize.
    revert Hsize. apply Qlt_irrefl. }
  unfold create_features. cbv zeta. rewrite Hs. cbn [negb].
  eexists. reflexivity.
Qed.

(** C9.  A latitude or a longitude equal to 0 is falsy, as an absent one is:
    [create_features] then gives the very features it gives for the property
    without coordinates, whatever the distance function is; the feature
    [distance_from_cbd] is the stored distance to the city centre (the
    value of the neighbourhood, 50 when that is missing or 0, or the default
    25 without a neighbourhood). *)
Theorem create_features_zero_coordinate (other_distance : Q -> Q -> Q -> Q -> Q)
    (current_year : Z) (p : PropertyBase) :
  (exists lat, latitude (location p) = Some lat /\ (lat == 0)%Q)
  \/ (exists lon, longitude (location p) = Some lon /\ (lon == 0)%Q) ->
  (0 < size_sqft p)%Q ->
  exists f,
    create_features _calculate_distance current_year p = Ok f
    /\ create_features other_distance current_year (without_coordinates p) = Ok f
    /\ f !! "distance_from_cbd" = Some (FNum (city_center_distance p))
    /\ f !! "distance_to_city_center_km" = Some (FNum (city_center_distance p)).
Proof.
  intros Hzero Hsize.
  assert (Hcond : truthy_opt (latitude (location p))
                  && truthy_opt (longitude (location p)) = false).
  { destruct Hzero as [(lat & -> & Hl)|(lon & -> & Hl)]; cbn [truthy_opt];
      apply falsy_spec in Hl; rewrite Hl; [reflexivity|apply andb_false_r]. }
  assert (Hs : truthy (size_sqft p) = true).
  { apply truthy_spec. intros H0. rewrite H0 in Hsize.
    revert Hsize. apply Qlt_irrefl. }
  unfold create_features. cbv zeta.
  cbn [without_coordinates location latitude longitude truthy_opt size_sqft
       lot_size_sqft year_built features neighborhood property_type condition
       city township location_tier andb].
  rewrite Hs, Hcond. cbn [negb].
  eexists. split; [reflexivity|]. split; [reflexivity|].
  rewrite lookup_insert_eq.
  rewrite (lookup_insert_ne _ "distance_from_cbd") by discriminate.
  repeat (rewrite lookup_insert_ne by discriminate).
  unfold city_center_distance.
  destruct (neighborhood p) as [n|].
  - rewrite city_center_lookup. split; reflexivity.
  - rewrite city_center_default_lookup. split; reflexivity.
Qed.

End FeatureFacts.

(** ** services/ml_service.py: the feature transformer *)

Section TransformFacts.
Import Py Core Schemas MlService.
Variable str_float : Q -> string.
Variable column_fit : list (option Q) -> Q * Q.

Lemma existsb_eqb_In (k : string) (l : list string) :
  existsb (String.eqb k) l = true <-> In k l.
Proof.
  rewrite existsb_exists. split.
  - intros (x & Hx & He). apply String.eqb_eq in He. subst. exact Hx.
  - intros H. exists k. split; [exact H|apply String.eqb_refl].
Qed.

(** The encoding loop changes the cells of the encoded categorical columns
    and no other. *)
Lemma encode_fold_lookup (self : FeatureEngineer) (cols : list string) :
  List.NoDup cols ->
  forall (df : gmap string fval) (k : string),
    fold_left
      (fun df col =>
         match df !! col, label_encoders self !! col with
         | Some v, Some classes =>
             <[col := FNum (match index_of (astype_str str_float (Some v)) classes with
                            | Some i => inject_Z (Z.of_nat i)
                            | None => 0
                            end)]> df
         | _, _ => df
         end) cols df !! k
    = if existsb (String.eqb k) cols
      then match df !! k, label_encoders self !! k with
           | Some v, Some classes =>
               Some (FNum (match index_of (astype_str str_float (Some v)) classes with
                           | Some i => inject_Z (Z.of_nat i)
                           | None => 0
                           end))
           | _, _ => df !! k
           end
      else df !! k.
Proof.
  induction 1 as [|c cols Hc Hnd IH]; intros df k; [reflexivity|].
  cbn [fold_left existsb]. rewrite IH.
  destruct (String.eqb k c) eqn:Ekc.
  - apply String.eqb_eq in Ekc. subst k. cbn [orb].
    assert (Hno : existsb (String.eqb c) cols = false).
    { destruct (existsb (String.eqb c) cols) eqn:E; [|reflexivity].
      apply existsb_eqb_In in E. contradiction. }
    rewrite Hno.
    destruct (df !! c) as [v|] eqn:Hdf;
      destruct (label_encoders self !! c) as [classes|] eqn:Hle;
      rewrite ?lookup_insert_eq, ?Hdf; reflexivity.
  - cbn [orb]. apply String.eqb_neq in Ekc.
    assert (Hk : (match df !! c, label_encoders self !! c with
                  | Some v, Some classes =>
                      <[c := FNum (match index_of (astype_str str_float (Some v))
                                           classes with
                                   | Some i => inject_Z (Z.of_nat i)
                                   | None => 0
                                   end)]> df
                  | _, _ => df
                  end) !! k = df !! k).
    { destruct (df !! c); [|reflexivity].
      destruct (label_encoders self !! c); [|reflexivity].
      apply lookup_insert_ne. congruence. }
    rewrite Hk. reflexivity.
Qed.

(** The filling loop adds a zero under every canonical name that is missing. *)
Lemma fill_fold_lookup (names : list string) :
  forall (df : gmap string fval) (k : string),
    fold_left
      (fun df feature_name =>
         match df !! feature_name with
         | None => <[feature_name := FNum 0]> df
         | Some _ => df
         end) names df !! k
    = match df !! k with
      | Some v => Some v
      | None => if existsb (String.eqb k) names then Some (FNum 0) else None
      end.
Proof.
  induction names as [|n names IH]; intros df k.
  - cbn. destruct (df !! k); reflexivity.
  - cbn [fold_left existsb]. rewrite IH.
    destruct (String.eqb k n) eqn:Ekn.
    + apply String.eqb_eq in Ekn. subst k. cbn [orb].
      destruct (df !! n) as [v|] eqn:Hdf.
      * rewrite Hdf. reflexivity.
      * rewrite lookup_insert_eq. reflexivity.
    + cbn [orb]. apply String.eqb_neq in Ekn.
      destruct (df !! n) as [v|] eqn:Hdf; [reflexivity|].
      rewrite lookup_insert_ne by congruence. reflexivity.
Qed.

Lemma categorical_cols_NoDup : List.NoDup categorical_cols.
Proof.
  unfold categorical_cols.
  repeat (constructor; [intros H; cbn in H; intuition discriminate|]).
  constructor.
Qed.

(** The cell of a canonical feature in the row handed to the scaler. *)
Lemma transform_cell (self : FeatureEngineer) (features : gmap string fval)
    (name : string) :
  In name (feature_names self) ->
  (is_categorical name = true -> is_Some (label_encoders self !! name)) ->
  (is_categorical name
   || match features !! name with Some (FStr _) => false | _ => true end) = true ->
  fill_row self (encode_row str_float self features) !! name
  = Some (FNum (canonical_value str_float self features name)).
Proof.
  intros Hin Henc Hnum.
  unfold fill_row, encode_row. rewrite fill_fold_lookup.
  rewrite (encode_fold_lookup self _ categorical_cols_NoDup).
  apply existsb_eqb_In in Hin. rewrite Hin.
  unfold canonical_value. fold (is_categorical name).
  destruct (is_categorical name) eqn:Hcat.
  - destruct (Henc eq_refl) as [classes Hcl]. rewrite Hcl.
    destruct (features !! name) as [v|]; reflexivity.
  - cbn [orb] in Hnum.
    destruct (features !! name) as [[q|s]|]; try reflexivity. discriminate.
Qed.

Lemma mapM_ext_Some {A B} (f : A -> option B) (g : A -> B) (l : list A) :
  (forall x, In x l -> f x = Some (g x)) -> mapM f l = Some (map g l).
Proof.
  intros H. apply mapM_Some. induction l as [|x l IH]; cbn [map]; constructor.
  - apply H. left. reflexivity.
  - apply IH. intros y Hy. apply H. right. exact Hy.
Qed.

Lemma mapM_FNum (xs : list Q) :
  mapM (fun v => match v with FNum q => Some q | FStr _ => None end) (map FNum xs)
  = Some xs.
Proof.
  apply mapM_Some. induction xs; constructor; auto.
Qed.

(** Every categorical column of the frame gets an encoder. *)
Lemma encoders_fold (columns : list string) (g : string -> list string)
    (cols : list string) :
  forall (encs : gmap string (list string)) (k : string),
    is_Some (encs !! k) \/ (In k cols /\ existsb (String.eqb k) columns = true) ->
    is_Some (fold_left
               (fun encs col =>
                  if existsb (String.eqb col) columns
                  then <[col := g col]> encs else encs) cols encs !! k).
Proof.
  induction cols as [|c cols IH]; intros encs k H.
  - destruct H as [H|[[] _]]. exact H.
  - cbn [fold_left]. apply IH.
    destruct H as [H|[[Hc|Hin] Hcol]].
    + left. destruct (existsb (String.eqb c) columns); [|exact H].
      destruct (decide (c = k)) as [->|Hne].
      * rewrite lookup_insert_eq. eauto.
      * rewrite lookup_insert_ne by exact Hne. exact H.
    + subst c. left. rewrite Hcol. rewrite lookup_insert_eq. eauto.
    + right. auto.
Qed.

(** What a completed [fit_transform] leaves in the feature engineer. *)
Lemma fit_transform_fitted (rows : list (list (string * fval)))
    (fe0 fe : FeatureEngineer) (X : list (list (option Q))) :
  fit_transform str_float column_fit rows fe0 = Return X fe ->
  is_fitted fe = true
  /\ feature_names fe = columns_of rows
  /\ (exists ms, scaler fe = Some ms /\ length ms = length (feature_names fe))
  /\ (forall name, In name (feature_names fe) -> is_categorical name = true ->
                   is_Some (label_encoders fe !! name)).
Proof.
  unfold fit_transform.
  match goal with
  | |- context [fold_left ?f categorical_cols (label_encoders fe0)] =>
      set (encoders := fold_left f categorical_cols (label_encoders fe0))
  end.
  assert (Henc : forall name, In name (columns_of rows) ->
                              is_categorical name = true ->
                              is_Some (encoders !! name)).
  { intros name Hin Hcat.
    apply (encoders_fold (columns_of rows)
             (fun col => LabelEncoder_fit
                           (map (fun row => astype_str str_float (cell row col)) rows))).
    right. split.
    - apply existsb_eqb_In. exact Hcat.
    - apply existsb_eqb_In. exact Hin. }
  clearbody encoders.
  destruct (mapM _ rows) as [[|first others]|]; try discriminate.
  destruct (Nat.eqb (length (columns_of rows)) 0); try discriminate.
  intros H. injection H as _ <-.
  cbn [is_fitted feature_names scaler label_encoders].
  split; [reflexivity|]. split; [reflexivity|]. split.
  - eexists. split; [reflexivity|]. apply length_map.
  - exact Henc.
Qed.







End TransformFacts.

(** ** services/ml_service.py: the ensemble prediction *)

Section PredictFacts.
Import Py Core Schemas MlService.
Variable _calculate_distance : Q -> Q -> Q -> Q -> Q.
Variable str_float : Q -> string.

Lemma fold_left_Qplus_acc (l : list Q) :
  forall a, (fold_left Qplus l a == a + fold_left Qplus l 0)%Q.
Proof.
  induction l as [|x l IH]; intros a; cbn [fold_left].
  - ring.
  - rewrite IH. rewrite (IH (0 + x)%Q). ring.
Qed.

Lemma sum_cons (x : Q) (l : list Q) : (sum (x :: l) == x + sum l)%Q.
Proof.
  unfold sum. cbn [fold_left]. rewrite fold_left_Qplus_acc. ring.
Qed.

Lemma sum_Permutation (l l' : list Q) : l ≡ₚ l' -> (sum l == sum l')%Q.
Proof.
  induction 1 as [|x l l' _ IH|x y l|l l' l'' _ IH1 _ IH2].
  - reflexivity.
  - rewrite !sum_cons, IH. reflexivity.
  - rewrite !sum_cons. ring.
  - rewrite IH1. exact IH2.
Qed.

Lemma sum_map_div {A} (f : A -> Q) (t : Q) (l : list A) :
  (sum (map (fun x => f x / t) l) == sum (map f l) / t)%Q.
Proof.
  induction l as [|x l IH]; cbn [map].
  - unfold sum, Qdiv. cbn [fold_left]. ring.
  - rewrite !sum_cons, IH. unfold Qdiv. ring.
Qed.

Lemma sum_nonneg (l : list Q) :
  Forall (fun x => (0 < x)%Q) l -> (0 <= sum l)%Q.
Proof.
  induction 1 as [|x l Hx _ IH].
  - unfold sum. cbn. lra.
  - rewrite sum_cons. lra.
Qed.

Lemma sum_pos (l : list Q) :
  l <> [] -> Forall (fun x => (0 < x)%Q) l -> (0 < sum l)%Q.
Proof.
  intros Hne Hall. destruct Hall as [|x l Hx Hl]; [contradiction|].
  rewrite sum_cons. pose proof (sum_nonneg l Hl). lra.
Qed.

Lemma model_weight_pos (metrics : gmap string ModelPerformanceMetrics)
    (name : string) : (0 < model_weight metrics name)%Q.
Proof.
  unfold model_weight, py_max.
  destruct (metrics !! name) as [m|]; [|lra].
  destruct (Qltb (1 # 10) (r2_score m)) eqn:E; [|lra].
  apply Qltb_lt in E. lra.
Qed.

(** [min(0.95, max(0.5, r2))] lies in [0.5, 0.95]. *)
Lemma confidence_clamped (r2 : Q) :
  ((1#2) <= py_min (95#100) (py_max (1#2) r2) <= (95#100))%Q.
Proof.
  unfold py_min, py_max.
  destruct (Qltb (1 # 2) r2) eqn:E1.
  - apply Qltb_lt in E1.
    destruct (Qltb r2 (95 # 100)) eqn:E2.
    + apply Qltb_lt in E2. lra.
    + lra.
  - destruct (Qltb (1 # 2) (95 # 100)) eqn:E2.
    + lra.
    + apply Qltb_ge in E2. lra.
Qed.

(** The entries of the dictionary [weights]. *)
Lemma map_to_list_weights (g : string -> Q) (m : gmap string Q) :
  map_to_list (map_imap (fun name _ => Some (g name)) m)
  ≡ₚ (fun kv => (fst kv, g (fst kv))) <$> map_to_list m.
Proof.
  apply NoDup_Permutation.
  - apply NoDup_map_to_list.
  - apply (NoDup_fmap_1 fst). rewrite <- list_fmap_compose.
    erewrite list_fmap_ext; [apply NoDup_fst_map_to_list|].
    intros i [k v] _. reflexivity.
  - intros [k v]. rewrite elem_of_map_to_list, map_lookup_imap, list_elem_of_fmap.
    split.
    + intros H. destruct (m !! k) as [y|] eqn:Hm; [|discriminate].
      cbn in H. injection H as <-.
      exists (k, y). split; [reflexivity|]. apply elem_of_map_to_list, Hm.
    + intros ([k' y] & Heq & Hin). cbn in Heq. injection Heq as -> ->.
      apply elem_of_map_to_list in Hin. rewrite Hin. reflexivity.
Qed.

Lemma weights_of_models (w : string -> Q) (X : list Q)
    (l : list (string * (list Q -> Q))) :
  map snd ((fun kv : string * Q => (fst kv, w (fst kv)))
             <$> (prod_map id (fun model : list Q -> Q => model X) <$> l))
  = map (fun nm => w (fst nm)) l.
Proof.
  induction l as [|[k v] l IH]; cbn; [reflexivity|]. f_equal. exact IH.
Qed.

Lemma weighted_predictions_of_models (w : string -> Q) (X : list Q)
    (l : list (string * (list Q -> Q))) :
  map (fun np : string * Q => (snd np * w (fst np))%Q)
      (prod_map id (fun model : list Q -> Q => model X) <$> l)
  = map (fun nm => (snd nm X * w (fst nm))%Q) l.
Proof.
  induction l as [|[k v] l IH]; cbn; [reflexivity|]. f_equal. exact IH.
Qed.

Lemma sum_map_Qeq {A} (f g : A -> Q) (l : list A) :
  (forall x, In x l -> (f x == g x)%Q) -> (sum (map f l) == sum (map g l))%Q.
Proof.
  induction l as [|x l IH]; intros H; cbn [map]; [reflexivity|].
  rewrite !sum_cons, (H x (or_introl eq_refl)), IH; [reflexivity|].
  intros y Hy. apply H. right. exact Hy.
Qed.

(** The weight the code computes is the weight of the specification. *)
Lemma model_weight_spec (self : MLModelManager) (name : string) :
  (model_weight (model_metrics self) name == ensemble_weight self name)%Q.
Proof.
  unfold model_weight, ensemble_weight, py_max.
  destruct (model_metrics self !! name) as [metric|]; [|reflexivity].
  destruct (Qltb (1 # 10) (r2_score metric)) eqn:E1;
    destruct (Qle_bool (r2_score metric) (1 # 10)) eqn:E2; try reflexivity.
  - apply Qltb_lt in E1. apply Qle_bool_iff in E2. lra.
  - apply Qltb_ge in E1.
    assert (~ (r2_score metric <= 1 # 10)%Q)
      by (intros H; apply Qle_bool_iff in H; congruence).
    contradiction.
Qed.

Lemma weighted_ensemble_model_weight (self : MLModelManager) (X : list Q) :
  (sum (map (fun nm => snd nm X * model_weight (model_metrics self) (fst nm))
            (map_to_list (models self)))
   / sum (map (fun nm => model_weight (model_metrics self) (fst nm))
              (map_to_list (models self)))
   == weighted_ensemble self X)%Q.
Proof.
  unfold weighted_ensemble. apply Qdiv_comp; apply sum_map_Qeq; intros nm _.
  - rewrite model_weight_spec. reflexivity.
  - apply model_weight_spec.
Qed.

(** C4.  When the features of the property transform to [X], the model map is
    not empty and no model, or an unknown one, is preferred, [predict]
    answers with the model name "ensemble" and the price
    Σ(model(X) × weight) / Σ(weight), the weight of a model being its
    recorded R² floored at 0.1, or 0.5 without metrics
    ([ensemble_weight]).  The code adds the quotients
    (model(X) × weight) / Σ(weight); with floats as rationals the two
    agree, so the equality is that of exact arithmetic.  The confidence of
    every answer of [predict] lies in [0.5, 0.95].  The exchange rate is
    not 0, as the division of the price by it asks. *)
Theorem predict_weighted_ensemble (self : MLModelManager) (current_year : Z)
    (property_data : PropertyBase) (model_preference : option string)
    (X : list Q) :
  ~ (exchange_rate_usd_mmk self == 0)%Q ->
  ((exists features,
       create_features _calculate_distance current_year property_data = Ok features
       /\ transform str_float (feature_engineer self) features = Ok X) ->
   models self <> ∅ ->
   model_preference = None
   \/ (exists name, model_preference = Some name /\ models self !! name = None) ->
   exists response,
     predict _calculate_distance str_float self current_year property_data
       model_preference = Ok response
     /\ model_used response = "ensemble"
     /\ (predicted_price_mmk response == weighted_ensemble self X)%Q
     /\ ((1#2) <= confidence_score response <= (95#100))%Q)
  /\ (forall preference response,
        predict _calculate_distance str_float self current_year property_data
          preference = Ok response ->
        ((1#2) <= confidence_score response <= (95#100))%Q).
Proof.
  intros _. split.
  - intros (features & Hcf & Htr) Hne Hpref.
    unfold predict, predict_body. rewrite Hcf, Htr.
    assert (Hnone : match model_preference with
                    | Some name => if String.eqb name EmptyString then None
                                   else (fun model => (name, model)) <$> models self !! name
                    | None => None
                    end = None).
    { destruct Hpref as [->|(name & -> & Hm)]; [reflexivity|].
      rewrite Hm. destruct (String.eqb name EmptyString); reflexivity. }
    rewrite Hnone.
    set (predictions := (fun model => model X) <$> models self).
    set (w := model_weight (model_metrics self)).
    set (weights := map_imap (fun name _ => Some (w name)) predictions).
    set (total_weight := sum (map snd (map_to_list weights))).
    (* the two sums, over the models *)
    assert (Hpreds : map_to_list predictions
                     = prod_map id (fun model => model X) <$> map_to_list (models self))
      by apply map_to_list_fmap.
    assert (Htw : (total_weight
                   == sum (map (fun nm => w (fst nm)) (map_to_list (models self))))%Q).
    { unfold total_weight. apply sum_Permutation.
      etransitivity;
        [apply Permutation_map; unfold weights; apply map_to_list_weights|].
      rewrite Hpreds, weights_of_models. reflexivity. }
    assert (Hpos : (0 < total_weight)%Q).
    { rewrite Htw. apply sum_pos.
      - intros Hnil. apply map_eq_nil in Hnil.
        apply map_to_list_empty_iff in Hnil. contradiction.
      - apply Forall_forall. intros x Hx.
        apply list_elem_of_In, in_map_iff in Hx.
        destruct Hx as (nm & <- & _). apply model_weight_pos. }
    assert (Htruthy : truthy total_weight = true).
    { apply truthy_spec. intros H0. rewrite H0 in Hpos. revert Hpos. apply Qlt_irrefl. }
    rewrite Htruthy. cbn [negb andb fst snd].
    rewrite lookup_insert_eq. cbn [default].
    match goal with
    | |- context [py_min (95#100) (py_max (1#2) ?r)] =>
        pose proof (confidence_clamped r) as Hc;
        set (confidence := py_min (95#100) (py_max (1#2) r)) in *
    end.
    assert (Hvalid : Qle_bool 0 confidence && Qle_bool confidence 1 = true).
    { apply andb_true_intro. split; apply Qle_bool_iff; lra. }
    rewrite Hvalid. eexists. split; [reflexivity|].
    cbn [model_used predicted_price_mmk confidence_score].
    split; [reflexivity|]. split; [|exact Hc].
    unfold id. rewrite <- weighted_ensemble_model_weight. fold w.
    (* weights[name] is the weight of the model *)
    erewrite (map_ext_in _ (fun np => (snd np * w (fst np) / total_weight)%Q)).
    2:{ intros [k v] Hin. cbn [fst snd].
        apply list_elem_of_In, elem_of_map_to_list in Hin.
        unfold weights. rewrite map_lookup_imap, Hin. reflexivity. }
    rewrite (sum_map_div (fun np => (snd np * w (fst np))%Q)).
    rewrite <- Htw. apply Qdiv_comp; [|reflexivity].
    rewrite Hpreds, weighted_predictions_of_models. reflexivity.
  - intros preference response. unfold predict.
    destruct (predict_body _ _ _ _ _ _) as [r|e] eqn:Hb; [|discriminate].
    intros H. injection H as <-. revert Hb. unfold predict_body.
    destruct (create_features _ _ _); [|discriminate].
    destruct (transform _ _ _); [|discriminate].
    match goal with
    | |- context [match ?c with Ok _ => _ | Err _ => _ end] =>
        destruct c as [chosen|]; [|discriminate]
    end.
    match goal with
    | |- context [py_min (95#100) (py_max (1#2) ?r2)] =>
        pose proof (confidence_clamped r2) as Hc
    end.
    destruct (Qle_bool 0 _ && Qle_bool _ 1); [|discriminate].
    intros H. injection H as <-. exact Hc.
Qed.

End PredictFacts.

(** * The theorems on concrete data *)

(** The completed payment of 50: the original is marked, and the creation of
    the reversal of -50 is refused. *)
Lemma reverse_payment_valid_done_raises_witness :
  PosSales.pos_payment Samples.db_paid_in_full !! 1%nat = Some Samples.payment_50
  /\ PosSales.reverse_payment Samples.str_datetime Samples.next_by_code 1714600000
       [1%nat] Samples.db_paid_in_full
     = Py.Raise (PosSales.ValidationError "Payment amount must be positive.")
         (PosSales.set_pos_payment
            (insert 1%nat
               (PosSales.mark_reversed Samples.str_datetime 1714600000
                  Samples.payment_50))
            Samples.db_paid_in_full).
Proof.
  split; [reflexivity|].
  apply (reverse_payment_valid_done_raises Samples.str_datetime Samples.next_by_code
           1714600000 1%nat [] Samples.db_paid_in_full Samples.payment_50);
    reflexivity.
Defined.

(** Payments of 150 against a total of 150: paid.  Payments of 100: refused. *)
Lemma action_paid_draft_witness :
  PosSales.action_paid [1%nat] Samples.db_paid_in_full
  = Py.Return true
      (PosSales.set_pos_order
         (alter (PosSales.PosOrder.set_state PosSales.OrderState.paid) 1%nat)
         Samples.db_paid_in_full)
  /\ PosSales.action_paid [1%nat] Samples.db_short
     = Py.Raise (PosSales.UserError "Cannot mark as paid: Order is not fully paid.")
         Samples.db_short.
Proof.
  split.
  - destruct (action_paid_draft 1%nat Samples.db_paid_in_full
                (Samples.order_in PosSales.OrderState.draft) eq_refl eq_refl)
      as [Hpaid _].
    apply Hpaid. apply Qle_bool_iff. vm_compute. reflexivity.
  - destruct (action_paid_draft 1%nat Samples.db_short
                (Samples.order_in PosSales.OrderState.draft) eq_refl eq_refl)
      as [_ Hshort].
    apply Hshort. apply Qltb_lt. vm_compute. reflexivity.
Defined.

(** An invoiced order: [action_paid] does nothing, the other two raise. *)
Lemma action_paid_not_draft_noop_witness :
  PosSales.action_paid [1%nat] Samples.db_invoiced = Py.Return true Samples.db_invoiced
  /\ PosSales.action_cancel Samples.str_datetime Samples.next_by_code 1714600000
       [1%nat] Samples.db_invoiced
     = Py.Raise (PosSales.UserError "Cannot cancel a completed order.")
         Samples.db_invoiced
  /\ PosSales.action_create_invoice Samples.post_invoice [1%nat] Samples.db_invoiced
     = Py.Raise (PosSales.UserError "Cannot create invoice for unpaid order.")
         Samples.db_invoiced.
Proof.
  destruct (action_paid_not_draft_noop Samples.str_datetime Samples.next_by_code
              Samples.post_invoice 1714600000 1%nat Samples.db_invoiced
              (Samples.order_in PosSales.OrderState.invoiced))
    as (H1 & H2 & H3); [reflexivity|discriminate|].
  split; [exact H1|]. split.
  - apply H2. right. reflexivity.
  - apply H3; discriminate.
Defined.

(** The product of the specification: 90 inside the window, 100 outside, and
    the list price 120 when no shop price is set. *)
Lemma get_current_price_spec_witness :
  PosProducts.get_current_price 10000 [Samples.product 100] = inr 90%Q
  /\ PosProducts.get_current_price 20000 [Samples.product 100] = inr 100%Q
  /\ PosProducts.get_current_price 20000 [Samples.product 0] = inr 120%Q.
Proof.
  split; [|split].
  - apply (get_current_price_spec 10000 (Samples.product 100)).
    split; [discriminate|]. exists 6400%Z, 13600%Z. repeat split; lia.
  - apply (get_current_price_spec 20000 (Samples.product 100)).
    + intros (_ & s & e & Hs & He & Hin). cbn in Hs, He.
      injection Hs as <-. injection He as <-. lia.
    + discriminate.
  - apply (get_current_price_spec 20000 (Samples.product 0)).
    + intros (_ & s & e & Hs & He & Hin). cbn in Hs, He.
      injection Hs as <-. injection He as <-. lia.
    + reflexivity.
Defined.

Lemma burst_within_window :
  forall t t', In t Samples.burst -> In t' Samples.burst -> (t' - 60 < t)%Q.
Proof.
  assert (H : forallb (fun t' => forallb (fun t => Py.Qltb (t' - 60) t) Samples.burst)
                      Samples.burst = true) by (vm_compute; reflexivity).
  intros t t' Ht Ht'.
  rewrite forallb_forall in H. specialize (H t' Ht').
  rewrite forallb_forall in H. apply Qltb_lt, H, Ht.
Qed.

(** Limit 60: of 61 requests within 30 seconds the first 60 pass and the 61st
    is refused; one more request at second 31 is refused with the exception
    that carries [retry_after] 60; a request 60 seconds after the last
    recorded one passes. *)
Lemma check_rate_limit_spec_witness :
  fst (Routes.serve Core.default_settings "10.0.0.7" Samples.burst ∅)
  = (repeat true 60 ++ [false])%list
  /\ Py.raised
       (Routes.check_rate_limit Core.default_settings "10.0.0.7" 31
          (snd (Routes.serve Core.default_settings "10.0.0.7" Samples.burst ∅)))
     = Some (Core.RateLimitException "Rate limit exceeded" 429
               {[ "retry_after" := 60%Z ]})
  /\ Routes.check_rate_limit Core.default_settings "10.0.0.7" 90
       (snd (Routes.serve Core.default_settings "10.0.0.7" Samples.burst ∅))
     = Py.Return tt
         (<["10.0.0.7" := [90%Q]]>
            (snd (Routes.serve Core.default_settings "10.0.0.7" Samples.burst ∅))).
Proof.
  split; [|split].
  - destruct (check_rate_limit_spec Core.default_settings "10.0.0.7" 0 ∅)
      as (_ & _ & _ & Hburst & _).
    rewrite (Hburst Samples.burst); [reflexivity|reflexivity|].
    exact burst_within_window.
  - destruct (check_rate_limit_spec Core.default_settings "10.0.0.7" 31
                (snd (Routes.serve Core.default_settings "10.0.0.7" Samples.burst ∅)))
      as (_ & Hrefused & _).
    destruct Hrefused as (e & Hrun & He & _).
    + vm_compute. discriminate.
    + rewrite Hrun. cbn [Py.raised]. rewrite He. reflexivity.
  - destruct (check_rate_limit_spec Core.default_settings "10.0.0.7" 90
                (snd (Routes.serve Core.default_settings "10.0.0.7" Samples.burst ∅)))
      as (_ & _ & _ & _ & Hafter).
    apply Hafter; [|reflexivity].
    assert (H : forallb (fun t => Qle_bool t (90 - 60))
                  (default []
                     (snd (Routes.serve Core.default_settings "10.0.0.7"
                             Samples.burst ∅) !! "10.0.0.7")) = true)
      by (vm_compute; reflexivity).
    intros t Ht. rewrite forallb_forall in H. apply Qle_bool_iff, H, Ht.
Defined.

(** Default settings, a new client.  101 properties: refused by the schema
    with a 422, not by the handler with a 400. *)
Lemma batch_of_101_is_refused_by_the_schema :
  Routes.status_of
    (Routes.post_predict_batch Samples._calculate_distance Samples.str_float
       Core.default_settings Samples.manager 2024 "10.0.0.7" 0
       (Samples.batch_of 101) ∅) = 422%Z
  /\ Routes.status_of
       (Routes.post_predict_batch Samples._calculate_distance Samples.str_float
          Core.default_settings Samples.manager 2024 "10.0.0.7" 0
          (Samples.batch_of 101) ∅) <> 400%Z.
Proof.
  split; [reflexivity|discriminate].
Qed.

(** 100 properties under the default maximum reach the prediction loop; with
    the maximum set to 50 the handler answers 400. *)
Lemma post_predict_batch_size_checks_witness :
  Routes.post_predict_batch Samples._calculate_distance Samples.str_float
    Core.default_settings Samples.manager 2024 "10.0.0.7" 0
    (Samples.batch_of 100) ∅
  = Routes.process_batch Samples._calculate_distance Samples.str_float
      Samples.manager 2024 (Samples.batch_of 100) Samples.one_request
  /\ Routes.post_predict_batch Samples._calculate_distance Samples.str_float
       (Core.mkSettings 50 60 true) Samples.manager 2024 "10.0.0.7" 0
       (Samples.batch_of 100) ∅
     = Py.Raise (Core.HTTPException 400 "Batch size exceeds maximum of 50")
         Samples.one_request
  /\ Routes.post_predict_batch Samples._calculate_distance Samples.str_float
       Core.default_settings Samples.manager 2024 "10.0.0.7" 0
       (Samples.batch_of 101) ∅
     = Py.Raise Core.RequestValidationError ∅.
Proof.
  split; [|split].
  - destruct (post_predict_batch_size_checks Samples._calculate_distance
                Samples.str_float Core.default_settings Samples.manager 2024
                "10.0.0.7" 0 (Samples.batch_of 100) ∅) as [_ H].
    destruct (H ltac:(vm_compute; lia) Samples.one_request
                ltac:(vm_compute; reflexivity)) as [_ Hgo].
    apply Hgo. vm_compute. discriminate.
  - destruct (post_predict_batch_size_checks Samples._calculate_distance
                Samples.str_float (Core.mkSettings 50 60 true) Samples.manager 2024
                "10.0.0.7" 0 (Samples.batch_of 100) ∅) as [_ H].
    destruct (H ltac:(vm_compute; lia) Samples.one_request
                ltac:(vm_compute; reflexivity)) as [Hno _].
    apply Hno. vm_compute. reflexivity.
  - destruct (post_predict_batch_size_checks Samples._calculate_distance
                Samples.str_float Core.default_settings Samples.manager 2024
                "10.0.0.7" 0 (Samples.batch_of 101) ∅) as [H _].
    apply H. vm_compute. lia.
Defined.

(** The batch of 100 is then answered with a 500: the request of each
    property is built with the keyword [enable_ai_enrichment] given twice. *)
Example batch_of_100_is_a_500 :
  Routes.status_of
    (Routes.post_predict_batch Samples._calculate_distance Samples.str_float
       Core.default_settings Samples.manager 2024 "10.0.0.7" 0
       (Samples.batch_of 100) ∅) = 500%Z.
Proof. vm_compute. reflexivity. Qed.

(** The analysis with the range 50 to 90 million: the "average" is 50 million;
    without data from the service both averages are 0. *)
Lemma market_analysis_average_is_range_minimum_witness :
  (Routes.market_analysis Core.default_settings "10.0.0.7" 0
     Samples.analysis_request Samples.ai_market_data ∅
   = Py.Return Samples.ai_response Samples.one_request
   /\ Routes.average_price_mmk Samples.ai_response = 50000000%Q
   /\ Routes.average_price_usd Samples.ai_response = (50000000 / 2100)%Q)
  /\ exists response,
       Routes.market_analysis Core.default_settings "10.0.0.7" 0
         Samples.analysis_request (Routes.JDict ∅) ∅
       = Py.Return response Samples.one_request
       /\ Routes.average_price_mmk response = 0%Q
       /\ Routes.average_price_usd response = (0 / 2100)%Q.
Proof.
  split.
  - assert (Hrun : Routes.market_analysis Core.default_settings "10.0.0.7" 0
                     Samples.analysis_request Samples.ai_market_data ∅
                   = Py.Return Samples.ai_response Samples.one_request)
      by (vm_compute; reflexivity).
    split; [exact Hrun|].
    destruct (market_analysis_average_is_range_minimum Core.default_settings
                "10.0.0.7" 0 Samples.analysis_request Samples.ai_market_data ∅)
      as [Hsound _].
    destruct (Hsound _ _ Hrun) as (v & q & Hv & Hq & Hm & Hu).
    assert (Hv' : Routes.range_min_mmk
                    (Routes.market_data_or_fallback Samples.ai_market_data)
                  = Some (Routes.JNum 50000000)) by (vm_compute; reflexivity).
    rewrite Hv' in Hv. injection Hv as <-. cbn in Hq. injection Hq as <-.
    rewrite Hu, Hm. split; reflexivity.
  - destruct (market_analysis_average_is_range_minimum Core.default_settings
                "10.0.0.7" 0 Samples.analysis_request (Routes.JDict ∅) ∅)
      as [_ Hfallback].
    apply Hfallback; vm_compute; reflexivity.
Defined.

(** The house with latitude 0: the distance is the default 25, not the value
    7 of the distance function of the example. *)
Lemma create_features_zero_coordinate_witness :
  exists f,
    MlService.create_features Samples._calculate_distance 2024 Samples.house
    = Core.Ok f
    /\ MlService.create_features (fun _ _ _ _ => 0%Q) 2024
         (MlService.without_coordinates Samples.house) = Core.Ok f
    /\ f !! "distance_from_cbd" = Some (MlService.FNum 25)
    /\ f !! "distance_to_city_center_km" = Some (MlService.FNum 25).
Proof.
  apply (create_features_zero_coordinate Samples._calculate_distance
           (fun _ _ _ _ => 0%Q) 2024 Samples.house).
  - left. exists 0%Q. split; reflexivity.
  - reflexivity.
Defined.



Example transform_unseen_city :
  MlService.feature_names Samples.fitted = ["size_sqft"; "city"]
  /\ MlService.label_encoders Samples.fitted !! "city" = Some ["mandalay"; "yangon"]
  /\ MlService.transform Samples.str_float Samples.fitted Samples.unseen_city
     = Core.Ok [((0 - 0) / 1)%Q; ((0 - 0) / 1)%Q]
  /\ MlService.transform Samples.str_float Samples.fitted
       (<["city" := MlService.FStr "yangon"]>
          (<["size_sqft" := MlService.FNum 1500]> ∅))
     = Core.Ok [((1500 - 0) / 1)%Q; ((1 - 0) / 1)%Q].
Proof. repeat split; vm_compute; reflexivity. Qed.

(** Two models, 100 with R² 0.9 and 200 with R² 0.5: the price is
    (100 × 0.9 + 200 × 0.5) / (0.9 + 0.5) = 190 / 1.4 = 950 / 7. *)
Lemma predict_weighted_ensemble_witness :
  exists response,
    MlService.predict Samples._calculate_distance Samples.str_float Samples.manager
      2024 Samples.house None = Core.Ok response
    /\ Schemas.model_used response = "ensemble"
    /\ (Schemas.predicted_price_mmk response == 950 # 7)%Q
    /\ ((1#2) <= Schemas.confidence_score response <= (95#100))%Q.
Proof.
  destruct (predict_weighted_ensemble Samples._calculate_distance Samples.str_float
              Samples.manager 2024 Samples.house None Samples.house_X) as [H _].
  { intros H0. vm_compute in H0. discriminate. }
  destruct H as (response & Hrun & Hused & Hprice & Hconf).
  - exists Samples.house_feature_map. split.
    + destruct (create_features_returns Samples._calculate_distance 2024
                  Samples.house) as (f & Hf); [reflexivity|].
      unfold Samples.house_feature_map. rewrite Hf. reflexivity.
    + vm_compute. reflexivity.
  - intros Hempty.
    assert (Hl := f_equal (fun m : gmap string (list Q -> Q) => m !! "model_a") Hempty).
    vm_compute in Hl. discriminate.
  - left. reflexivity.
  - exists response. split; [exact Hrun|]. split; [exact Hused|].
    split; [|exact Hconf].
    rewrite Hprice. vm_compute. reflexivity.
Defined.

(** (100 × 0.9 + 200 × 0.5) / (0.9 + 0.5) = 190 / 1.4 = 950 / 7. *)
Example ensemble_of_two_models :
  (MlService.weighted_ensemble Samples.manager Samples.house_X == 950 # 7)%Q.
Proof. vm_compute. reflexivity. Qed.

(** [replace('ensemble', 'xgboost')] on model names. *)
Example str_replace_ensemble :
  MlService.str_replace "ensemble" "xgboost" "ensemble" = "xgboost"
  /\ MlService.str_replace "ensemble" "xgboost" "my_ensemble_v2" = "my_xgboost_v2"
  /\ MlService.str_replace "ensemble" "xgboost" "lightgbm" = "lightgbm".
Proof. repeat split; reflexivity. Qed.

(** * Further properties *)

(** ** pos_payment.py and pos_order.py *)

Section PosSalesMore.
Import Py PosSales PosReversal.
Variable str_datetime : Z -> string.
Variable next_by_code : string -> nat -> string.
Variable post_invoice : nat -> M exn Database nat.

(** [reverse_payment] on a [done] payment, in closed form. *)
Lemma reverse_payment_done_run (now : Z) (pid : nat) (rest : list nat)
    (db : Database) (p : PosPayment.t) :
  pos_payment db !! pid = Some p ->
  PosPayment.payment_status p = PaymentStatus.done ->
  let db1 := set_pos_payment (insert pid (mark_reversed str_datetime now p)) db in
  reverse_payment str_datetime next_by_code now (pid :: rest) db =
    match _check_amount (reversal_of now p) db1 with
    | Return _ _ =>
        Return (Some (fresh (dom (pos_payment db1))))
          (set_pos_payment (insert (fresh (dom (pos_payment db1))) (reversal_of now p))
             db1)
    | Raise e s => Raise e s
    end.
Proof.
  intros Hp Hs db1.
  unfold reverse_payment, bind, browse. rewrite Hp, Hs. cbn.
  unfold create, bind, modify, get, ret. cbn.
  change ("Reversal of " ++ PosPayment.name p =? EmptyString) with false. cbn.
  fold (reversal_of now p). fold db1.
  destruct (_check_amount (reversal_of now p) db1) as [[] s|e s] eqn:Hc.
  - assert (s = db1) as ->.
    { unfold _check_amount, raise, ret in Hc.
      repeat match type of Hc with
             | (if ?c then _ else _) _ = _ => destruct c
             end; congruence. }
    reflexivity.
  - reflexivity.
Qed.

(** The error of [_check_amount] is the validation error of the kind of the
    payment. *)
Lemma check_amount_raises (q : PosPayment.t) (db s : Database) (e : exn) :
  _check_amount q db = Raise e s ->
  e = ValidationError (if PosPayment.is_change q
                       then "Change amount must be negative."
                       else "Payment amount must be positive.").
Proof.
  unfold _check_amount, raise, ret.
  destruct (PosPayment.is_change q);
    destruct (Qle_bool (PosPayment.amount q) 0);
    destruct (Qle_bool 0 (PosPayment.amount q)); cbn; congruence.
Qed.

(** X1.  Reversing a [done] payment succeeds exactly when the payment has the
    wrong sign for its kind (positive change, or negative non-change): then
    the original is marked reversed, and the reversal is stored under a new
    identifier with the negated amount, the status [done], the same order
    and [is_change], and name and note that refer to the original.  In
    every other case the call raises the validation error of the constraint
    on the amount, for the reversal it tried to create. *)
Theorem reverse_payment_succeeds_iff_wrong_sign (now : Z) (pid : nat)
    (rest : list nat) (db : Database) (p : PosPayment.t) :
  pos_payment db !! pid = Some p ->
  PosPayment.payment_status p = PaymentStatus.done ->
  let db1 := set_pos_payment (insert pid (mark_reversed str_datetime now p)) db in
  let new_id := fresh (dom (pos_payment db1)) in
  let run := reverse_payment str_datetime next_by_code now (pid :: rest) db in
  (((0 < PosPayment.amount p)%Q /\ PosPayment.is_change p = true)
   \/ ((PosPayment.amount p < 0)%Q /\ PosPayment.is_change p = false) ->
   run = Return (Some new_id)
           (set_pos_payment (insert new_id (reversal_of now p)) db1)
   /\ new_id <> pid /\ pos_payment db !! new_id = None
   /\ pos_payment (store_of run) !! pid = Some (mark_reversed str_datetime now p)
   /\ pos_payment (store_of run) !! new_id = Some (reversal_of now p))
  /\ (~ (((0 < PosPayment.amount p)%Q /\ PosPayment.is_change p = true)
         \/ ((PosPayment.amount p < 0)%Q /\ PosPayment.is_change p = false)) ->
      raised run
      = Some (ValidationError (if PosPayment.is_change p
                               then "Change amount must be negative."
                               else "Payment amount must be positive."))).
Proof.
  intros Hp Hs db1 new_id run.
  assert (Hrun := reverse_payment_done_run now pid rest db p Hp Hs).
  cbv zeta in Hrun. fold db1 in Hrun. fold new_id in Hrun. fold run in Hrun.
  assert (Hfresh : pos_payment db1 !! new_id = None).
  { apply not_elem_of_dom. apply is_fresh. }
  assert (Hne : new_id <> pid).
  { intros Heq. rewrite Heq in Hfresh. unfold db1 in Hfresh. cbn in Hfresh.
    rewrite lookup_insert_eq in Hfresh. discriminate. }
  split.
  - intros Hsign.
    assert (Hok : _check_amount (reversal_of now p) db1 = Return tt db1).
    { apply check_amount_ok. cbn [reversal_of PosPayment.amount PosPayment.is_change].
      destruct Hsign as [[Ha Hc]|[Ha Hc]]; [right|left]; split; try exact Hc; lra. }
    rewrite Hok in Hrun. split; [exact Hrun|]. split; [exact Hne|]. split; [|split].
    + unfold db1 in Hfresh. cbn in Hfresh.
      rewrite lookup_insert_ne in Hfresh by congruence. exact Hfresh.
    + rewrite Hrun. cbn. rewrite lookup_insert_ne by exact Hne.
      apply lookup_insert_eq.
    + rewrite Hrun. cbn. apply lookup_insert_eq.
  - intros Hsign.
    destruct (_check_amount (reversal_of now p) db1) as [[] s|e s] eqn:Hc.
    + exfalso. apply Hsign.
      assert (s = db1) as ->.
      { unfold _check_amount, raise, ret in Hc.
        repeat match type of Hc with
               | (if ?c then _ else _) _ = _ => destruct c
               end; congruence. }
      apply check_amount_ok in Hc.
      cbn [reversal_of PosPayment.amount PosPayment.is_change] in Hc.
      destruct Hc as [[Ha Hc]|[Ha Hc]]; [right|left]; split; try exact Hc; lra.
    + apply check_amount_raises in Hc.
      cbn [reversal_of PosPayment.is_change] in Hc.
      rewrite Hrun, Hc. reflexivity.
Qed.

(** X2.  A payment whose amount is zero never passes [_check_amount], change
    or not. *)
Theorem check_amount_refuses_zero (p : PosPayment.t) (db : Database) :
  (PosPayment.amount p == 0)%Q ->
  _check_amount p db
  = Raise (ValidationError (if PosPayment.is_change p
                            then "Change amount must be negative."
                            else "Payment amount must be positive.")) db.
Proof.
  intros H0. unfold _check_amount, raise, ret.
  assert (E1 : Qle_bool (PosPayment.amount p) 0 = true)
    by (apply Qle_bool_iff; rewrite H0; apply Qle_refl).
  assert (E2 : Qle_bool 0 (PosPayment.amount p) = true)
    by (apply Qle_bool_iff; rewrite H0; apply Qle_refl).
  rewrite E1, E2. destruct (PosPayment.is_change p); reflexivity.
Qed.

(** [action_paid] on one draft order, in closed form. *)
Lemma action_paid_draft_run (oid : nat) (db : Database) (o : PosOrder.t) :
  pos_order db !! oid = Some o ->
  PosOrder.state o = OrderState.draft ->
  action_paid [oid] db =
    if Qltb (amount_paid db oid) (amount_total db oid)
    then Raise (UserError "Cannot mark as paid: Order is not fully paid.") db
    else Return true
           (set_pos_order (alter (PosOrder.set_state OrderState.paid) oid) db).
Proof.
  intros Ho Hs.
  unfold action_paid, for_each, bind, browse, get, write_state, modify, ret, raise.
  rewrite Ho, Hs. cbn.
  destruct (Qltb (amount_paid db oid) (amount_total db oid)); reflexivity.
Qed.

(** X3.  [action_done]: a draft order is first marked paid, so it becomes
    [done] when it is fully paid and is refused with the "not fully paid"
    error otherwise; a paid order becomes [done]; an order that is already
    done, invoiced or cancelled is left alone without an error. *)
Theorem action_done_spec (oid : nat) (db : Database) (o : PosOrder.t) :
  pos_order db !! oid = Some o ->
  (PosOrder.state o = OrderState.draft ->
   (amount_total db oid <= amount_paid db oid)%Q ->
   action_done [oid] db =
     Return true
       (set_pos_order (alter (PosOrder.set_state OrderState.done) oid)
          (set_pos_order (alter (PosOrder.set_state OrderState.paid) oid) db))
   /\ pos_order (store_of (action_done [oid] db)) !! oid
      = Some (PosOrder.set_state OrderState.done o))
  /\ (PosOrder.state o = OrderState.draft ->
      (amount_paid db oid < amount_total db oid)%Q ->
      action_done [oid] db =
        Raise (UserError "Cannot mark as paid: Order is not fully paid.") db)
  /\ (PosOrder.state o = OrderState.paid ->
      action_done [oid] db =
        Return true (set_pos_order (alter (PosOrder.set_state OrderState.done) oid) db))
  /\ (PosOrder.state o <> OrderState.draft -> PosOrder.state o <> OrderState.paid ->
      action_done [oid] db = Return true db).
Proof.
  intros Ho.
  assert (Hdraft : PosOrder.state o = OrderState.draft ->
    action_done [oid] db =
      match action_paid [oid] db with
      | Return _ db1 =>
          Return true (set_pos_order (alter (PosOrder.set_state OrderState.done) oid) db1)
      | Raise e db1 => Raise e db1
      end).
  { intros Hs. unfold action_done. cbn [for_each]. unfold bind at 1 2 3.
    unfold browse at 1. rewrite Ho, Hs. cbn [OrderState.eqb orb negb].
    unfold bind at 1 2. destruct (action_paid [oid] db); reflexivity. }
  split; [|split; [|split]].
  - intros Hs Hpaid. rewrite (Hdraft Hs), (action_paid_draft_run oid db o Ho Hs).
    apply Qltb_ge in Hpaid. rewrite Hpaid. split; [reflexivity|].
    cbn. rewrite !lookup_alter_eq, Ho. cbn. destruct o. reflexivity.
  - intros Hs Hshort. rewrite (Hdraft Hs), (action_paid_draft_run oid db o Ho Hs).
    apply Qltb_lt in Hshort. rewrite Hshort. reflexivity.
  - intros Hs. unfold action_done, for_each, bind, browse. rewrite Ho, Hs. reflexivity.
  - intros H1 H2. unfold action_done, for_each, bind, browse. rewrite Ho.
    destruct (PosOrder.state o); try congruence; reflexivity.
Qed.

(** The payments of an order are records of the payment table that point to
    the order. *)
Lemma payment_ids_elem (db : Database) (oid id : nat) (p : PosPayment.t) :
  (id, p) ∈ payment_ids db oid ->
  pos_payment db !! id = Some p /\ PosPayment.order_id p = oid.
Proof.
  unfold payment_ids. rewrite list_elem_of_omap.
  intros (i & _ & Hi).
  destruct (pos_payment db !! i) as [q|] eqn:Hq; [|discriminate].
  destruct (Nat.eqb (PosPayment.order_id q) oid) eqn:E; [|discriminate].
  injection Hi as <- <-. apply Nat.eqb_eq in E. auto.
Qed.

(** X4.  [action_cancel] of an order that is neither done nor invoiced: without
    completed payments the order becomes [cancel]; when the first completed
    payment satisfies [_check_amount], its reversal fails, so the call raises
    the validation error of the constraint on the amount instead of
    returning. *)
Theorem action_cancel_spec (now : Z) (oid : nat) (db : Database) (o : PosOrder.t) :
  pos_order db !! oid = Some o ->
  PosOrder.state o <> OrderState.done ->
  PosOrder.state o <> OrderState.invoiced ->
  (filter (fun p => is_done p = true) (payment_ids db oid) = [] ->
   action_cancel str_datetime next_by_code now [oid] db =
     Return true (set_pos_order (alter (PosOrder.set_state OrderState.cancel) oid) db))
  /\ (forall pid p others,
        filter (fun p => is_done p = true) (payment_ids db oid) = (pid, p) :: others ->
        _check_amount p db = Return tt db ->
        raised (action_cancel str_datetime next_by_code now [oid] db)
        = Some (ValidationError (if PosPayment.is_change p
                                 then "Change amount must be negative."
                                 else "Payment amount must be positive."))).
Proof.
  intros Ho Hd Hi.
  assert (Hguard : OrderState.eqb (PosOrder.state o) OrderState.done
                   || OrderState.eqb (PosOrder.state o) OrderState.invoiced = false).
  { destruct (PosOrder.state o); try reflexivity; congruence. }
  split.
  - intros Hnone.
    unfold action_cancel. cbn [for_each]. unfold bind at 1 2 3.
    unfold browse at 1. rewrite Ho, Hguard.
    unfold bind at 1 2. unfold get at 1. rewrite Hnone. reflexivity.
  - intros pid p others Hfirst Hok.
    assert (Hin : (pid, p) ∈ filter (fun p => is_done p = true) (payment_ids db oid))
      by (rewrite Hfirst; left).
    apply list_elem_of_filter in Hin. destruct Hin as [Hdone Hin].
    apply payment_ids_elem in Hin. destruct Hin as [Hp _].
    unfold is_done in Hdone. cbn in Hdone.
    assert (Hs : PosPayment.payment_status p = PaymentStatus.done)
      by (destruct (PosPayment.payment_status p); try discriminate; reflexivity).
    assert (Hrev := reverse_payment_done_run now pid [] db p Hp Hs).
    cbv zeta in Hrev.
    rewrite (check_amount_negated p (reversal_of now p) db _ Hok eq_refl eq_refl)
      in Hrev.
    assert (Hrun : action_cancel str_datetime next_by_code now [oid] db =
                   Raise (ValidationError (if PosPayment.is_change p
                                           then "Change amount must be negative."
                                           else "Payment amount must be positive."))
                     (set_pos_payment (insert pid (mark_reversed str_datetime now p)) db)).
    { unfold action_cancel. cbn [for_each]. unfold bind at 1 2 3.
      unfold browse at 1. rewrite Ho, Hguard.
      unfold bind at 1 2. unfold get at 1. rewrite Hfirst.
      cbn [for_each fst]. unfold bind at 1 2. rewrite Hrev. reflexivity. }
    rewrite Hrun. reflexivity.
Qed.

(** X5.  [action_create_invoice] on a paid or done order that is not invoiced:
    once the invoice is posted, the order holds the invoice and both its
    state and its invoice state are [invoiced].  A second call is then
    refused with the message for unpaid orders (the state is no longer paid
    or done), and does not post anything. *)
Theorem action_create_invoice_spec (oid move : nat) (db db1 : Database)
    (o o1 : PosOrder.t) :
  pos_order db !! oid = Some o ->
  PosOrder.state o = OrderState.paid \/ PosOrder.state o = OrderState.done ->
  PosOrder.invoice_state o = no ->
  post_invoice oid db = Return move db1 ->
  pos_order db1 !! oid = Some o1 ->
  let db2 := set_pos_order (alter (PosOrder.set_invoiced move) oid) db1 in
  action_create_invoice post_invoice [oid] db = Return true db2
  /\ pos_order db2 !! oid = Some (PosOrder.set_invoiced move o1)
  /\ PosOrder.state (PosOrder.set_invoiced move o1) = OrderState.invoiced
  /\ PosOrder.account_move_id (PosOrder.set_invoiced move o1) = Some move
  /\ action_create_invoice post_invoice [oid] db2 =
       Raise (UserError "Cannot create invoice for unpaid order.") db2.
Proof.
  intros Ho Hs Hinv Hpost Ho1 db2.
  assert (Hlook : pos_order db2 !! oid = Some (PosOrder.set_invoiced move o1)).
  { unfold db2. cbn. rewrite lookup_alter_eq, Ho1. reflexivity. }
  split; [|split; [exact Hlook|split; [reflexivity|split; [reflexivity|]]]].
  - unfold action_create_invoice. cbn [for_each]. unfold bind at 1 2 3.
    unfold browse at 1. rewrite Ho.
    assert (Hg : negb (OrderState.eqb (PosOrder.state o) OrderState.paid
                       || OrderState.eqb (PosOrder.state o) OrderState.done) = false)
      by (destruct Hs as [-> | ->]; reflexivity).
    rewrite Hg, Hinv. unfold bind at 1. rewrite Hpost. reflexivity.
  - unfold action_create_invoice. cbn [for_each]. unfold bind at 1 2 3.
    unfold browse at 1. rewrite Hlook. reflexivity.
Qed.

End PosSalesMore.

(** ** pos_order.py: amounts, and [action_paid] on record sets *)

Section PosAmounts.
Import Py PosSales PosReceipt.

Lemma sum_nonpos (l : list Q) :
  Forall (fun x => (x < 0)%Q) l -> (sum l <= 0)%Q.
Proof.
  induction 1 as [|x l Hx _ IH].
  - unfold sum. cbn. lra.
  - rewrite sum_cons. lra.
Qed.

(** X6.  When every payment of the table satisfies [_check_amount], the amount
    paid and the amount returned of an order are not negative. *)
Theorem amounts_paid_returned_nonneg (db : Database) (oid : nat) :
  (forall id p, pos_payment db !! id = Some p -> _check_amount p db = Return tt db) ->
  (0 <= amount_paid db oid)%Q /\ (0 <= amount_return db oid)%Q.
Proof.
  intros Hvalid.
  assert (Hsign : forall x, x ∈ payment_ids db oid ->
            ((0 < PosPayment.amount (snd x))%Q /\ PosPayment.is_change (snd x) = false)
            \/ ((PosPayment.amount (snd x) < 0)%Q /\ PosPayment.is_change (snd x) = true)).
  { intros [id p] Hin. apply payment_ids_elem in Hin. destruct Hin as [Hp _].
    apply (check_amount_ok p db), (Hvalid id), Hp. }
  split.
  - unfold amount_paid. apply sum_nonneg.
    apply Forall_forall. intros x Hx.
    apply list_elem_of_In, in_map_iff in Hx. destruct Hx as (ip & <- & Hin).
    apply list_elem_of_In, list_elem_of_filter in Hin. destruct Hin as [Hnc Hin].
    apply list_elem_of_filter in Hin. destruct Hin as [_ Hin].
    destruct (Hsign ip Hin) as [[Ha _]|[_ Hc]]; [exact Ha|congruence].
  - unfold amount_return.
    assert (H : (sum (map (fun p => PosPayment.amount (snd p))
                      (filter (fun p => PosPayment.is_change (snd p) = true)
                         (filter (fun p => is_done p = true) (payment_ids db oid))))
                 <= 0)%Q).
    { apply sum_nonpos. apply Forall_forall. intros x Hx.
      apply list_elem_of_In, in_map_iff in Hx. destruct Hx as (ip & <- & Hin).
      apply list_elem_of_In, list_elem_of_filter in Hin. destruct Hin as [Hc Hin].
      apply list_elem_of_filter in Hin. destruct Hin as [_ Hin].
      destruct (Hsign ip Hin) as [[_ Hnc]|[Ha _]]; [congruence|exact Ha]. }
    lra.
Qed.




(** One turn of the loop of [action_paid] keeps an order that is not draft
    that way. *)
Lemma action_paid_loop_keeps_not_draft (self : list nat) :
  forall (db db' : Database),
    for_each self (fun oid =>
      order <- browse pos_order oid ;;
      if negb (OrderState.eqb (PosOrder.state order) OrderState.draft)
      then ret tt
      else
        db <- get ;;
        if Qltb (amount_paid db oid) (amount_total db oid)
        then raise (UserError "Cannot mark as paid: Order is not fully paid.")
        else write_state oid OrderState.paid) db = Return tt db' ->
    (forall id o, pos_order db !! id = Some o ->
                  PosOrder.state o <> OrderState.draft ->
                  exists o', pos_order db' !! id = Some o'
                             /\ PosOrder.state o' <> OrderState.draft)
    /\ Forall (fun oid => exists o', pos_order db' !! oid = Some o'
                                     /\ PosOrder.state o' <> OrderState.draft) self.
Proof.
  induction self as [|oid rest IH]; intros db db' Hrun.
  - cbn in Hrun. injection Hrun as <-. split; [eauto|constructor].
  - cbn [for_each] in Hrun. unfold bind at 1 2 in Hrun. unfold browse at 1 in Hrun.
    destruct (pos_order db !! oid) as [o|] eqn:Ho; [|discriminate].
    destruct (OrderState.eqb (PosOrder.state o) OrderState.draft) eqn:Hst;
      cbn [negb] in Hrun.
    + unfold bind at 1 in Hrun. unfold get at 1 in Hrun.
      destruct (Qltb (amount_paid db oid) (amount_total db oid)); [discriminate|].
      unfold write_state at 1 in Hrun. unfold modify at 1 in Hrun.
      destruct (IH _ _ Hrun) as [Hkeep Hall].
      assert (Hoid : exists o', pos_order db' !! oid = Some o'
                                /\ PosOrder.state o' <> OrderState.draft).
      { apply (Hkeep oid (PosOrder.set_state OrderState.paid o)).
        - cbn. rewrite lookup_alter_eq, Ho. reflexivity.
        - discriminate. }
      split; [|constructor; assumption].
      intros id o0 Hid Hnd. destruct (decide (id = oid)) as [->|Hne].
      * exact Hoid.
      * apply (Hkeep id o0); [|exact Hnd].
        cbn. rewrite lookup_alter_ne by congruence. exact Hid.
    + unfold ret at 1 in Hrun.
      destruct (IH _ _ Hrun) as [Hkeep Hall].
      apply OrderState_eqb_neq in Hst.
      split; [exact Hkeep|]. constructor; [|exact Hall].
      apply (Hkeep oid o Ho Hst).
Qed.

(** X8.  [action_paid] is idempotent on any record set: after a call that
    returned, no order of the record set is draft any more, and a second
    call returns [True] and changes nothing. *)
Theorem action_paid_idempotent (self : list nat) (db db' : Database) (b : bool) :
  action_paid self db = Return b db' ->
  b = true
  /\ Forall (fun oid => exists o', pos_order db' !! oid = Some o'
                                   /\ PosOrder.state o' <> OrderState.draft) self
  /\ action_paid self db' = Return true db'.
Proof.
  intros Hrun. unfold action_paid in Hrun. unfold bind at 1 in Hrun.
  match type of Hrun with
  | match ?loop with _ => _ end = _ => destruct loop as [[] db1|e db1] eqn:Hloop
  end; [|discriminate].
  unfold ret in Hrun. injection Hrun as <- <-.
  destruct (action_paid_loop_keeps_not_draft self db db1 Hloop) as [_ Hall].
  split; [reflexivity|]. split; [exact Hall|].
  apply action_paid_skips. exact Hall.
Qed.

End PosAmounts.

(** ** pos_order_line.py *)

(** X9.  The unit price that [_onchange_product_id] puts on a line is the
    current price of the template of the product ([get_current_price] at the
    same time), for a variant whose own price is the list price of the
    template; and a line without product is left as it is. *)
Theorem onchange_price_is_current_price (default_tax_id : option nat)
    (fiscal_position : option (list nat -> list nat)) (now : Z)
    (order_has_shop : bool) (product : PosOrderLines.ProductProduct)
    (line : PosOrderLines.LineValues) :
  PosOrderLines.lst_price product
  = PosProducts.list_price (PosOrderLines.product_tmpl_id product) ->
  PosProducts.get_current_price now [PosOrderLines.product_tmpl_id product]
  = inr (PosOrderLines.price_unit
           (PosOrderLines._onchange_product_id default_tax_id fiscal_position now
              order_has_shop (Some product) line))
  /\ PosOrderLines._onchange_product_id default_tax_id fiscal_position now
       order_has_shop None line = line.
Proof.
  intros Hprice. split; [|reflexivity].
  unfold PosProducts.get_current_price, PosOrderLines._onchange_product_id.
  cbn [PosOrderLines.price_unit]. rewrite Hprice.
  destruct (Py.truthy (PosProducts.discount_price _)); cbn [andb]; [|reflexivity].
  destruct (PosProducts.discount_start _) as [s|]; [|reflexivity].
  destruct (PosProducts.discount_end _) as [e|]; [|reflexivity].
  destruct ((s <=? now)%Z && (now <=? e)%Z); reflexivity.
Qed.

(** ** api/routes.py: further properties of the rate limiter *)

Section RateLimitMore.
Import Py Core Routes ApiRoutes.
Variable settings : Settings.
Variable client_ip : string.

(** The storage after a check, whatever its outcome. *)
Lemma check_rate_limit_store (current_time : Q) (storage : gmap string (list Q)) :
  exists kept,
    store_of (check_rate_limit settings client_ip current_time storage)
    = <[client_ip := kept]> storage
    /\ (kept = recent client_ip current_time storage
        \/ (kept = (recent client_ip current_time storage ++ [current_time])%list
            /\ (Z.of_nat (length (recent client_ip current_time storage))
                < RATE_LIMIT_PER_MINUTE settings)%Z)).
Proof.
  rewrite check_rate_limit_run.
  destruct (_ <=? _)%Z eqn:E; cbn [store_of]; eexists; split; try reflexivity.
  - left. reflexivity.
  - right. split; [reflexivity|]. apply Z.leb_gt in E. exact E.
Qed.

Lemma recent_length (current_time : Q) (storage : gmap string (list Q)) :
  length (recent client_ip current_time storage)
  <= length (default [] (storage !! client_ip)).
Proof.
  unfold recent. induction (default [] (storage !! client_ip)) as [|t l IH]; cbn.
  - lia.
  - destruct (Qltb (current_time - 60) t); cbn; lia.
Qed.

(** X10.  After a check, passed or refused, every time stamp stored for the
    client is younger than 60 seconds, and there are at most as many as the
    limit allows or as there were before, whichever is larger. *)
Theorem check_rate_limit_window_invariant (current_time : Q)
    (storage : gmap string (list Q)) :
  let storage' := store_of (check_rate_limit settings client_ip current_time storage) in
  (forall t, In t (default [] (storage' !! client_ip)) -> (current_time - 60 < t)%Q)
  /\ (Z.of_nat (length (default [] (storage' !! client_ip)))
      <= Z.max (RATE_LIMIT_PER_MINUTE settings)
               (Z.of_nat (length (default [] (storage !! client_ip)))))%Z.
Proof.
  intros storage'. unfold storage'.
  destruct (check_rate_limit_store current_time storage) as (kept & -> & Hkept).
  rewrite lookup_insert_eq. change (default [] (Some kept)) with kept.
  pose proof (recent_length current_time storage) as Hlen.
  assert (Hrecent : forall t, In t (recent client_ip current_time storage) ->
                              (current_time - 60 < t)%Q).
  { intros t Ht. unfold recent in Ht. apply filter_In in Ht.
    apply Qltb_lt, Ht. }
  destruct Hkept as [->|[-> Hlim]].
  - split; [exact Hrecent|]. lia.
  - split.
    + intros t Ht. apply in_app_or in Ht. destruct Ht as [Ht|[<-|[]]].
      * apply Hrecent, Ht.
      * lra.
    + rewrite length_app. cbn [length]. lia.
Qed.

Lemma total_requests_insert (storage : gmap string (list Q)) (kept : list Q) :
  total_requests_last_minute (get_api_stats (<[client_ip := kept]> storage))
  + length (default [] (storage !! client_ip))
  = total_requests_last_minute (get_api_stats storage) + length kept.
Proof.
  unfold get_api_stats. cbn [total_requests_last_minute].
  destruct (storage !! client_ip) as [old|] eqn:Hold; cbn [default from_option].
  - rewrite <- (insert_delete_eq storage client_ip kept).
    rewrite <- (insert_delete_id storage client_ip old Hold) at 2.
    rewrite !map_to_list_insert by apply lookup_delete_eq.
    cbn. lia.
  - rewrite map_to_list_insert by exact Hold. cbn. lia.
Qed.

(** X11.  A check touches the time stamps of its client only and never forgets
    a client: the other entries of the storage are unchanged and the client
    has an entry afterwards.  So in the statistics the number of active
    clients never goes down (a client stays active after its time stamps
    have expired), and the total grows by at most one. *)
Theorem check_rate_limit_frame_and_stats (current_time : Q)
    (storage : gmap string (list Q)) :
  let storage' := store_of (check_rate_limit settings client_ip current_time storage) in
  (forall other, other <> client_ip -> storage' !! other = storage !! other)
  /\ is_Some (storage' !! client_ip)
  /\ active_clients (get_api_stats storage')
     = (active_clients (get_api_stats storage)
        + match storage !! client_ip with Some _ => 0 | None => 1 end)%nat
  /\ total_requests_last_minute (get_api_stats storage')
     <= total_requests_last_minute (get_api_stats storage) + 1.
Proof.
  intros storage'. unfold storage'.
  destruct (check_rate_limit_store current_time storage) as (kept & -> & Hkept).
  split; [|split; [|split]].
  - intros other Hne. apply lookup_insert_ne. congruence.
  - rewrite lookup_insert_eq. eauto.
  - cbn [get_api_stats active_clients].
    destruct (storage !! client_ip) as [old|] eqn:Hold.
    + rewrite map_size_insert_Some by eauto. lia.
    + rewrite map_size_insert_None by exact Hold. lia.
  - pose proof (total_requests_insert storage kept) as Htot.
    pose proof (recent_length current_time storage) as Hlen.
    destruct Hkept as [->|[-> _]].
    + lia.
    + rewrite length_app in Htot. cbn [length] in Htot. lia.
Qed.

(** X12.  [RateLimitException]: the response to it always carries a
    [retry_after], which is the one given at the construction, and 60 when
    none or 0 was given. *)
Theorem rate_limit_retry_after_fallback (retry_after : option Z) :
  retry_after_of_exn (new_RateLimitException retry_after)
  = Some (match retry_after with
          | Some n => if (n =? 0)%Z then 60%Z else n
          | None => 60%Z
          end)
  /\ status_of_exn (new_RateLimitException retry_after) = 429%Z.
Proof.
  split; [|reflexivity].
  unfold new_RateLimitException, retry_after_of_exn.
  destruct retry_after as [n|]; [|reflexivity].
  destruct (n =? 0)%Z; [reflexivity|].
  rewrite lookup_singleton_eq. reflexivity.
Qed.

End RateLimitMore.

(** ** api/routes.py: further properties of the handlers *)

Section HandlersMore.
Import Py Core Schemas MlService Routes ApiRoutes.
Variable _calculate_distance : Q -> Q -> Q -> Q -> Q.
Variable str_float : Q -> string.
Variable settings : Settings.
Variable ml_service : MLModelManager.
Variable current_year : Z.
Variable enrich_property_data : PredictionRequest -> result json.

(** X13.  A batch that passes the schema, the rate limit and the size check:
    the empty batch is answered with no predictions, and every batch with
    at least one property is answered with a 500, whatever the models are,
    because the request of the first property cannot be built. *)
Theorem batch_with_properties_is_500 (client_ip : string) (current_time : Q)
    (body : BatchPredictionRequest) (storage storage' : gmap string (list Q)) :
  length (properties body) <= 100 ->
  (Z.of_nat (length (properties body)) <= MAX_PREDICTION_BATCH_SIZE settings)%Z ->
  check_rate_limit settings client_ip current_time storage = Return tt storage' ->
  let run := post_predict_batch _calculate_distance str_float settings ml_service
               current_year client_ip current_time body storage in
  (properties body = [] -> run = Return (mkBatchPredictionResponse [] 0) storage')
  /\ (properties body <> [] ->
      run = Raise (HTTPException 500
                     "Batch prediction service temporarily unavailable") storage'
      /\ status_of run = 500%Z).
Proof.
  intros Hlen Hmax Hrate run.
  assert (Hrun : run = process_batch _calculate_distance str_float ml_service
                         current_year body storage').
  { unfold run, post_predict_batch, BatchPredictionRequest_max_items.
    assert (E : (100 <? length (properties body))%nat = false)
      by (apply Nat.ltb_ge; exact Hlen).
    rewrite E. unfold batch_predict_prices, bind. rewrite Hrate.
    apply Z.ltb_ge in Hmax. rewrite Hmax. reflexivity. }
  split.
  - intros Hnil. rewrite Hrun. unfold process_batch. rewrite Hnil. reflexivity.
  - intros Hne. rewrite Hrun, process_batch_nonempty by exact Hne.
    split; reflexivity.
Qed.

Lemma as_str_list_ok (j : json) :
  (exists l, as_str_list j = Ok l) <-> is_str_list j = true.
Proof.
  destruct j as [| | | |l|]; cbn; try (split; [intros [? ?]|]; discriminate).
  induction l as [|x l IH]; cbn.
  - split; eauto.
  - destruct x; cbn; try (split; [intros [? ?]|]; discriminate).
    cbn in IH. destruct (mapM _ l); cbn.
    + split; eauto. intros _. apply IH. eauto.
    + split; [intros [? ?]; discriminate|].
      intros H. apply IH in H. destruct H. discriminate.
Qed.

(** X14.  [market_analysis] answers with an analysis exactly when the data of
    the service (or the placeholder) has the expected shape; any other data
    ends in the 500 of the handler.  In particular recommendations that are
    not a list of strings, or an overview that is not a dict, fail the
    whole request even when the prices are fine. *)
Theorem market_analysis_answers_iff_well_shaped (client_ip : string)
    (current_time : Q) (analysis_request : MarketAnalysisRequest)
    (market_data : json) (storage storage' : gmap string (list Q)) :
  check_rate_limit settings client_ip current_time storage = Return tt storage' ->
  let run := market_analysis settings client_ip current_time analysis_request
               market_data storage in
  (well_shaped (market_data_or_fallback market_data) = true ->
   exists response, run = Return response storage')
  /\ (well_shaped (market_data_or_fallback market_data) = false ->
      run = Raise (HTTPException 500
                     "Market analysis service temporarily unavailable") storage').
Proof.
  intros Hrate run. unfold run, market_analysis, bind. rewrite Hrate.
  assert (Hbody : (exists r, market_analysis_body analysis_request market_data = Ok r)
                  <-> well_shaped (market_data_or_fallback market_data) = true).
  { unfold market_analysis_body.
    generalize (market_data_or_fallback market_data). intros md.
    unfold dict_get, well_shaped.
    destruct md as [| | | | |m]; try (split; [intros [? ?]|]; discriminate).
    assert (Htail : forall (pricing : gmap string json) (v : json) (usd : Q),
      is_number v = true ->
      (exists r,
         (overview <~ Ok (default (JDict ∅) (m !! "market_overview")) ;;
          recs <~ Ok (default (JList [JStr "Conduct thorough market research"])
                        (m !! "recommendations")) ;;
          average_price_mmk <~ as_float v ;;
          price_trends <~ as_dict overview ;;
          price_distribution <~ as_dict (JDict pricing) ;;
          recommendations <~ as_str_list recs ;;
          Ok (mkMarketAnalysisResponse
                [("city", city (ma_location analysis_request));
                 ("township", township (ma_location analysis_request));
                 ("analysis_period",
                  pretty (time_period_months analysis_request) ++ " months")]
                average_price_mmk usd price_trends price_trends price_distribution
                recommendations)) = Ok r)
      <-> match m !! "market_overview" with
          | None => true
          | Some overview => is_dict overview
          end
          && match m !! "recommendations" with
             | None => true
             | Some recommendations => is_str_list recommendations
             end = true).
    { intros pricing v usd Hv.
      assert (Hf : exists q, as_float v = Ok q)
        by (destruct v; try discriminate; cbn; eauto).
      destruct Hf as [q ->].
      destruct (m !! "market_overview") as [ov|]; cbn [default from_option id].
      - destruct ov as [| | | | |om]; cbn;
          try (split; [intros [? ?]|]; discriminate).
        destruct (m !! "recommendations") as [rc|]; cbn [default from_option id].
        + rewrite <- as_str_list_ok. destruct (as_str_list rc); split; eauto.
          * intros [? ?]. discriminate.
          * intros [? ?]. discriminate.
        + cbn. split; eauto.
      - cbn [as_dict andb].
        destruct (m !! "recommendations") as [rc|]; cbn [default from_option id].
        + rewrite <- as_str_list_ok. destruct (as_str_list rc); split; eauto.
          * intros [? ?]. discriminate.
          * intros [? ?]. discriminate.
        + cbn. split; eauto. }
    destruct (m !! "pricing_analysis") as [pricing|]; cbn [default from_option id].
    - destruct pricing as [| | | | |pm]; try (split; [intros [? ?]|]; discriminate).
      destruct (pm !! "average_price_range") as [range|]; cbn [default from_option id].
      + destruct range as [| | | | |rm]; try (split; [intros [? ?]|]; discriminate).
        destruct (rm !! "min_mmk") as [v|]; cbn [default from_option id].
        * destruct (is_number v) eqn:Hv.
          -- destruct v; try discriminate; cbn [json_div];
               rewrite andb_true_l; apply Htail; reflexivity.
          -- destruct v; try discriminate; cbn;
               split; try discriminate; intros [? ?]; discriminate.
        * cbn [json_div]. rewrite andb_true_l. apply Htail. reflexivity.
      + rewrite lookup_empty. cbn [default from_option id json_div].
        rewrite andb_true_l. apply Htail. reflexivity.
    - rewrite lookup_empty. cbn [default from_option id].
      rewrite lookup_empty. cbn [default from_option id json_div].
      rewrite andb_true_l. apply Htail. reflexivity. }
  split.
  - intros Hw. apply Hbody in Hw. destruct Hw as [r ->]. eexists. reflexivity.
  - intros Hw. destruct (market_analysis_body analysis_request market_data) as [r|e] eqn:E.
    + assert (Hw' : well_shaped (market_data_or_fallback market_data) = true)
        by (apply Hbody; eauto).
      congruence.
    + reflexivity.
Qed.

(** [predict] only ever raises an [MLModelException]. *)
Lemma predict_raises_ml_exception (property_data : PropertyBase)
    (preference : option string) (e : exn) :
  predict _calculate_distance str_float ml_service current_year property_data
    preference = Err e ->
  exists cause, e = MLModelException ("Prediction failed: " ++ str_exn cause).
Proof.
  unfold predict. destruct (predict_body _ _ _ _ _ _) as [r|cause]; [discriminate|].
  intros H. injection H as <-. eauto.
Qed.

(** X15.  The handler of [POST /predict], for a request that passes the rate
    limit.  When the ML service fails, the answer is a 500 whose detail is
    the message of the failure ("Prediction failed: ...").  When it
    predicts, the handler returns that prediction: the enrichment never
    changes it and never fails the request, and when the enrichment is
    switched off, raises, or returns nothing, the two enrichment fields
    stay empty. *)
Theorem predict_route_spec (client_ip : string) (current_time : Q)
    (prediction_request : PredictionRequest)
    (storage storage' : gmap string (list Q)) :
  check_rate_limit settings client_ip current_time storage = Return tt storage' ->
  let ml := predict_price _calculate_distance str_float ml_service current_year
              (base prediction_request) (model_preference prediction_request) in
  let run := predict_price_route _calculate_distance str_float settings ml_service
               current_year enrich_property_data client_ip current_time
               prediction_request storage in
  (forall e, ml = Err e ->
     run = Raise (HTTPException 500 (str_exn e)) storage'
     /\ exists cause, str_exn e = "Prediction failed: " ++ str_exn cause)
  /\ (forall p, ml = Ok p ->
        exists answer,
          run = Return answer storage'
          /\ prediction answer = p
          /\ (enable_ai_enrichment prediction_request = false
              \/ ENABLE_AI_ENRICHMENT settings = false
              \/ (exists e, enrich_property_data prediction_request = Err e)
              \/ (exists d, enrich_property_data prediction_request = Ok d
                            /\ json_truthy d = false) ->
              answer = mkEnrichedPrediction p None None)).
Proof.
  intros Hrate ml run. unfold run, predict_price_route, bind. rewrite Hrate.
  fold ml. split.
  - intros e He. rewrite He.
    destruct (predict_raises_ml_exception _ _ _ He) as [cause ->].
    split; [reflexivity|]. cbn. eauto.
  - intros p Hp. rewrite Hp.
    destruct (enable_ai_enrichment prediction_request) eqn:Hen;
      destruct (ENABLE_AI_ENRICHMENT settings) eqn:Hset; cbn [andb];
      try (eexists; split; [reflexivity|]; split; reflexivity).
    eexists. split; [reflexivity|]. split.
    + unfold enrich. destruct (enrich_property_data prediction_request) as [d|];
        [|reflexivity].
      destruct (json_truthy d); [|reflexivity]. destruct d; reflexivity.
    + intros [H|[H|[[e He]|(d & Hd & Hf)]]]; try discriminate.
      * unfold enrich. rewrite He. reflexivity.
      * unfold enrich. rewrite Hd, Hf. reflexivity.
Qed.

End HandlersMore.

(** ** services/ml_service.py: further properties of [create_features] *)

Section CreateFeaturesMore.
Import Py Core Schemas MlService MlBatch.
Variable _calculate_distance : Q -> Q -> Q -> Q -> Q.

Lemma Ok_inj {A} (a b : A) : Ok a = Ok b -> a = b.
Proof. intros H. injection H as ->. reflexivity. Qed.

Lemma strings_only_categorical_empty : strings_only_categorical ∅.
Proof. intros name s H. rewrite lookup_empty in H. discriminate. Qed.

Lemma strings_only_categorical_num (k : string) (q : Q) (m : gmap string fval) :
  strings_only_categorical m -> strings_only_categorical (<[k := FNum q]> m).
Proof.
  intros Hm name s H. destruct (decide (k = name)) as [->|Hne].
  - rewrite lookup_insert_eq in H. discriminate.
  - rewrite lookup_insert_ne in H by exact Hne. eapply Hm, H.
Qed.

Lemma strings_only_categorical_str (k s : string) (m : gmap string fval) :
  is_categorical k = true ->
  strings_only_categorical m -> strings_only_categorical (<[k := FStr s]> m).
Proof.
  intros Hk Hm name s' H. destruct (decide (k = name)) as [->|Hne].
  - exact Hk.
  - rewrite lookup_insert_ne in H by exact Hne. eapply Hm, H.
Qed.

Lemma strings_only_categorical_copy (k k' : string) (d : Q) (m : gmap string fval) :
  is_categorical k' = false ->
  strings_only_categorical m ->
  strings_only_categorical (<[k := default (FNum d) (m !! k')]> m).
Proof.
  intros Hk' Hm name s H. destruct (decide (k = name)) as [->|Hne].
  - rewrite lookup_insert_eq in H.
    destruct (m !! k') as [[q|s']|] eqn:E; cbn in H; try discriminate.
    apply Hm in E. congruence.
  - rewrite lookup_insert_ne in H by exact Hne. eapply Hm, H.
Qed.

(** With a size other than 0 [create_features] returns, and the strings of
    its result are under the categorical columns. *)
Lemma create_features_run (current_year : Z) (p : PropertyBase) :
  ~ (size_sqft p == 0)%Q ->
  exists f, create_features _calculate_distance current_year p = Ok f
            /\ strings_only_categorical f.
Proof.
  intros Hsize.
  assert (Hs : truthy (size_sqft p) = true) by (apply truthy_spec; exact Hsize).
  unfold create_features. cbv zeta. rewrite Hs. cbn [negb].
  eexists. split; [reflexivity|].
  destruct (truthy_opt _ && truthy_opt _).
  - apply strings_only_categorical_num.
    repeat (apply strings_only_categorical_str; [reflexivity|]).
    destruct (neighborhood p) as [n|].
    + unfold neighborhood_features. cbv zeta.
      repeat apply strings_only_categorical_num. apply strings_only_categorical_empty.
    + unfold update, default_neighborhood_features. cbn [fold_left fst snd].
      repeat apply strings_only_categorical_num. apply strings_only_categorical_empty.
  - apply strings_only_categorical_copy; [reflexivity|].
    repeat (apply strings_only_categorical_str; [reflexivity|]).
    destruct (neighborhood p) as [n|].
    + unfold neighborhood_features. cbv zeta.
      repeat apply strings_only_categorical_num. apply strings_only_categorical_empty.
    + unfold update, default_neighborhood_features. cbn [fold_left fst snd].
      repeat apply strings_only_categorical_num. apply strings_only_categorical_empty.
Qed.

(** X16.  [create_features] fails for a size of 0 only, with the division
    error of the lot ratio (no bedroom is not an error: the ratios per
    bedroom divide by 1 then).  Otherwise it returns features whose strings
    are under the five categorical columns and nowhere else: the values of
    the enumerations, the city and the township in lower case, and
    "tier_3" for a location without tier. *)
Theorem create_features_strings_under_categorical (current_year : Z)
    (p : PropertyBase) :
  ((size_sqft p == 0)%Q ->
   create_features _calculate_distance current_year p = Err ZeroDivisionError)
  /\ (~ (size_sqft p == 0)%Q ->
      exists f,
        create_features _calculate_distance current_year p = Ok f
        /\ strings_only_categorical f
        /\ f !! "property_type" = Some (FStr (PropertyType_value (property_type p)))
        /\ f !! "condition" = Some (FStr (PropertyCondition_value (condition p)))
        /\ f !! "city" = Some (FStr (lower (city (location p))))
        /\ f !! "township" = Some (FStr (lower (township (location p))))
        /\ f !! "location_tier"
           = Some (FStr (match location_tier (location p) with
                         | Some t => LocationTier_value t
                         | None => "tier_3"
                         end))
        /\ f !! "sqft_per_bedroom"
           = Some (FNum (size_sqft p
                         / inject_Z (Z.max (bedrooms (features p)) 1)))).
Proof.
  split.
  - intros H0. apply falsy_spec in H0.
    unfold create_features. cbv zeta. rewrite H0. reflexivity.
  - intros Hsize.
    destruct (create_features_run current_year p Hsize) as (f & Hf & Hstr).
    exists f. split; [exact Hf|]. split; [exact Hstr|].
    assert (Hs : truthy (size_sqft p) = true) by (apply truthy_spec; exact Hsize).
    unfold create_features in Hf. cbv zeta in Hf. rewrite Hs in Hf. cbn [negb] in Hf.
    apply Ok_inj in Hf. subst f.
    assert (Hsb : forall m : gmap string fval,
              m !! "sqft_per_bedroom"
              = Some (FNum (size_sqft p / inject_Z (Z.max (bedrooms (features p)) 1))) ->
              match neighborhood p with
              | Some n => neighborhood_features n m
              | None => update default_neighborhood_features m
              end !! "sqft_per_bedroom"
              = Some (FNum (size_sqft p / inject_Z (Z.max (bedrooms (features p)) 1)))).
    { intros m Hm. destruct (neighborhood p) as [n|].
      - unfold neighborhood_features. cbv zeta.
        repeat (rewrite lookup_insert_ne by discriminate). exact Hm.
      - unfold update, default_neighborhood_features. cbn [fold_left fst snd].
        repeat (rewrite lookup_insert_ne by discriminate). exact Hm. }
    destruct (truthy_opt _ && truthy_opt _);
      rewrite !(lookup_insert_ne _ "distance_from_cbd") by discriminate;
      (repeat split;
       [repeat (rewrite lookup_insert_ne by discriminate); apply lookup_insert_eq ..
       |repeat (rewrite lookup_insert_ne by discriminate); apply Hsb;
        repeat (rewrite lookup_insert_ne by discriminate); apply lookup_insert_eq]).
Qed.

(** The neighbourhood part leaves the features of the building alone. *)
Lemma neighborhood_keeps (p : PropertyBase) (k : string) (m : gmap string fval) :
  In k ["lot_size_sqft"; "lot_building_ratio"; "property_age";
        "is_new_construction"; "is_vintage"] ->
  match neighborhood p with
  | Some n => neighborhood_features n m
  | None => update default_neighborhood_features m
  end !! k = m !! k.
Proof.
  intros Hk. cbn [In] in Hk.
  destruct (neighborhood p) as [n|].
  - unfold neighborhood_features. cbv zeta.
    destruct Hk as [<-|[<-|[<-|[<-|[<-|[]]]]]];
      repeat (rewrite lookup_insert_ne by discriminate); reflexivity.
  - unfold update, default_neighborhood_features. cbn [fold_left fst snd].
    destruct Hk as [<-|[<-|[<-|[<-|[<-|[]]]]]];
      repeat (rewrite lookup_insert_ne by discriminate); reflexivity.
Qed.

(** X17.  Falsy values count as missing in [create_features]: a lot size that
    is absent or 0 is replaced by the size of the building, so the lot ratio
    is 1; a year of construction that is absent or 0 gives the age 0, a new
    construction and no vintage building. *)
Theorem create_features_falsy_defaults (current_year : Z) (p : PropertyBase)
    (f : gmap string fval) :
  create_features _calculate_distance current_year p = Ok f ->
  (lot_size_sqft p = None
   \/ (exists l, lot_size_sqft p = Some l /\ (l == 0)%Q) ->
   f !! "lot_size_sqft" = Some (FNum (size_sqft p))
   /\ exists r, f !! "lot_building_ratio" = Some (FNum r) /\ (r == 1)%Q)
  /\ (year_built p = None \/ year_built p = Some 0%Z ->
      f !! "property_age" = Some (FNum 0)
      /\ f !! "is_new_construction" = Some (FNum 1)
      /\ f !! "is_vintage" = Some (FNum 0)).
Proof.
  intros Hf. unfold create_features in Hf. cbv zeta in Hf.
  destruct (truthy (size_sqft p)) eqn:Hs; cbn [negb] in Hf; [|discriminate].
  apply Ok_inj in Hf. subst f.
  assert (Hcbd : forall (k : string) (v : fval) (m : gmap string fval),
            k <> "distance_from_cbd" ->
            (if truthy_opt (latitude (location p)) && truthy_opt (longitude (location p))
             then <["distance_from_cbd" :=
                      FNum (_calculate_distance (default 0%Q (latitude (location p)))
                              (default 0%Q (longitude (location p)))
                              (167967#10000) (961610#10000))]> m
             else <["distance_from_cbd" := v]> m) !! k = m !! k).
  { intros k v m Hk. destruct (_ && _); apply lookup_insert_ne; congruence. }
  split.
  - intros Hlot.
    assert (Hl : or_default (lot_size_sqft p) (size_sqft p) = size_sqft p).
    { destruct Hlot as [->|(l & -> & Hl)]; [reflexivity|].
      cbn [or_default]. apply falsy_spec in Hl. rewrite Hl. reflexivity. }
    rewrite Hl. split.
    + rewrite Hcbd by discriminate.
      repeat (rewrite lookup_insert_ne by discriminate).
      rewrite neighborhood_keeps by (cbn [In]; auto 10).
      repeat (rewrite lookup_insert_ne by discriminate). apply lookup_insert_eq.
    + eexists. split.
      * rewrite Hcbd by discriminate.
        repeat (rewrite lookup_insert_ne by discriminate).
        rewrite neighborhood_keeps by (cbn [In]; auto 10).
        repeat (rewrite lookup_insert_ne by discriminate). apply lookup_insert_eq.
      * apply truthy_spec in Hs. field. exact Hs.
  - intros Hyear.
    assert (Hage : (current_year - match year_built p with
                                   | Some y => if (y =? 0)%Z then current_year else y
                                   | None => current_year
                                   end = 0)%Z).
    { destruct Hyear as [-> | ->]; cbn; lia. }
    rewrite Hage. cbn [Z.leb Z.compare].
    repeat split;
      rewrite Hcbd by discriminate;
      repeat (rewrite lookup_insert_ne by discriminate);
      rewrite neighborhood_keeps by (cbn [In]; auto 10);
      repeat (rewrite lookup_insert_ne by discriminate); apply lookup_insert_eq.
Qed.

End CreateFeaturesMore.

(** ** services/ml_service.py: further properties of [predict] *)

Section PredictMore.
Import Py Core Schemas MlService MlBatch.
Variable _calculate_distance : Q -> Q -> Q -> Q -> Q.
Variable str_float : Q -> string.
Variable column_fit : list (option Q) -> Q * Q.

(** The confidence always passes the validation of [PredictionResponse]. *)
Lemma confidence_valid (r2 : Q) :
  Qle_bool 0 (py_min (95#100) (py_max (1#2) r2))
  && Qle_bool (py_min (95#100) (py_max (1#2) r2)) 1 = true.
Proof.
  pose proof (confidence_clamped r2) as Hc.
  apply andb_true_intro. split; apply Qle_bool_iff; lra.
Qed.

(** The two sums of the ensemble, over the models. *)
Lemma ensemble_sums (self : MLModelManager) (X : list Q) :
  let predictions : gmap string Q := (fun model => model X) <$> models self in
  let weights : gmap string Q :=
    map_imap (fun name _ => Some (model_weight (model_metrics self) name))
             predictions in
  let total_weight := sum (map snd (map_to_list weights)) in
  models self <> ∅ ->
  (0 < total_weight)%Q
  /\ (sum (map (fun np => (snd np * default 0 (weights !! fst np) / total_weight)%Q)
               (map_to_list predictions))
      == weighted_ensemble self X)%Q.
Proof.
  intros predictions weights total_weight Hne.
  set (w := model_weight (model_metrics self)) in *.
  assert (Hpreds : map_to_list predictions
                   = prod_map id (fun model => model X) <$> map_to_list (models self))
    by apply map_to_list_fmap.
  assert (Htw : (total_weight
                 == sum (map (fun nm => w (fst nm)) (map_to_list (models self))))%Q).
  { unfold total_weight. apply sum_Permutation.
    etransitivity;
      [apply Permutation_map; unfold weights; apply map_to_list_weights|].
    rewrite Hpreds, weights_of_models. reflexivity. }
  assert (Hpos : (0 < total_weight)%Q).
  { rewrite Htw. apply sum_pos.
    - intros Hnil. apply map_eq_nil in Hnil.
      apply map_to_list_empty_iff in Hnil. contradiction.
    - apply Forall_forall. intros x Hx.
      apply list_elem_of_In, in_map_iff in Hx.
      destruct Hx as (nm & <- & _). apply model_weight_pos. }
  split; [exact Hpos|].
  rewrite <- weighted_ensemble_model_weight. fold w.
  erewrite (map_ext_in _ (fun np => (snd np * w (fst np) / total_weight)%Q)).
  2:{ intros [k v] Hin. cbn [fst snd].
      apply list_elem_of_In, elem_of_map_to_list in Hin.
      unfold weights. rewrite map_lookup_imap, Hin. reflexivity. }
  rewrite (sum_map_div (fun np => (snd np * w (fst np))%Q)).
  rewrite <- Htw. apply Qdiv_comp; [|reflexivity].
  rewrite Hpreds, weighted_predictions_of_models. reflexivity.
Qed.

(** What [predict] answers once the features are transformed. *)
Lemma predict_run (self : MLModelManager) (current_year : Z) (p : PropertyBase)
    (preference : option string) (features : gmap string fval) (X : list Q) :
  create_features _calculate_distance current_year p = Ok features ->
  transform str_float (feature_engineer self) features = Ok X ->
  exists response,
    predict _calculate_distance str_float self current_year p preference = Ok response
    /\ predicted_price_usd response
       = (predicted_price_mmk response / exchange_rate_usd_mmk self)%Q
    /\ price_range_mmk response
       = (predicted_price_mmk response * (8#10),
          predicted_price_mmk response * (12#10))%Q
    /\ price_range_usd response
       = (predicted_price_usd response * (8#10),
          predicted_price_usd response * (12#10))%Q
    /\ match preferred_model self preference with
       | Some (name, model) =>
           model_used response = name /\ predicted_price_mmk response = model X
       | None =>
           model_used response = "ensemble"
           /\ (models self <> ∅ ->
               (predicted_price_mmk response == weighted_ensemble self X)%Q)
           /\ (models self = ∅ -> predicted_price_mmk response = 0%Q)
       end.
Proof.
  intros Hcf Htr. unfold predict, predict_body. rewrite Hcf, Htr.
  change (match preference with
          | Some name => if String.eqb name EmptyString then None
                         else (fun model => (name, model)) <$> models self !! name
          | None => None
          end) with (preferred_model self preference).
  destruct (preferred_model self preference) as [[name model]|].
  - cbv beta iota zeta. cbn [fst snd]. rewrite lookup_singleton_eq.
    rewrite confidence_valid. eexists. split; [reflexivity|].
    repeat split.
  - destruct (decide (models self = ∅)) as [Hempty|Hne].
    + assert (Hnil : map_to_list ((fun model : list Q -> Q => model X) <$> models self)
                     = []).
      { rewrite Hempty, fmap_empty. apply map_to_list_empty. }
      cbv zeta. rewrite Hnil. cbn [length Nat.eqb negb map]. rewrite andb_false_r.
      cbv beta iota. cbn [fst snd]. rewrite lookup_insert_eq.
      rewrite confidence_valid. eexists. split; [reflexivity|].
      repeat split. intros Hne. contradiction.
    + pose proof (ensemble_sums self X) as Hsums. cbv zeta in Hsums.
      destruct (Hsums Hne) as [Hpos Hens]. clear Hsums.
      cbv zeta.
      match type of Hpos with
      | (0 < ?t)%Q => set (total_weight := t) in *
      end.
      assert (Htruthy : truthy total_weight = true).
      { apply truthy_spec. intros H0. rewrite H0 in Hpos.
        revert Hpos. apply Qlt_irrefl. }
      rewrite Htruthy. cbn [negb andb]. cbv beta iota. cbn [fst snd].
      rewrite lookup_insert_eq. rewrite confidence_valid.
      eexists. split; [reflexivity|].
      repeat split.
      * intros _. exact Hens.
      * intros Hempty. contradiction.
Qed.

(** X18.  A preferred model that the manager has is used alone: the answer
    names it and carries its prediction for the transformed features (the
    exchange rate is not 0, as the division by it asks).  Any other
    preference (an unknown name, or the empty name even when a model is
    stored under it) is ignored without notice: the answer is the one
    given without preference. *)
Theorem predict_preferred_model (self : MLModelManager) (current_year : Z)
    (p : PropertyBase) (features : gmap string fval) (X : list Q) :
  (forall name model,
     create_features _calculate_distance current_year p = Ok features ->
     transform str_float (feature_engineer self) features = Ok X ->
     ~ (exchange_rate_usd_mmk self == 0)%Q ->
     name <> EmptyString ->
     models self !! name = Some model ->
     exists response,
       predict _calculate_distance str_float self current_year p (Some name)
       = Ok response
       /\ model_used response = name
       /\ predicted_price_mmk response = model X
       /\ predicted_price_usd response = (model X / exchange_rate_usd_mmk self)%Q)
  /\ (forall other,
        other = EmptyString \/ models self !! other = None ->
        predict _calculate_distance str_float self current_year p (Some other)
        = predict _calculate_distance str_float self current_year p None).
Proof.
  split.
  - intros name model Hcf Htr _ Hname Hmodel.
    destruct (predict_run self current_year p (Some name) features X Hcf Htr)
      as (response & Hrun & Husd & _ & _ & Hchosen).
    exists response. split; [exact Hrun|].
    unfold preferred_model in Hchosen. rewrite Hmodel in Hchosen.
    apply String.eqb_neq in Hname. rewrite Hname in Hchosen.
    cbn in Hchosen. destruct Hchosen as [Hused Hprice].
    split; [exact Hused|]. split; [exact Hprice|].
    rewrite Husd, Hprice. reflexivity.
  - intros other Hother. unfold predict, predict_body.
    destruct Hother as [->|Hnone].
    + reflexivity.
    + rewrite Hnone. destruct (String.eqb other EmptyString); reflexivity.
Qed.

(** X19.  Every answer of [predict] has the same shape (the exchange rate is
    not 0): the price in USD is the price in MMK divided by the exchange rate, the ranges are 80% and
    120% of the prices (so the bound called minimum is the larger one when a
    model predicts a negative price), the model named is "ensemble" or the
    preferred model of the manager, and the feature importance is the same
    fixed table whatever the property and the model. *)
Theorem predict_response_shape (self : MLModelManager) (current_year : Z)
    (p : PropertyBase) (preference : option string) (response : PredictionResponse) :
  ~ (exchange_rate_usd_mmk self == 0)%Q ->
  predict _calculate_distance str_float self current_year p preference = Ok response ->
  predicted_price_usd response
  = (predicted_price_mmk response / exchange_rate_usd_mmk self)%Q
  /\ price_range_mmk response
     = (predicted_price_mmk response * (8#10), predicted_price_mmk response * (12#10))%Q
  /\ price_range_usd response
     = (predicted_price_usd response * (8#10), predicted_price_usd response * (12#10))%Q
  /\ ((fst (price_range_mmk response) <= snd (price_range_mmk response))%Q
      <-> (0 <= predicted_price_mmk response)%Q)
  /\ (model_used response = "ensemble"
      \/ (preference = Some (model_used response)
          /\ is_Some (models self !! model_used response)))
  /\ feature_importance response
     = [("size_sqft", 25#100); ("location", 20#100); ("condition", 15#100);
        ("bedrooms", 12#100); ("amenities", 10#100); ("age", 8#100);
        ("other", 10#100)]%Q.
Proof.
  intros _ Hrun.
  assert (Hin : exists features X,
            create_features _calculate_distance current_year p = Ok features
            /\ transform str_float (feature_engineer self) features = Ok X).
  { revert Hrun. unfold predict, predict_body.
    destruct (create_features _ _ _) as [features|] eqn:Hcf; [|discriminate].
    destruct (transform _ _ _) as [X|] eqn:Htr; [|discriminate].
    intros _. eauto. }
  destruct Hin as (features & X & Hcf & Htr).
  destruct (predict_run self current_year p preference features X Hcf Htr)
    as (r & Hr & Husd & Hmmk & Hrusd & Hchosen).
  assert (r = response) as -> by congruence.
  split; [exact Husd|]. split; [exact Hmmk|]. split; [exact Hrusd|].
  split; [|split].
  - rewrite Hmmk. cbn [fst snd]. split; intros H; lra.
  - unfold preferred_model in Hchosen.
    destruct preference as [name|]; [|left; apply Hchosen].
    destruct (String.eqb name EmptyString); [left; apply Hchosen|].
    destruct (models self !! name) as [model|] eqn:Hm; cbn in Hchosen;
      [|left; apply Hchosen].
    right. destruct Hchosen as [-> _]. split; [reflexivity|]. rewrite Hm. eauto.
  - revert Hrun. unfold predict, predict_body. rewrite Hcf, Htr.
    match goal with
    | |- match (match ?c with Ok _ => _ | Err _ => _ end) with _ => _ end = _ -> _ =>
        destruct c as [chosen|]; [|discriminate]
    end.
    cbv zeta. rewrite confidence_valid. intros H. apply Ok_inj in H. subst response.
    reflexivity.
Qed.

(** X20.  The failures of [predict]: a size of 0 fails with the message of the
    division, and otherwise a feature engineer that is not fitted fails
    with its own message; both are wrapped as "Prediction failed: ...". *)
Theorem predict_failures (self : MLModelManager) (current_year : Z)
    (p : PropertyBase) (preference : option string) :
  ((size_sqft p == 0)%Q ->
   predict _calculate_distance str_float self current_year p preference
   = Err (MLModelException "Prediction failed: float division by zero"))
  /\ (~ (size_sqft p == 0)%Q ->
      is_fitted (feature_engineer self) = false ->
      predict _calculate_distance str_float self current_year p preference
      = Err (MLModelException "Prediction failed: FeatureEngineer not fitted yet")).
Proof.
  split.
  - intros H0. apply falsy_spec in H0.
    unfold predict, predict_body, create_features. cbv zeta. rewrite H0. reflexivity.
  - intros Hsize Hfit.
    destruct (create_features_run _calculate_distance current_year p Hsize)
      as (f & Hf & _).
    unfold predict, predict_body. rewrite Hf.
    unfold transform. rewrite Hfit. reflexivity.
Qed.

(** X21.  A manager without models does not fail: once the features are
    transformed, it answers the price 0 under the name "ensemble",
    whatever the preference (the exchange rate is not 0). *)
Theorem predict_without_models (self : MLModelManager) (current_year : Z)
    (p : PropertyBase) (preference : option string)
    (features : gmap string fval) (X : list Q) :
  models self = ∅ ->
  ~ (exchange_rate_usd_mmk self == 0)%Q ->
  create_features _calculate_distance current_year p = Ok features ->
  transform str_float (feature_engineer self) features = Ok X ->
  exists response,
    predict _calculate_distance str_float self current_year p preference = Ok response
    /\ model_used response = "ensemble"
    /\ predicted_price_mmk response = 0%Q
    /\ price_range_mmk response = (0 * (8#10), 0 * (12#10))%Q.
Proof.
  intros Hempty _ Hcf Htr.
  destruct (predict_run self current_year p preference features X Hcf Htr)
    as (response & Hrun & _ & Hmmk & _ & Hchosen).
  assert (Hnone : preferred_model self preference = None).
  { unfold preferred_model. destruct preference as [name|]; [|reflexivity].
    rewrite Hempty, lookup_empty. destruct (String.eqb name EmptyString); reflexivity. }
  rewrite Hnone in Hchosen. destruct Hchosen as (Hused & _ & Hzero).
  exists response. split; [exact Hrun|]. split; [exact Hused|].
  split; [exact (Hzero Hempty)|]. rewrite Hmmk, (Hzero Hempty). reflexivity.
Qed.

End PredictMore.

(** ** services/ml_service.py: fitting and transforming together *)

Section TransformMore.
Import Py Core Schemas MlService MlBatch.
Variable _calculate_distance : Q -> Q -> Q -> Q -> Q.
Variable str_float : Q -> string.
Variable column_fit : list (option Q) -> Q * Q.

Lemma strings_only_numeric (fe : FeatureEngineer) (f : gmap string fval) :
  strings_only_categorical f -> numeric_features fe f = true.
Proof.
  intros Hf. unfold numeric_features. apply forallb_forall. intros name _.
  destruct (is_categorical name) eqn:Hcat; [reflexivity|]. cbn [orb].
  destruct (f !! name) as [[q|s]|] eqn:E; try reflexivity.
  apply Hf in E. congruence.
Qed.

(** [transform] after a completed [fit_transform]. *)
Lemma transform_after_fit (rows : list (list (string * fval)))
    (fe0 fe : FeatureEngineer) (X0 : list (list (option Q)))
    (features : gmap string fval) :
  fit_transform str_float column_fit rows fe0 = Return X0 fe ->
  numeric_features fe features = true ->
  exists ms,
    scaler fe = Some ms
    /\ length ms = length (feature_names fe)
    /\ transform str_float fe features
       = Ok (zip_with scale_cell ms
               (map (canonical_value str_float fe features) (feature_names fe))).
Proof.
  intros Hfit Hnum.
  destruct (fit_transform_fitted _ _ _ _ _ _ Hfit)
    as (Hf & Hnames & (ms & Hms & Hlen) & Henc).
  exists ms. split; [exact Hms|]. split; [exact Hlen|].
  assert (Hrow : mapM (fun name =>
                         fill_row fe (encode_row str_float fe features) !! name)
                      (feature_names fe)
                 = Some (map FNum (map (canonical_value str_float fe features)
                                       (feature_names fe)))).
  { rewrite map_map. apply mapM_ext_Some. intros name Hin.
    apply transform_cell; [exact Hin|auto|].
    unfold numeric_features in Hnum.
    rewrite forallb_forall in Hnum. apply Hnum, Hin. }
  unfold transform. rewrite Hf. cbn [negb].
  rewrite Hrow. unfold scaler_transform. rewrite Hms, mapM_FNum.
  rewrite length_map, Hlen, Nat.eqb_refl. reflexivity.
Qed.

(** X23.  A manager whose feature engineer completed [fit_transform] answers
    every property with a size other than 0, whatever the preference, the
    categories of the property and the models it has: nothing in [predict]
    fails then (the exchange rate is not 0, as the division by it asks). *)
Theorem predict_answers_on_fitted_manager (rows : list (list (string * fval)))
    (fe0 : FeatureEngineer) (X0 : list (list (option Q)))
    (self : MLModelManager) (current_year : Z) (p : PropertyBase)
    (preference : option string) :
  fit_transform str_float column_fit rows fe0 = Return X0 (feature_engineer self) ->
  ~ (exchange_rate_usd_mmk self == 0)%Q ->
  ~ (size_sqft p == 0)%Q ->
  exists response X,
    predict _calculate_distance str_float self current_year p preference = Ok response
    /\ length X = length (columns_of rows)
    /\ match preferred_model self preference with
       | Some (name, model) =>
           model_used response = name /\ predicted_price_mmk response = model X
       | None => model_used response = "ensemble"
       end.
Proof.
  intros Hfit _ Hsize.
  destruct (create_features_run _calculate_distance current_year p Hsize)
    as (f & Hf & Hstr).
  destruct (transform_after_fit rows fe0 (feature_engineer self) X0 f Hfit
              (strings_only_numeric _ f Hstr)) as (ms & Hms & Hlen & Htr).
  destruct (predict_run _calculate_distance str_float self current_year p preference
              f _ Hf Htr) as (response & Hrun & _ & _ & _ & Hchosen).
  exists response,
    (zip_with scale_cell ms
       (map (canonical_value str_float (feature_engineer self) f)
            (feature_names (feature_engineer self)))).
  split; [exact Hrun|]. split.
  - rewrite length_zip_with, length_map, Hlen, Nat.min_id.
    destruct (fit_transform_fitted _ _ _ _ _ _ Hfit) as (_ & -> & _). reflexivity.
  - destruct (preferred_model self preference) as [[name model]|].
    + exact Hchosen.
    + apply Hchosen.
Qed.

(** The cell of a row is the entry of the dictionary. *)
Lemma cell_list_to_map (row : list (string * fval)) (col : string) :
  (list_to_map row : gmap string fval) !! col = cell row col.
Proof.
  unfold cell. induction row as [|[k v] row IH].
  - apply lookup_empty.
  - rewrite list_to_map_cons. cbn [find fst snd].
    destruct (String.eqb k col) eqn:E.
    + apply String.eqb_eq in E. subst. rewrite lookup_insert_eq. reflexivity.
    + apply String.eqb_neq in E. rewrite lookup_insert_ne by exact E. exact IH.
Qed.

Lemma index_of_insert_unique_same (s : string) (l : list string) :
  is_Some (index_of s (insert_unique s l)).
Proof.
  induction l as [|x l IH]; cbn [insert_unique].
  - cbn. rewrite String.eqb_refl. eauto.
  - destruct (String.compare s x) eqn:E.
    + apply String.compare_eq_iff in E. subst x.
      cbn. rewrite String.eqb_refl. eauto.
    + cbn [index_of]. rewrite String.eqb_refl. eauto.
    + cbn [index_of]. destruct (String.eqb s x); [eauto|].
      destruct IH as [i ->]. cbn. eauto.
Qed.

Lemma index_of_insert_unique_other (s t : string) (l : list string) :
  is_Some (index_of s l) -> is_Some (index_of s (insert_unique t l)).
Proof.
  induction l as [|x l IH]; cbn [insert_unique]; intros H.
  - cbn in H. destruct H. discriminate.
  - destruct (String.compare t x).
    + exact H.
    + cbn [index_of]. destruct (String.eqb s t); [eauto|].
      destruct H as [i Hi]. cbn [index_of] in Hi. rewrite Hi. cbn. eauto.
    + cbn [index_of] in *. destruct (String.eqb s x); [eauto|].
      destruct (index_of s l) as [i|]; [|destruct H; discriminate].
      destruct IH as [j ->]; [eauto|]. cbn. eauto.
Qed.

(** A fitted [LabelEncoder] knows every label it was fitted on. *)
Lemma index_of_fit (s : string) (ys : list string) :
  In s ys -> is_Some (index_of s (LabelEncoder_fit ys)).
Proof.
  unfold LabelEncoder_fit. induction ys as [|y ys IH]; intros Hin; [contradiction|].
  cbn [fold_right]. destruct Hin as [->|Hin].
  - apply index_of_insert_unique_same.
  - apply index_of_insert_unique_other, IH, Hin.
Qed.

Lemma encoders_fold_keep (columns : list string) (g : string -> list string)
    (cols : list string) :
  forall (encs : gmap string (list string)) (k : string),
    ~ In k cols ->
    fold_left
      (fun encs col =>
         if existsb (String.eqb col) columns
         then <[col := g col]> encs else encs) cols encs !! k
    = encs !! k.
Proof.
  induction cols as [|c cols IH]; intros encs k Hk; [reflexivity|].
  cbn [fold_left]. rewrite IH by (intros H; apply Hk; right; exact H).
  destruct (existsb (String.eqb c) columns); [|reflexivity].
  apply lookup_insert_ne. intros ->. apply Hk. left. reflexivity.
Qed.

Lemma encoders_fold_lookup (columns : list string) (g : string -> list string)
    (cols : list string) :
  forall (encs : gmap string (list string)) (k : string),
    In k cols -> existsb (String.eqb k) columns = true ->
    fold_left
      (fun encs col =>
         if existsb (String.eqb col) columns
         then <[col := g col]> encs else encs) cols encs !! k
    = Some (g k).
Proof.
  induction cols as [|c cols IH]; intros encs k Hk Hcol; [contradiction|].
  cbn [fold_left].
  destruct (in_dec string_dec k cols) as [Hin|Hnin].
  - apply IH; assumption.
  - destruct Hk as [->|Hk]; [|contradiction].
    rewrite encoders_fold_keep by exact Hnin.
    rewrite Hcol. apply lookup_insert_eq.
Qed.

(** What a completed [fit_transform] computed. *)
Lemma fit_transform_run (rows : list (list (string * fval)))
    (fe0 fe : FeatureEngineer) (X : list (list (option Q))) :
  fit_transform str_float column_fit rows fe0 = Return X fe ->
  exists matrix ms,
    mapM (fun row => mapM (fit_cell str_float (label_encoders fe) row)
                          (columns_of rows)) rows = Some matrix
    /\ scaler fe = Some ms
    /\ X = map (fun row => zip_with (fun m x => scale_cell m <$> x) ms row) matrix
    /\ (forall col, is_categorical col = true -> In col (columns_of rows) ->
          label_encoders fe !! col
          = Some (LabelEncoder_fit
                    (map (fun row => astype_str str_float (cell row col)) rows))).
Proof.
  unfold fit_transform.
  match goal with
  | |- context [fold_left ?f categorical_cols (label_encoders fe0)] =>
      set (encoders := fold_left f categorical_cols (label_encoders fe0))
  end.
  assert (Henc : forall col, is_categorical col = true -> In col (columns_of rows) ->
                   encoders !! col
                   = Some (LabelEncoder_fit
                             (map (fun row => astype_str str_float (cell row col)) rows))).
  { intros col Hcat Hin.
    apply (encoders_fold_lookup (columns_of rows)
             (fun col => LabelEncoder_fit
                           (map (fun row => astype_str str_float (cell row col)) rows))).
    - apply existsb_eqb_In. exact Hcat.
    - apply existsb_eqb_In. exact Hin. }
  clearbody encoders.
  destruct (mapM _ rows) as [[|first others]|] eqn:Hm; try discriminate.
  destruct (Nat.eqb (length (columns_of rows)) 0); try discriminate.
  intros H. injection H as <- <-.
  cbn [label_encoders scaler].
  eexists. eexists. split; [exact Hm|]. split; [reflexivity|].
  split; [reflexivity|exact Henc].
Qed.

Lemma Forall2_map_eq {A B} (f : A -> option B) (g : A -> B) (l : list A)
    (k : list B) :
  Forall2 (fun x y => f x = Some y) l k ->
  (forall x y, In x l -> f x = Some y -> y = g x) ->
  k = map g l.
Proof.
  induction 1 as [|x y l k Hxy _ IH]; intros Hg; [reflexivity|].
  cbn [map]. f_equal.
  - apply Hg; [left; reflexivity|exact Hxy].
  - apply IH. intros x' y' Hin. apply Hg. right. exact Hin.
Qed.

Lemma zip_with_scale_some (ms : list (Q * Q)) :
  forall xs : list Q,
    zip_with (fun m x => scale_cell m <$> x) ms (map Some xs)
    = Some <$> zip_with scale_cell ms xs.
Proof.
  induction ms as [|m ms IH]; intros [|x xs]; cbn; try reflexivity.
  f_equal. apply IH.
Qed.

(** X24.  Fitting and transforming agree on the training data: a training row
    that has a value in every column of the frame transforms, as a
    dictionary, to the very row that [fit_transform] returned for it. *)
Theorem transform_reproduces_training_row (rows : list (list (string * fval)))
    (fe0 fe : FeatureEngineer) (X : list (list (option Q))) (i : nat)
    (row : list (string * fval)) :
  fit_transform str_float column_fit rows fe0 = Return X fe ->
  rows !! i = Some row ->
  (forall col, In col (columns_of rows) -> is_Some (cell row col)) ->
  exists xs,
    transform str_float fe (list_to_map row) = Ok xs
    /\ X !! i = Some (Some <$> xs)
    /\ length xs = length (columns_of rows).
Proof.
  intros Hfit Hrow Hfull.
  destruct (fit_transform_fitted _ _ _ _ _ _ Hfit) as (_ & Hnames & _ & _).
  destruct (fit_transform_run rows fe0 fe X Hfit) as (matrix & ms & Hm & Hms & HX & Henc).
  apply mapM_Some in Hm.
  destruct (Forall2_lookup_l _ _ _ _ _ Hm Hrow) as (cells & Hcells & Hrowcells).
  apply mapM_Some in Hrowcells.
  assert (Hin_row : In row rows)
    by (apply list_elem_of_In; eapply list_elem_of_lookup_2; exact Hrow).
  (* every cell is the value that [transform] computes *)
  assert (Hcell : forall col y, In col (columns_of rows) ->
            fit_cell str_float (label_encoders fe) row col = Some y ->
            y = Some (canonical_value str_float fe (list_to_map row) col)).
  { intros col y Hcol Hy. destruct (Hfull col Hcol) as [v Hv].
    unfold fit_cell in Hy. unfold canonical_value.
    rewrite cell_list_to_map, Hv. rewrite Hv in Hy.
    destruct (is_categorical col) eqn:Hcat.
    - rewrite (Henc col Hcat Hcol) in *.
      destruct (index_of_fit (astype_str str_float (Some v))
                  (map (fun r => astype_str str_float (cell r col)) rows))
        as [n Hn].
      { apply in_map_iff. exists row. split; [rewrite Hv; reflexivity|exact Hin_row]. }
      rewrite Hn in *. cbn in Hy. congruence.
    - destruct v as [q|s]; [congruence|discriminate]. }
  assert (Hcells_eq : cells = map (fun col => Some (canonical_value str_float fe
                                                     (list_to_map row) col))
                                  (columns_of rows)).
  { apply (Forall2_map_eq _ _ _ _ Hrowcells). intros col y Hcol Hy.
    apply Hcell; assumption. }
  assert (Hnum : numeric_features fe (list_to_map row) = true).
  { unfold numeric_features. apply forallb_forall. intros name Hname.
    rewrite Hnames in Hname.
    destruct (is_categorical name) eqn:Hcat; [reflexivity|]. cbn [orb].
    rewrite cell_list_to_map.
    destruct (cell row name) as [[q|s]|] eqn:Hv; try reflexivity.
    exfalso.
    assert (Hnone : fit_cell str_float (label_encoders fe) row name = None)
      by (unfold fit_cell; rewrite Hcat, Hv; reflexivity).
    apply list_elem_of_In, list_elem_of_lookup_1 in Hname.
    destruct Hname as [j Hj].
    destruct (Forall2_lookup_l _ _ _ _ _ Hrowcells Hj) as (y & _ & Hy).
    congruence. }
  destruct (transform_after_fit rows fe0 fe X (list_to_map row) Hfit Hnum)
    as (ms' & Hms' & Hlen & Htr).
  assert (ms' = ms) as -> by congruence.
  eexists. split; [exact Htr|]. split.
  - rewrite HX. change (map ?f matrix) with (f <$> matrix).
    rewrite list_lookup_fmap, Hcells. cbn [fmap option_fmap option_map].
    f_equal. rewrite Hcells_eq, Hnames.
    rewrite <- (map_map (canonical_value str_float fe (list_to_map row)) Some).
    apply zip_with_scale_some.
  - rewrite length_zip_with, length_map, Hlen, Nat.min_id, Hnames. reflexivity.
Qed.

End TransformMore.

(** ** services/ml_service.py: [MLService.batch_predict] *)

Section BatchMore.
Import Py Core Schemas MlService MlBatch.
Variable _calculate_distance : Q -> Q -> Q -> Q -> Q.
Variable str_float : Q -> string.
Variable self : MLModelManager.
Variable current_year : Z.

(** X25.  [batch_predict] is all or nothing: it returns exactly when every
    property predicts, with one prediction per property in the order of
    the properties; otherwise it raises the error of the first property
    that fails, and the predictions made before are lost. *)
Theorem batch_predict_all_or_nothing (properties : list PropertyBase)
    (model_preference : option string) :
  (forall predictions,
     batch_predict _calculate_distance str_float self current_year properties
       model_preference = Ok predictions
     <-> Forall2 (fun property_data prediction =>
                    predict_price _calculate_distance str_float self current_year
                      property_data model_preference = Ok prediction)
                 properties predictions)
  /\ (forall e,
        batch_predict _calculate_distance str_float self current_year properties
          model_preference = Err e
        <-> exists before property_data after,
              properties = (before ++ property_data :: after)%list
              /\ Forall (fun q => exists r,
                           predict_price _calculate_distance str_float self
                             current_year q model_preference = Ok r) before
              /\ predict_price _calculate_distance str_float self current_year
                   property_data model_preference = Err e).
Proof.
  induction properties as [|q rest [IHok IHerr]]; cbn [batch_predict].
  - split.
    + intros predictions. split.
      * intros H. apply Ok_inj in H. subst. constructor.
      * intros H. inversion H. reflexivity.
    + intros e. split; [discriminate|].
      intros (before & pd & after & Heq & _). destruct before; discriminate.
  - destruct (predict_price _ _ _ _ q model_preference) as [r|e0] eqn:Hq.
    + destruct (batch_predict _ _ _ _ rest model_preference) as [rs|e1].
      * split.
        -- intros predictions. split.
           ++ intros H. apply Ok_inj in H. subst.
              constructor; [exact Hq|]. apply IHok. reflexivity.
           ++ intros H. inversion H as [|? y ? k Hy Hk]; subst.
              apply IHok in Hk. congruence.
        -- intros e. split; [discriminate|].
           intros (before & pd & after & Heq & Hbefore & Hpd). exfalso.
           destruct before as [|b before]; cbn in Heq;
             injection Heq as -> ->; [congruence|].
           inversion Hbefore; subst.
           assert (Hno : Ok rs = Err e :> result (list PredictionResponse))
             by (apply IHerr; eauto 6).
           discriminate.
      * split.
        -- intros predictions. split; [discriminate|].
           intros H. inversion H as [|? y ? k Hy Hk]; subst.
           apply IHok in Hk. discriminate.
        -- intros e. split.
           ++ intros H. assert (e1 = e) as -> by congruence.
              destruct (proj1 (IHerr e) eq_refl)
                as (before & pd & after & -> & Hbefore & Hpd).
              exists (q :: before), pd, after. split; [reflexivity|].
              split; [constructor; eauto|exact Hpd].
           ++ intros (before & pd & after & Heq & Hbefore & Hpd).
              destruct before as [|b before]; cbn in Heq;
                injection Heq as -> ->; [congruence|].
              inversion Hbefore; subst. apply IHerr. eauto 6.
    + split.
      * intros predictions. split; [discriminate|].
        intros H. inversion H; subst. congruence.
      * intros e. split.
        -- intros H. assert (e0 = e) as -> by congruence.
           exists [], q, rest. split; [reflexivity|]. split; [constructor|exact Hq].
        -- intros (before & pd & after & Heq & Hbefore & Hpd).
           destruct before as [|b before]; cbn in Heq;
             injection Heq as -> ->; [congruence|].
           inversion Hbefore as [|? ? [r Hr] ?]; subst. congruence.
Qed.

End BatchMore.

(** ** product_template.py: the company of the shop *)

Section ProductShopFacts.
Import Py ProductShop.

(** The loop of [_check_shop_company] passes over products that carry the
    company of their shop. *)
Lemma check_shop_company_passes (db : Database) (self : list nat) :
  (forall id, In id self ->
     exists product,
       product_template db !! id = Some product
       /\ (shop_id product = None
           \/ exists shop company,
                shop_id product = Some shop
                /\ pos_shop db !! shop = Some company
                /\ company_id product = Some company)) ->
  _check_shop_company self db = Return tt db.
Proof.
  unfold _check_shop_company.
  induction self as [|id rest IH]; intros Hall; [reflexivity|].
  cbn [for_each]. unfold bind at 1 2. unfold get at 1.
  destruct (Hall id (or_introl eq_refl)) as (product & Hp & Hshop).
  rewrite Hp.
  assert (Hrest : for_each rest
                    (fun id =>
                       db <- get ;;
                       match product_template db !! id with
                       | None => raise MissingError
                       | Some product =>
                           match shop_id product with
                           | None => ret tt
                           | Some shop =>
                               match pos_shop db !! shop with
                               | None => raise MissingError
                               | Some company =>
                                   if bool_decide (company_id product = Some company)
                                   then ret tt
                                   else raise (ValidationError
                                     "Product company must be the same as the shop company.")
                               end
                           end
                       end) db = Return tt db)
    by (apply IH; intros i Hi; apply Hall; right; exact Hi).
  destruct Hshop as [Hnone|(shop & company & Hs & Hc & Hco)].
  - rewrite Hnone. unfold ret at 1. exact Hrest.
  - rewrite Hs, Hc, Hco. rewrite bool_decide_eq_true_2 by reflexivity.
    unfold ret at 1. exact Hrest.
Qed.

Lemma fold_alter_out (f : Product -> Product) (products : gmap nat Product)
    (self : list nat) (id : nat) :
  ~ In id self -> fold_right (alter f) products self !! id = products !! id.
Proof.
  induction self as [|i rest IH]; intros Hid; cbn [fold_right]; [reflexivity|].
  rewrite lookup_alter_ne by (intros ->; apply Hid; left; reflexivity).
  apply IH. intros H. apply Hid. right. exact H.
Qed.

Lemma fold_alter_const (f : Product -> Product) (c : Product)
    (products : gmap nat Product) (self : list nat) (id : nat) :
  (forall p, f p = c) ->
  In id self ->
  fold_right (alter f) products self !! id = (fun _ => c) <$> products !! id.
Proof.
  intros Hf. induction self as [|i rest IH]; intros Hid; [contradiction|].
  cbn [fold_right]. destruct (decide (i = id)) as [->|Hne].
  - rewrite lookup_alter_eq.
    destruct (in_dec Nat.eq_dec id rest) as [Hin|Hnin].
    + rewrite (IH Hin). destruct (products !! id); cbn; rewrite ?Hf; reflexivity.
    + rewrite fold_alter_out by exact Hnin.
      destruct (products !! id); cbn; rewrite ?Hf; reflexivity.
  - rewrite lookup_alter_ne by exact Hne. apply IH.
    destruct Hid as [H|H]; [contradiction|exact H].
Qed.

(** X26.  [write] and [create] keep the constraint [_check_shop_company]: with
    the identifier of a shop among the values, [write] returns [True] for
    any products and leaves each of them with that shop and the company of
    the shop, and [create] stores a new product with them - whatever
    company the caller gave, it is replaced.  The shops and the other
    products are not changed. *)
Theorem write_create_set_company_of_shop (db : Database) (shop company : nat)
    (given : option (option nat)) :
  shop <> 0%nat ->
  pos_shop db !! shop = Some company ->
  let vals := mkVals (Some (Some shop)) given in
  let linked := mkProduct (Some shop) (Some company) in
  (forall self,
     (forall id, In id self -> is_Some (product_template db !! id)) ->
     exists db',
       write self vals db = Return true db'
       /\ pos_shop db' = pos_shop db
       /\ (forall id, In id self -> product_template db' !! id = Some linked)
       /\ (forall id, ~ In id self ->
             product_template db' !! id = product_template db !! id)
       /\ _check_shop_company self db' = Return tt db')
  /\ (exists id db',
        create vals db = Return id db'
        /\ product_template db !! id = None
        /\ db' = set_product_template (insert id linked) db).
Proof.
  intros Hshop Hcompany vals linked.
  assert (Heqb : Nat.eqb shop 0 = false) by (apply Nat.eqb_neq; exact Hshop).
  assert (Hset : set_company vals db
                 = Return (mkVals (Some (Some shop)) (Some (Some company))) db).
  { unfold set_company, vals. cbn [vals_shop_id]. rewrite Heqb.
    unfold bind, get. rewrite Hcompany. reflexivity. }
  assert (Hassign : forall p,
            assign (mkVals (Some (Some shop)) (Some (Some company))) p = linked)
    by reflexivity.
  split.
  - intros self Hself.
    set (db' := set_product_template
                  (fun products =>
                     fold_right
                       (alter (assign (mkVals (Some (Some shop)) (Some (Some company)))))
                       products self) db).
    assert (Hin : forall id, In id self -> product_template db' !! id = Some linked).
    { intros id Hid. unfold db'. cbn [set_product_template product_template].
      rewrite (fold_alter_const _ linked _ _ _ Hassign Hid).
      destruct (Hself id Hid) as [p ->]. reflexivity. }
    assert (Hout : forall id, ~ In id self ->
              product_template db' !! id = product_template db !! id).
    { intros id Hid. unfold db'. cbn [set_product_template product_template].
      apply fold_alter_out, Hid. }
    assert (Hcheck : _check_shop_company self db' = Return tt db').
    { apply check_shop_company_passes. intros id Hid.
      exists linked. split; [apply Hin, Hid|]. right.
      exists shop, company. repeat split. exact Hcompany. }
    exists db'. split; [|split; [reflexivity|split; [exact Hin|split; [exact Hout|exact Hcheck]]]].
    unfold write. unfold bind at 1. rewrite Hset.
    unfold bind at 1. unfold modify at 1. fold db'.
    cbn [constrained vals_shop_id]. unfold bind at 1. rewrite Hcheck. reflexivity.
  - set (id := fresh (dom (product_template db))).
    assert (Hfresh : product_template db !! id = None)
      by (apply not_elem_of_dom, is_fresh).
    exists id, (set_product_template (insert id linked) db).
    split; [|split; [exact Hfresh|reflexivity]].
    unfold create. unfold bind at 1. rewrite Hset.
    unfold bind at 1. unfold get at 1. fold id.
    unfold bind at 1. unfold modify at 1.
    rewrite Hassign. unfold bind at 1.
    rewrite check_shop_company_passes; [reflexivity|].
    intros i [<-|[]]. exists linked. split.
    + cbn [set_product_template product_template]. apply lookup_insert_eq.
    + right. exists shop, company. repeat split. exact Hcompany.
Qed.

(** X27.  Without a shop among the values the company is written as given: on
    a product of a shop, a company other than the company of the shop is
    refused by the constraint, and values that name neither the shop nor
    the company are written without any check. *)
Theorem write_foreign_company_refused (db : Database) (id shop company other : nat)
    (product : Product) :
  product_template db !! id = Some product ->
  shop_id product = Some shop ->
  pos_shop db !! shop = Some company ->
  other <> company ->
  raised (write [id] (mkVals None (Some (Some other))) db)
  = Some (ValidationError "Product company must be the same as the shop company.")
  /\ write [id] (mkVals None None) db
     = Return true (set_product_template (alter (assign (mkVals None None)) id) db)
  /\ assign (mkVals None None) product = product.
Proof.
  intros Hp Hs Hc Hother. split; [|split].
  - unfold write, set_company. cbn [vals_shop_id].
    unfold bind at 1. unfold ret at 1. unfold bind at 1. unfold modify at 1.
    cbn [constrained vals_shop_id vals_company_id].
    match goal with
    | |- context [set_product_template ?f db] => set (db' := set_product_template f db)
    end.
    assert (Hp' : product_template db' !! id
                  = Some (mkProduct (Some shop) (Some other))).
    { unfold db'. cbn [set_product_template product_template fold_right].
      rewrite lookup_alter_eq, Hp. unfold assign.
      cbn [fmap option_fmap option_map vals_shop_id vals_company_id].
      rewrite Hs. reflexivity. }
    unfold _check_shop_company. cbn [for_each].
    unfold bind, get. rewrite Hp'. cbn [shop_id company_id].
    change (pos_shop db') with (pos_shop db). rewrite Hc.
    rewrite bool_decide_eq_false_2; [reflexivity|].
    intros H. injection H as H. contradiction.
  - reflexivity.
  - destruct product. reflexivity.
Qed.

End ProductShopFacts.

(** * The further properties on concrete data *)

(** ** The data *)

Lemma house_features_created :
  MlService.create_features Samples._calculate_distance 2024 Samples.house
  = Core.Ok Samples.house_feature_map.
Proof.
  destruct (create_features_returns Samples._calculate_distance 2024 Samples.house)
    as (f & Hf); [reflexivity|].
  unfold Samples.house_feature_map. rewrite Hf. reflexivity.
Qed.

Lemma house_transformed :
  MlService.transform Samples.str_float Samples.fitted Samples.house_feature_map
  = Core.Ok Samples.house_X.
Proof. vm_compute. reflexivity. Qed.

Lemma training_fitted :
  MlService.fit_transform Samples.str_float Samples.column_fit Samples.training_rows
    MlService.new_FeatureEngineer
  = Py.Return Samples.fitted_X Samples.fitted.
Proof. vm_compute. reflexivity. Qed.

Lemma manager_has_models : MlService.models Samples.manager <> ∅.
Proof.
  intros Hempty.
  assert (Hl := f_equal (fun m : gmap string (list Q -> Q) => m !! "model_a") Hempty).
  vm_compute in Hl. discriminate.
Qed.

Lemma house_predicted :
  MlService.predict Samples._calculate_distance Samples.str_float Samples.manager
    2024 Samples.house None
  = Core.Ok MoreSamples.house_prediction.
Proof.
  destruct (predict_run Samples._calculate_distance Samples.str_float Samples.manager
              2024 Samples.house None _ _ house_features_created house_transformed)
    as (response & Hrun & _).
  unfold MoreSamples.house_prediction. rewrite Hrun. reflexivity.
Qed.

Lemma manager_rate_not_zero (models : gmap string (list Q -> Q))
    (fe : MlService.FeatureEngineer)
    (metrics : gmap string Schemas.ModelPerformanceMetrics) :
  ~ (MlService.exchange_rate_usd_mmk (MlService.mkMLModelManager models fe metrics 2100)
     == 0)%Q.
Proof. intros H0. vm_compute in H0. discriminate. Qed.

Lemma first_request_passes :
  Routes.check_rate_limit Core.default_settings "10.0.0.7" 0 ∅
  = Py.Return tt Samples.one_request.
Proof. vm_compute. reflexivity. Qed.

(** ** pos_sales *)

(** The completed change of +20: its reversal of -20 is accepted and stored
    under a new identifier. *)
Lemma reverse_payment_succeeds_iff_wrong_sign_witness :
  exists new_id,
    PosSales.reverse_payment Samples.str_datetime Samples.next_by_code 1714600000
      [4%nat] MoreSamples.db_wrong_change
    = Py.Return (Some new_id)
        (PosSales.set_pos_payment
           (insert new_id
              (PosReversal.reversal_of 1714600000 MoreSamples.payment_wrong_change))
           (PosSales.set_pos_payment
              (insert 4%nat
                 (PosSales.mark_reversed Samples.str_datetime 1714600000
                    MoreSamples.payment_wrong_change))
              MoreSamples.db_wrong_change))
    /\ new_id <> 4%nat
    /\ PosSales.PosPayment.amount
         (PosReversal.reversal_of 1714600000 MoreSamples.payment_wrong_change)
       = (- 20)%Q.
Proof.
  pose proof (reverse_payment_succeeds_iff_wrong_sign Samples.str_datetime
                Samples.next_by_code 1714600000 4%nat [] MoreSamples.db_wrong_change
                MoreSamples.payment_wrong_change eq_refl eq_refl) as H.
  cbv zeta in H. destruct H as [Hok _].
  destruct Hok as (Hrun & Hne & _).
  { left. split; reflexivity. }
  eexists. split; [exact Hrun|]. split; [exact Hne|reflexivity].
Defined.

Lemma check_amount_refuses_zero_witness :
  PosSales._check_amount MoreSamples.payment_zero Samples.db_short
  = Py.Raise (PosSales.ValidationError "Payment amount must be positive.")
      Samples.db_short.
Proof.
  apply (check_amount_refuses_zero MoreSamples.payment_zero Samples.db_short).
  reflexivity.
Defined.

(** The draft order: done when paid in full, refused when 50 are missing; the
    invoiced order is left alone. *)
Lemma action_done_spec_witness :
  PosSales.action_done [1%nat] Samples.db_paid_in_full
  = Py.Return true
      (PosSales.set_pos_order
         (alter (PosSales.PosOrder.set_state PosSales.OrderState.done) 1%nat)
         (PosSales.set_pos_order
            (alter (PosSales.PosOrder.set_state PosSales.OrderState.paid) 1%nat)
            Samples.db_paid_in_full))
  /\ PosSales.action_done [1%nat] Samples.db_short
     = Py.Raise (PosSales.UserError "Cannot mark as paid: Order is not fully paid.")
         Samples.db_short
  /\ PosSales.action_done [1%nat] Samples.db_invoiced
     = Py.Return true Samples.db_invoiced.
Proof.
  split; [|split].
  - destruct (action_done_spec 1%nat Samples.db_paid_in_full
                (Samples.order_in PosSales.OrderState.draft) eq_refl)
      as (H & _).
    apply H; [reflexivity|]. apply Qle_bool_iff. vm_compute. reflexivity.
  - destruct (action_done_spec 1%nat Samples.db_short
                (Samples.order_in PosSales.OrderState.draft) eq_refl)
      as (_ & H & _).
    apply H; [reflexivity|]. apply Qltb_lt. vm_compute. reflexivity.
  - destruct (action_done_spec 1%nat Samples.db_invoiced
                (Samples.order_in PosSales.OrderState.invoiced) eq_refl)
      as (_ & _ & _ & H).
    apply H; discriminate.
Defined.

(** Without completed payment the order is cancelled; with the completed
    payment of 100 the cancellation stops at the reversal. *)
Lemma action_cancel_spec_witness :
  PosSales.action_cancel Samples.str_datetime Samples.next_by_code 1714600000
    [1%nat] MoreSamples.db_pending
  = Py.Return true
      (PosSales.set_pos_order
         (alter (PosSales.PosOrder.set_state PosSales.OrderState.cancel) 1%nat)
         MoreSamples.db_pending)
  /\ Py.raised
       (PosSales.action_cancel Samples.str_datetime Samples.next_by_code 1714600000
          [1%nat] Samples.db_short)
     = Some (PosSales.ValidationError "Payment amount must be positive.").
Proof.
  split.
  - destruct (action_cancel_spec Samples.str_datetime Samples.next_by_code
                1714600000 1%nat MoreSamples.db_pending
                (Samples.order_in PosSales.OrderState.draft) eq_refl)
      as [H _]; [discriminate|discriminate|].
    apply H. vm_compute. reflexivity.
  - destruct (action_cancel_spec Samples.str_datetime Samples.next_by_code
                1714600000 1%nat Samples.db_short
                (Samples.order_in PosSales.OrderState.draft) eq_refl)
      as [_ H]; [discriminate|discriminate|].
    apply (H 2%nat Samples.payment_100 []).
    + vm_compute. reflexivity.
    + vm_compute. reflexivity.
Defined.

(** The paid order is invoiced once; the second call is refused. *)
Lemma action_create_invoice_spec_witness :
  PosSales.action_create_invoice Samples.post_invoice [1%nat] MoreSamples.db_paid
  = Py.Return true
      (PosSales.set_pos_order (alter (PosSales.PosOrder.set_invoiced 1) 1%nat)
         MoreSamples.db_paid)
  /\ PosSales.action_create_invoice Samples.post_invoice [1%nat]
       (PosSales.set_pos_order (alter (PosSales.PosOrder.set_invoiced 1) 1%nat)
          MoreSamples.db_paid)
     = Py.Raise (PosSales.UserError "Cannot create invoice for unpaid order.")
         (PosSales.set_pos_order (alter (PosSales.PosOrder.set_invoiced 1) 1%nat)
            MoreSamples.db_paid).
Proof.
  pose proof (action_create_invoice_spec Samples.post_invoice 1%nat 1%nat
                MoreSamples.db_paid MoreSamples.db_paid
                (Samples.order_in PosSales.OrderState.paid)
                (Samples.order_in PosSales.OrderState.paid)
                eq_refl (or_introl eq_refl) eq_refl eq_refl eq_refl) as H.
  cbv zeta in H. destruct H as (H1 & _ & _ & _ & H2).
  split; [exact H1|exact H2].
Defined.

(** Payments of 50 and 100, no change: 150 paid, nothing returned. *)
Lemma amounts_paid_returned_nonneg_witness :
  (0 <= PosSales.amount_paid Samples.db_paid_in_full 1%nat)%Q
  /\ (0 <= PosSales.amount_return Samples.db_paid_in_full 1%nat)%Q.
Proof.
  apply (amounts_paid_returned_nonneg Samples.db_paid_in_full 1%nat).
  intros id p H. cbn [Samples.db_paid_in_full PosSales.pos_payment] in H.
  apply lookup_insert_Some in H. destruct H as [[_ <-]|[_ H]]; [reflexivity|].
  apply lookup_insert_Some in H. destruct H as [[_ <-]|[_ H]]; [reflexivity|].
  rewrite lookup_empty in H. discriminate.
Defined.

(** Once the order is paid, a second [action_paid] changes nothing. *)
Lemma action_paid_idempotent_witness :
  PosSales.action_paid [1%nat]
    (PosSales.set_pos_order
       (alter (PosSales.PosOrder.set_state PosSales.OrderState.paid) 1%nat)
       Samples.db_paid_in_full)
  = Py.Return true
      (PosSales.set_pos_order
         (alter (PosSales.PosOrder.set_state PosSales.OrderState.paid) 1%nat)
         Samples.db_paid_in_full).
Proof.
  apply (action_paid_idempotent [1%nat] Samples.db_paid_in_full _ true).
  vm_compute. reflexivity.
Defined.

(** The tea at 10000, inside the window of its discount: 90 on the line. *)
Lemma onchange_price_is_current_price_witness :
  PosProducts.get_current_price 10000 [Samples.product 100]
  = inr (PosOrderLines.price_unit
           (PosOrderLines._onchange_product_id None None 10000 true
              (Some MoreSamples.tea_variant) MoreSamples.new_line))
  /\ PosOrderLines.price_unit
       (PosOrderLines._onchange_product_id None None 10000 true
          (Some MoreSamples.tea_variant) MoreSamples.new_line) = 90%Q.
Proof.
  destruct (onchange_price_is_current_price None None 10000 true
              MoreSamples.tea_variant MoreSamples.new_line eq_refl) as [H _].
  split; [exact H|reflexivity].
Defined.

(** ** The handlers *)

(** The batch of 100 houses passes every check and ends in a 500. *)
Lemma batch_with_properties_is_500_witness :
  Routes.post_predict_batch Samples._calculate_distance Samples.str_float
    Core.default_settings Samples.manager 2024 "10.0.0.7" 0
    (Samples.batch_of 100) ∅
  = Py.Raise (Core.HTTPException 500
                "Batch prediction service temporarily unavailable")
      Samples.one_request.
Proof.
  pose proof (batch_with_properties_is_500 Samples._calculate_distance
                Samples.str_float Core.default_settings Samples.manager 2024
                "10.0.0.7" 0 (Samples.batch_of 100) ∅ Samples.one_request
                ltac:(vm_compute; lia) ltac:(vm_compute; discriminate)
                first_request_passes) as H.
  cbv zeta in H. destruct H as [_ H].
  destruct H as [H _]; [vm_compute; discriminate|exact H].
Defined.

(** The analysis of the example is answered; recommendations that are one
    string instead of a list end in a 500. *)
Lemma market_analysis_answers_iff_well_shaped_witness :
  (exists response,
     Routes.market_analysis Core.default_settings "10.0.0.7" 0
       Samples.analysis_request Samples.ai_market_data ∅
     = Py.Return response Samples.one_request)
  /\ Routes.market_analysis Core.default_settings "10.0.0.7" 0
       Samples.analysis_request
       (Routes.JDict {[ "recommendations" := Routes.JStr "Buy near the lake" ]}) ∅
     = Py.Raise (Core.HTTPException 500
                   "Market analysis service temporarily unavailable")
         Samples.one_request.
Proof.
  split.
  - pose proof (market_analysis_answers_iff_well_shaped Core.default_settings
                  "10.0.0.7" 0 Samples.analysis_request Samples.ai_market_data ∅
                  Samples.one_request first_request_passes) as H.
    cbv zeta in H. destruct H as [H _]. apply H. vm_compute. reflexivity.
  - pose proof (market_analysis_answers_iff_well_shaped Core.default_settings
                  "10.0.0.7" 0 Samples.analysis_request
                  (Routes.JDict {[ "recommendations" := Routes.JStr "Buy near the lake" ]})
                  ∅ Samples.one_request first_request_passes) as H.
    cbv zeta in H. destruct H as [_ H]. apply H. vm_compute. reflexivity.
Defined.

(** The request for the house: answered with the prediction of the manager
    while the enrichment is down; a new manager answers with a 500 that
    tells why. *)
Lemma predict_route_spec_witness :
  ApiRoutes.predict_price_route Samples._calculate_distance Samples.str_float
    Core.default_settings Samples.manager 2024 MoreSamples.enrichment_down
    "10.0.0.7" 0 Samples.request ∅
  = Py.Return (ApiRoutes.mkEnrichedPrediction MoreSamples.house_prediction None None)
      Samples.one_request
  /\ ApiRoutes.predict_price_route Samples._calculate_distance Samples.str_float
       Core.default_settings MoreSamples.new_manager 2024 MoreSamples.enrichment_down
       "10.0.0.7" 0 Samples.request ∅
     = Py.Raise (Core.HTTPException 500
                   "Prediction failed: FeatureEngineer not fitted yet")
         Samples.one_request.
Proof.
  split.
  - pose proof (predict_route_spec Samples._calculate_distance Samples.str_float
                  Core.default_settings Samples.manager 2024
                  MoreSamples.enrichment_down "10.0.0.7" 0 Samples.request ∅
                  Samples.one_request first_request_passes) as H.
    cbv zeta in H. destruct H as [_ H].
    destruct (H MoreSamples.house_prediction house_predicted)
      as (answer & Hrun & _ & Hplain).
    rewrite Hrun. f_equal. apply Hplain.
    right. right. left. eexists. reflexivity.
  - pose proof (predict_route_spec Samples._calculate_distance Samples.str_float
                  Core.default_settings MoreSamples.new_manager 2024
                  MoreSamples.enrichment_down "10.0.0.7" 0 Samples.request ∅
                  Samples.one_request first_request_passes) as H.
    cbv zeta in H. destruct H as [H _].
    destruct (H (Core.MLModelException
                   "Prediction failed: FeatureEngineer not fitted yet"))
      as [Hrun _]; [|exact Hrun].
    cbn [Schemas.base Schemas.model_preference Samples.request].
    unfold MlService.predict_price, MlService.predict, MlService.predict_body.
    rewrite house_features_created. reflexivity.
Defined.

(** ** The ML service *)

(** The house: no lot size, so the lot is the building; a size of 0 fails. *)
Lemma create_features_strings_under_categorical_witness :
  MlService.create_features Samples._calculate_distance 2024
    MoreSamples.house_without_size = Core.Err Core.ZeroDivisionError
  /\ exists f,
       MlService.create_features Samples._calculate_distance 2024 Samples.house
       = Core.Ok f
       /\ f !! "city" = Some (MlService.FStr "yangon")
       /\ f !! "location_tier" = Some (MlService.FStr "tier_1").
Proof.
  split.
  - apply (create_features_strings_under_categorical Samples._calculate_distance
             2024 MoreSamples.house_without_size).
    reflexivity.
  - destruct (create_features_strings_under_categorical Samples._calculate_distance
                2024 Samples.house) as [_ H].
    destruct H as (f & Hf & _ & _ & _ & Hcity & _ & Htier & _).
    { intros H0. vm_compute in H0. discriminate. }
    exists f. split; [exact Hf|]. split; [exact Hcity|exact Htier].
Defined.

Lemma create_features_falsy_defaults_witness :
  Samples.house_feature_map !! "lot_size_sqft" = Some (MlService.FNum 1200)
  /\ exists r, Samples.house_feature_map !! "lot_building_ratio"
               = Some (MlService.FNum r) /\ (r == 1)%Q.
Proof.
  destruct (create_features_falsy_defaults Samples._calculate_distance 2024
              Samples.house Samples.house_feature_map house_features_created)
    as [H _].
  apply H. left. reflexivity.
Defined.

(** The manager of the example: "model_a" answers its 100; a preference for
    a model it does not have is the same as none. *)
Lemma predict_preferred_model_witness :
  (exists response,
     MlService.predict Samples._calculate_distance Samples.str_float Samples.manager
       2024 Samples.house (Some "model_a") = Core.Ok response
     /\ Schemas.model_used response = "model_a"
     /\ Schemas.predicted_price_mmk response = 100%Q)
  /\ MlService.predict Samples._calculate_distance Samples.str_float Samples.manager
       2024 Samples.house (Some "catboost")
     = MlService.predict Samples._calculate_distance Samples.str_float Samples.manager
         2024 Samples.house None.
Proof.
  destruct (predict_preferred_model Samples._calculate_distance Samples.str_float
              Samples.manager 2024 Samples.house Samples.house_feature_map
              Samples.house_X) as [Hknown Hother].
  split.
  - destruct (Hknown "model_a" (fun _ => 100%Q) house_features_created
                house_transformed) as (response & Hrun & Hused & Hprice & _).
    + apply manager_rate_not_zero.
    + discriminate.
    + vm_compute. reflexivity.
    + exists response. split; [exact Hrun|]. split; [exact Hused|exact Hprice].
  - apply Hother. right. vm_compute. reflexivity.
Defined.

Lemma predict_response_shape_witness :
  Schemas.predicted_price_usd MoreSamples.house_prediction
  = (Schemas.predicted_price_mmk MoreSamples.house_prediction / 2100)%Q
  /\ Schemas.price_range_mmk MoreSamples.house_prediction
     = (Schemas.predicted_price_mmk MoreSamples.house_prediction * (8#10),
        Schemas.predicted_price_mmk MoreSamples.house_prediction * (12#10))%Q
  /\ Schemas.model_used MoreSamples.house_prediction = "ensemble".
Proof.
  destruct (predict_response_shape Samples._calculate_distance Samples.str_float
              Samples.manager 2024 Samples.house None MoreSamples.house_prediction
              (manager_rate_not_zero _ _ _) house_predicted)
    as (Husd & Hmmk & _ & _ & Hused & _).
  split; [exact Husd|]. split; [exact Hmmk|].
  destruct Hused as [H|[H _]]; [exact H|discriminate].
Defined.

Lemma predict_failures_witness :
  MlService.predict Samples._calculate_distance Samples.str_float Samples.manager
    2024 MoreSamples.house_without_size None
  = Core.Err (Core.MLModelException "Prediction failed: float division by zero")
  /\ MlService.predict Samples._calculate_distance Samples.str_float
       MoreSamples.new_manager 2024 Samples.house None
     = Core.Err (Core.MLModelException
                   "Prediction failed: FeatureEngineer not fitted yet").
Proof.
  split.
  - apply (predict_failures Samples._calculate_distance Samples.str_float
             Samples.manager 2024 MoreSamples.house_without_size None).
    reflexivity.
  - apply (predict_failures Samples._calculate_distance Samples.str_float
             MoreSamples.new_manager 2024 Samples.house None).
    + intros H0. vm_compute in H0. discriminate.
    + reflexivity.
Defined.

Lemma predict_without_models_witness :
  exists response,
    MlService.predict Samples._calculate_distance Samples.str_float
      MoreSamples.manager_without_models 2024 Samples.house None = Core.Ok response
    /\ Schemas.model_used response = "ensemble"
    /\ Schemas.predicted_price_mmk response = 0%Q.
Proof.
  destruct (predict_without_models Samples._calculate_distance Samples.str_float
              MoreSamples.manager_without_models 2024 Samples.house None
              Samples.house_feature_map Samples.house_X eq_refl
              (manager_rate_not_zero _ _ _)
              house_features_created house_transformed)
    as (response & Hrun & Hused & Hprice & _).
  exists response. split; [exact Hrun|]. split; [exact Hused|exact Hprice].
Defined.

Lemma predict_answers_on_fitted_manager_witness :
  exists response (X : list Q),
    MlService.predict Samples._calculate_distance Samples.str_float Samples.manager
      2024 Samples.house (Some "lightgbm") = Core.Ok response
    /\ length X = 2
    /\ Schemas.model_used response = "ensemble".
Proof.
  destruct (predict_answers_on_fitted_manager Samples._calculate_distance
              Samples.str_float Samples.column_fit Samples.training_rows
              MlService.new_FeatureEngineer Samples.fitted_X Samples.manager 2024
              Samples.house (Some "lightgbm") training_fitted)
    as (response & X & Hrun & Hlen & Hused).
  - apply manager_rate_not_zero.
  - intros H0. vm_compute in H0. discriminate.
  - exists response, X. split; [exact Hrun|]. split; [exact Hlen|exact Hused].
Defined.

(** The row of Yangon transforms to the first row of the fitted matrix. *)
Lemma transform_reproduces_training_row_witness :
  exists xs,
    MlService.transform Samples.str_float Samples.fitted
      (list_to_map MoreSamples.yangon_row) = Core.Ok xs
    /\ Samples.fitted_X !! 0%nat = Some (Some <$> xs)
    /\ length xs = 2.
Proof.
  apply (transform_reproduces_training_row Samples.str_float Samples.column_fit
           Samples.training_rows MlService.new_FeatureEngineer Samples.fitted
           Samples.fitted_X 0 MoreSamples.yangon_row training_fitted eq_refl).
  intros col H. vm_compute in H.
  destruct H as [<-|[<-|[]]]; eexists; reflexivity.
Defined.

(** Two houses predict; a house without size fails the batch it is in. *)
Lemma batch_predict_all_or_nothing_witness :
  MlBatch.batch_predict Samples._calculate_distance Samples.str_float Samples.manager
    2024 [Samples.house; Samples.house] None
  = Core.Ok [MoreSamples.house_prediction; MoreSamples.house_prediction]
  /\ MlBatch.batch_predict Samples._calculate_distance Samples.str_float
       Samples.manager 2024 [Samples.house; MoreSamples.house_without_size] None
     = Core.Err (Core.MLModelException "Prediction failed: float division by zero").
Proof.
  split.
  - apply (batch_predict_all_or_nothing Samples._calculate_distance Samples.str_float
             Samples.manager 2024 [Samples.house; Samples.house] None).
    repeat constructor; exact house_predicted.
  - apply (batch_predict_all_or_nothing Samples._calculate_distance Samples.str_float
             Samples.manager 2024 [Samples.house; MoreSamples.house_without_size]
             None).
    exists [Samples.house], MoreSamples.house_without_size, [].
    split; [reflexivity|]. split.
    + constructor; [|constructor]. eexists. exact house_predicted.
    + reflexivity.
Defined.

(** ** pos_products *)

(** The product of shop 1 is moved to shop 2 with the company 10 of shop 1
    given by mistake: it ends in company 20, the company of shop 2. *)
Lemma write_create_set_company_of_shop_witness :
  exists db',
    ProductShop.write [5%nat]
      (ProductShop.mkVals (Some (Some 2%nat)) (Some (Some 10%nat)))
      ProductShop.two_shops
    = Py.Return true db'
    /\ ProductShop.product_template db' !! 5%nat
       = Some (ProductShop.mkProduct (Some 2%nat) (Some 20%nat)).
Proof.
  pose proof (write_create_set_company_of_shop ProductShop.two_shops 2 20
                (Some (Some 10%nat)) ltac:(discriminate) eq_refl) as H.
  cbv zeta in H. destruct H as [H _].
  destruct (H [5%nat]) as (db' & Hrun & _ & Hin & _).
  { intros id [<-|[]]. eexists. reflexivity. }
  exists db'. split; [exact Hrun|]. apply Hin. left. reflexivity.
Defined.

(** Company 20 alone on the product of shop 1: refused. *)
Lemma write_foreign_company_refused_witness :
  Py.raised
    (ProductShop.write [5%nat] (ProductShop.mkVals None (Some (Some 20%nat)))
       ProductShop.two_shops)
  = Some (ProductShop.ValidationError
            "Product company must be the same as the shop company.").
Proof.
  destruct (write_foreign_company_refused ProductShop.two_shops 5 1 10 20
              (ProductShop.mkProduct (Some 1%nat) (Some 10%nat))
              eq_refl eq_refl eq_refl ltac:(discriminate)) as [H _].
  exact H.
Defined.
